(** * Smart data profiler: a shallow embedding of
    [src/building_blocks/data/smart_data_profiler.py] and the properties of
    its type classifier, pattern detector, correlation and missing-pattern
    analyzers, quality scorer and orchestrator.

    Conventions of the embedding.
    - Python floats are exact rationals plus NaN ([pyfloat]); rounding of
      binary64 arithmetic is not modelled, and no infinity arises on the
      modelled paths (every division has a non-zero divisor or is 0/0).
    - Python objects that flow through the profiler are [cell]s (scalars held
      in a DataFrame, dict keys) and [pyval]s (scalars, lists and dicts).
    - A Python dict is an association list in insertion order whose keys are
      compared with Python's [==].
    - Code that can raise returns [res]; [try]/[except] is [pytry].
    - Functions of pandas itself (number and date parsing, regular
      expressions, sampling, standard deviation, Pearson correlation, ...)
      are the fields of the class [Pandas]; every theorem holds for every
      instance of it. *)

From Stdlib Require Import ZArith QArith Qround List String Ascii Bool Lia Arith.
From Stdlib Require Import Permutation Lqa.
Import ListNotations.

Local Open Scope string_scope.
Local Open Scope list_scope.

(* ================================================================== *)
(** ** Exceptions *)
(* ================================================================== *)

Inductive exc_class :=
| TypeError | AttributeError | ValueError | KeyError | ZeroDivisionError
| OtherException.

Record exc := mk_exc { exc_cls : exc_class; exc_msg : string }.

Inductive res (A : Type) :=
| Ok (a : A)
| Raise (e : exc).
Arguments Ok {A} a.
Arguments Raise {A} e.

Definition bind {A B} (c : res A) (k : A -> res B) : res B :=
  match c with
  | Ok a => k a
  | Raise e => Raise e
  end.

Notation "'do' x <- c ; k" := (bind c (fun x => k))
  (at level 10, x name, c at level 100, k at level 200).

Definition exc_class_eqb (a b : exc_class) : bool :=
  match a, b with
  | TypeError, TypeError | AttributeError, AttributeError
  | ValueError, ValueError | KeyError, KeyError
  | ZeroDivisionError, ZeroDivisionError
  | OtherException, OtherException => true
  | _, _ => false
  end.

(** [try: c  except cls: h]; an exception of another class propagates. *)
Definition pytry_class {A} (cls : exc_class) (c : res A) (h : res A) : res A :=
  match c with
  | Ok a => Ok a
  | Raise e => if exc_class_eqb (exc_cls e) cls then h else Raise e
  end.

(** [try: c  except: h] (and [except Exception]). *)
Definition pytry {A} (c : res A) (h : exc -> res A) : res A :=
  match c with
  | Ok a => Ok a
  | Raise e => h e
  end.

Fixpoint mapM {A B} (f : A -> res B) (l : list A) : res (list B) :=
  match l with
  | [] => Ok []
  | x :: r => do y <- f x; do ys <- mapM f r; Ok (y :: ys)
  end.

(* ================================================================== *)
(** ** Floats *)
(* ================================================================== *)

Inductive pyfloat :=
| Fin (q : Q)
| NaN.

Definition Qlt_bool (a b : Q) : bool := negb (Qle_bool b a).

Module F.
Definition add (a b : pyfloat) : pyfloat :=
  match a, b with Fin x, Fin y => Fin (x + y) | _, _ => NaN end.
Definition sub (a b : pyfloat) : pyfloat :=
  match a, b with Fin x, Fin y => Fin (x - y) | _, _ => NaN end.
Definition mul (a b : pyfloat) : pyfloat :=
  match a, b with Fin x, Fin y => Fin (x * y) | _, _ => NaN end.
(** Every comparison with NaN is false. *)
Definition ltb (a b : pyfloat) : bool :=
  match a, b with Fin x, Fin y => Qlt_bool x y | _, _ => false end.
Definition leb (a b : pyfloat) : bool :=
  match a, b with Fin x, Fin y => Qle_bool x y | _, _ => false end.
(** Python's [min(a, b)]: [b] when [b < a], else [a]. *)
Definition min (a b : pyfloat) : pyfloat := if ltb b a then b else a.
(** numpy true division: 0/0 is NaN (a warning, no exception). The
    profiler only divides by zero a zero numerator. *)
Definition np_div (a b : pyfloat) : pyfloat :=
  match a, b with
  | Fin x, Fin y => if Qeq_bool y 0 then NaN else Fin (x / y)
  | _, _ => NaN
  end.
(** Python true division of two numbers. *)
Definition py_div (a b : pyfloat) : res pyfloat :=
  match a, b with
  | Fin x, Fin y =>
      if Qeq_bool y 0 then Raise (mk_exc ZeroDivisionError "division by zero")
      else Ok (Fin (x / y))
  | _, _ => Ok NaN
  end.
Definition of_Z (z : Z) : pyfloat := Fin (inject_Z z).
Definition of_nat (n : nat) : pyfloat := Fin (inject_Z (Z.of_nat n)).
End F.

(* ================================================================== *)
(** ** Python objects *)
(* ================================================================== *)

Inductive container := KList | KDict | KTuple | KSet.

(** Scalars: what a DataFrame cell holds and what keys a dict. Timestamps
    are integers (nanoseconds since the epoch); a container carries its
    [len] and its [repr], a foreign object its class and its [repr]. *)
Inductive cell :=
| CNone
| CNaN
| CBool (b : bool)
| CInt (z : Z)
| CFloat (q : Q)
| CStr (s : string)
| CTimestamp (t : Z)
| CDatetime (t : Z)
| CDate (d : Z)
| CContainer (k : container) (size : nat) (repr : string)
| COther (cls : string) (repr : string).

Coercion CStr : string >-> cell.

Inductive pytype :=
| TNoneType | TBool | TInt | TFloat | TStr | TTimestamp | TDatetime | TDate
| TList | TDict | TTuple | TSet | TOther (cls : string).

(** [type(x)] *)
Definition type_of (c : cell) : pytype :=
  match c with
  | CNone => TNoneType
  | CNaN => TFloat
  | CBool _ => TBool
  | CInt _ => TInt
  | CFloat _ => TFloat
  | CStr _ => TStr
  | CTimestamp _ => TTimestamp
  | CDatetime _ => TDatetime
  | CDate _ => TDate
  | CContainer KList _ _ => TList
  | CContainer KDict _ _ => TDict
  | CContainer KTuple _ _ => TTuple
  | CContainer KSet _ _ => TSet
  | COther cls _ => TOther cls
  end.

(** [type(x).__name__] *)
Definition type_name (t : pytype) : string :=
  match t with
  | TNoneType => "NoneType" | TBool => "bool" | TInt => "int"
  | TFloat => "float" | TStr => "str" | TTimestamp => "Timestamp"
  | TDatetime => "datetime" | TDate => "date" | TList => "list"
  | TDict => "dict" | TTuple => "tuple" | TSet => "set"
  | TOther cls => cls
  end.

Definition pytype_eqb (a b : pytype) : bool :=
  match a, b with
  | TNoneType, TNoneType | TBool, TBool | TInt, TInt | TFloat, TFloat
  | TStr, TStr | TTimestamp, TTimestamp | TDatetime, TDatetime
  | TDate, TDate | TList, TList | TDict, TDict | TTuple, TTuple
  | TSet, TSet => true
  | TOther x, TOther y => String.eqb x y
  | _, _ => false
  end.

(** The number a cell denotes, when it is one: [bool] is a subclass of
    [int], so [True] is 1 and [False] is 0. *)
Definition num_of (c : cell) : option pyfloat :=
  match c with
  | CBool true => Some (Fin 1)
  | CBool false => Some (Fin 0)
  | CInt z => Some (F.of_Z z)
  | CFloat q => Some (Fin q)
  | CNaN => Some NaN
  | _ => None
  end.

Definition container_eqb (a b : container) : bool :=
  match a, b with
  | KList, KList | KDict, KDict | KTuple, KTuple | KSet, KSet => true
  | _, _ => false
  end.

(** Python's [==] on scalars, as hashing containers use it (pandas' hash
    tables and Python's [set] and [dict]): numbers compare by value across
    [bool], [int] and [float], so [True == 1 == 1.0] and [False == 0]; a
    [Timestamp] equals the [datetime] of the same instant. Two NaN are one
    value for pandas' tables. *)
Definition py_eqb (a b : cell) : bool :=
  match a, b with
  | CNone, CNone => true
  | CNaN, CNaN => true
  | CStr x, CStr y => String.eqb x y
  | (CTimestamp x | CDatetime x), (CTimestamp y | CDatetime y) => Z.eqb x y
  | CDate x, CDate y => Z.eqb x y
  | CContainer k _ x, CContainer l _ y => container_eqb k l && String.eqb x y
  | COther c x, COther d y => String.eqb c d && String.eqb x y
  | _, _ =>
      match num_of a, num_of b with
      | Some (Fin x), Some (Fin y) => Qeq_bool x y
      | _, _ => false
      end
  end.

(** [x in s] for a set or list [s]. *)
Definition py_in (x : cell) (s : list cell) : bool := existsb (py_eqb x) s.

(** [set(a).issubset(b)] *)
Definition issubset (a b : list cell) : bool := forallb (fun x => py_in x b) a.

(** Lists, dicts and sets have no hash. *)
Definition unhashable (c : cell) : bool :=
  match c with
  | CContainer KList _ _ | CContainer KDict _ _ | CContainer KSet _ _ => true
  | _ => false
  end.

#[warnings="-register-all"]
Inductive pyval :=
| Atom (c : cell)
| PList (l : list pyval)
| PDict (d : list (cell * pyval)).

Definition pydict := list (cell * pyval).

Coercion Atom : cell >-> pyval.

(** [d.get(k)] as an option, [k in d], [d[k] = v], [d.update(e)] *)
Fixpoint dict_get (k : cell) (d : pydict) : option pyval :=
  match d with
  | [] => None
  | (k', v) :: r => if py_eqb k k' then Some v else dict_get k r
  end.

Definition dict_mem (k : cell) (d : pydict) : bool :=
  match dict_get k d with Some _ => true | None => false end.

Fixpoint dict_set (k : cell) (v : pyval) (d : pydict) : pydict :=
  match d with
  | [] => [(k, v)]
  | (k', v') :: r =>
      if py_eqb k k' then (k', v) :: r else (k', v') :: dict_set k v r
  end.

Definition dict_update (d e : pydict) : pydict :=
  fold_left (fun acc kv => dict_set (fst kv) (snd kv) acc) e d.

(** [d.get(k, default)] *)
Definition dict_get_default (k : cell) (default : pyval) (d : pydict) : pyval :=
  match dict_get k d with Some v => v | None => default end.

(** [d[k]] on a dict; on anything else the subscript is a [TypeError]. *)
Definition subscript (v : pyval) (k : cell) : res pyval :=
  match v with
  | PDict d =>
      match dict_get k d with
      | Some x => Ok x
      | None => Raise (mk_exc KeyError "key")
      end
  | _ => Raise (mk_exc TypeError "object is not subscriptable")
  end.

(** Truth value of an object. *)
Definition truthy (v : pyval) : bool :=
  match v with
  | Atom CNone => false
  | Atom (CBool b) => b
  | Atom (CInt z) => negb (Z.eqb z 0)
  | Atom (CFloat q) => negb (Qeq_bool q 0)
  | Atom (CStr s) => negb (String.eqb s "")
  | Atom (CContainer _ size _) => negb (size =? 0)%nat
  | Atom _ => true
  | PList l => match l with [] => false | _ => true end
  | PDict d => match d with [] => false | _ => true end
  end.

(** The float a value stands for in arithmetic and ordering; anything but a
    number is a [TypeError]. *)
Definition to_float (v : pyval) : res pyfloat :=
  match v with
  | Atom c =>
      match num_of c with
      | Some f => Ok f
      | None => Raise (mk_exc TypeError "unsupported operand type(s)")
      end
  | _ => Raise (mk_exc TypeError "unsupported operand type(s)")
  end.

(** [a == b] where [b] is a string literal. *)
Definition eq_str (v : pyval) (s : string) : bool :=
  match v with
  | Atom (CStr x) => String.eqb x s
  | _ => false
  end.

(* ================================================================== *)
(** ** Series and DataFrames *)
(* ================================================================== *)

(** The storage dtype of a column ([series.dtype]). *)
Inductive storage := SBool | SInt64 | SFloat64 | SDatetime64 | SObject.

(** A Series: its dtype and its rows, each an index label with a value. *)
Record Series := mk_series {
  s_dtype : storage;
  s_rows : list (Z * cell)
}.

(** A DataFrame: the row index and the named columns, each a dtype with
    one value per row. *)
Record DataFrame := mk_df {
  df_index : list Z;
  df_columns : list (string * (storage * list cell))
}.

Definition s_values (s : Series) : list cell := map snd (s_rows s).
Definition s_index (s : Series) : list Z := map fst (s_rows s).

(** [len(series)], [len(df)], [df.empty], [df.columns], [df[column]] *)
Definition s_len (s : Series) : nat := List.length (s_rows s).
Definition df_len (df : DataFrame) : nat := List.length (df_index df).
Definition df_empty (df : DataFrame) : bool :=
  match df_index df, df_columns df with
  | [], _ | _, [] => true
  | _, _ => false
  end.
Definition df_names (df : DataFrame) : list string := map fst (df_columns df).
Definition series_of (df : DataFrame) (col : storage * list cell) : Series :=
  mk_series (fst col) (combine (df_index df) (snd col)).

(** Every column has one value per row and no two columns share a name. *)
Definition wf_df (df : DataFrame) : Prop :=
  NoDup (df_names df) /\
  Forall (fun c => List.length (snd (snd c)) = df_len df) (df_columns df).

(** [pd.isnull] on a scalar: [None] and NaN (and NaT) are missing. *)
Definition isnull (c : cell) : bool :=
  match c with CNone | CNaN => true | _ => false end.
Definition notnull (c : cell) : bool := negb (isnull c).

(** [series.isnull().sum()], [series.dropna()], [series.head(n)] *)
Definition null_count (s : Series) : nat :=
  List.length (filter isnull (s_values s)).
Definition dropna (s : Series) : Series :=
  mk_series (s_dtype s) (filter (fun r => notnull (snd r)) (s_rows s)).
Definition head (n : nat) (s : Series) : list cell := firstn n (s_values s).

Definition is_str (c : cell) : bool :=
  match c with CStr _ => true | _ => false end.

(** [pd.api.types.is_datetime64_any_dtype], [series.dtype == bool],
    [pd.api.types.is_numeric_dtype] (which counts [bool] as numeric) and
    membership in [np.number] (which does not). *)
Definition is_datetime64_any_dtype (s : Series) : bool :=
  match s_dtype s with SDatetime64 => true | _ => false end.
Definition dtype_is_bool (s : Series) : bool :=
  match s_dtype s with SBool => true | _ => false end.
Definition is_numeric_dtype (s : Series) : bool :=
  match s_dtype s with SBool | SInt64 | SFloat64 => true | _ => false end.
Definition is_np_number (d : storage) : bool :=
  match d with SInt64 | SFloat64 => true | _ => false end.

(** The distinct values in order of first appearance. *)
Fixpoint dedupe (seen : list cell) (l : list cell) : list cell :=
  match l with
  | [] => []
  | x :: r =>
      if py_in x seen then dedupe seen r else x :: dedupe (x :: seen) r
  end.

(** [series.unique()]: hashing an unhashable value is a [TypeError]. *)
Definition pd_unique (l : list cell) : res (list cell) :=
  if existsb unhashable l
  then Raise (mk_exc TypeError "unhashable type")
  else Ok (dedupe [] l).

(** [series.nunique()]: missing values are not counted. *)
Definition pd_nunique (l : list cell) : res nat :=
  do u <- pd_unique l; Ok (List.length (filter notnull u)).

(** The part of pandas, numpy and the standard library that the profiler
    calls and that is not modelled here. *)
Class Pandas := {
  (** [pd.to_numeric(x, errors='coerce')] on a text value; NaN when it
      does not parse *)
  parse_number : string -> pyfloat;
  (** the same on a date, a container or a foreign object *)
  coerce_object : cell -> res pyfloat;
  (** what the clock reads during the run, in nanoseconds since the
      epoch *)
  clock : Z;
  (** [pd.to_datetime(values, errors='coerce', format='mixed')] called
      when the clock reads the first argument: the texts 'now' and
      'today', and a text that gives a time of day only, are read against
      the clock; [None] is NaT *)
  pd_to_datetime : Z -> list cell -> res (list (option Z));
  (** [re.match(pattern, text) is not None] *)
  re_match : string -> string -> bool;
  (** [Series.mean], [median], [std], [min], [max], [quantile(p)] of
      numbers *)
  pd_mean : list Q -> pyfloat;
  pd_median : list Q -> pyfloat;
  pd_std : list Q -> pyfloat;
  pd_min : list Q -> pyfloat;
  pd_max : list Q -> pyfloat;
  pd_quantile : Q -> list Q -> pyfloat;
  (** [series.value_counts()]: the distinct values that are not missing
      with their counts, the most frequent first; and
      [counts.get(key, default)] on its result *)
  pd_value_counts : list cell -> res (list (cell * Z));
  pd_get : list (cell * Z) -> cell -> Z -> Z;
  (** one coefficient of [DataFrame.corr()] *)
  pd_corr : list cell -> list cell -> pyfloat;
  (** [df.sample(n=n, random_state=seed)] *)
  pd_sample : Z -> pyval -> DataFrame -> res DataFrame;
  (** [Timestamp.isoformat()] and [str(Timedelta)] *)
  isoformat : Z -> string;
  timedelta_str : Z -> string
}.


Section Profiler.

Context {P : Pandas}.

(** [pd.to_numeric(series, errors='coerce')], value by value. *)
Definition to_numeric_cell (c : cell) : res pyfloat :=
  match c with
  | CStr s => Ok (parse_number s)
  | CNone => Ok NaN
  | CTimestamp _ | CDatetime _ | CDate _ | CContainer _ _ _ | COther _ _ =>
      coerce_object c
  | _ => match num_of c with Some f => Ok f | None => Ok NaN end
  end.

Definition to_numeric (l : list cell) : res (list pyfloat) :=
  mapM to_numeric_cell l.

Definition notna (f : pyfloat) : bool :=
  match f with Fin _ => true | NaN => false end.

Definition ratio (a b : nat) : Q :=
  inject_Z (Z.of_nat a) / inject_Z (Z.of_nat b).

(* ================================================================== *)
(** ** Type classifier: [_determine_dtype] *)
(* ================================================================== *)

Definition boolean_literals : list cell :=
  [CBool true; CBool false; CStr "True"; CStr "False"; CStr "true";
   CStr "false"].

Fixpoint type_set (seen : list pytype) (l : list cell) : list pytype :=
  match l with
  | [] => []
  | x :: r =>
      if existsb (pytype_eqb (type_of x)) seen then type_set seen r
      else type_of x :: type_set (type_of x :: seen) r
  end.

Definition is_not_None (c : cell) : bool :=
  match c with CNone => false | _ => true end.

Definition datetime_types : list pytype := [TStr; TDatetime; TTimestamp; TDate].
Definition complex_types : list pytype := [TDict; TList; TTuple; TSet].

Definition type_in (t : pytype) (l : list pytype) : bool :=
  existsb (pytype_eqb t) l.

Definition count_some {A} (l : list (option A)) : nat :=
  List.length (filter (fun o => match o with Some _ => true | None => false end) l).

(** Lines 321-333: the boolean rule. [None] stands for falling through. *)
Definition boolean_rule (series : Series) : res (option string) :=
  pytry_class TypeError
    (do unique_vals <- pd_unique (s_values series);
     if dtype_is_bool series then Ok (Some "boolean")
     else if (List.length unique_vals =? 2)%nat
             && issubset unique_vals boolean_literals
     then Ok (Some "boolean")
     else Ok None)
    (Ok None).

(** Lines 339-354: the rule for text columns. *)
Definition numeric_string_rule (series : Series) : res string :=
  pytry
    (do numeric_series <- to_numeric (s_values series);
     let valid_numeric := List.length (filter notna numeric_series) in
     if Qlt_bool (9 # 10) (ratio valid_numeric (s_len series))
     then Ok "numeric"
     else if (0 <? valid_numeric)%nat then Ok "mixed"
     else Ok "string")
    (fun _ => Ok "string").

(** Lines 356-379: several value types in one column. *)
Definition mixed_types_rule (series : Series) (types : list pytype)
  : res string :=
  if forallb (fun t => type_in t datetime_types) types then
    pytry
      (do parsed <- pd_to_datetime clock (s_values series);
       let valid_dates := count_some parsed in
       if (valid_dates =? s_len series)%nat then Ok "datetime"
       else Ok "mixed")
      (fun _ => Ok "mixed")
  else if existsb (fun t => type_in t types) complex_types then Ok "object"
  else Ok "mixed".

(** Lines 381-388: text that parses as dates. *)
Definition datetime_string_rule (series : Series) : res (option string) :=
  pytry
    (do parsed <- pd_to_datetime clock (s_values series);
     let valid_dates := count_some parsed in
     if (0 <? valid_dates)%nat
        && Qlt_bool (7 # 10) (ratio valid_dates (s_len series))
     then Ok (Some "datetime")
     else Ok None)
    (fun _ => Ok None).

Definition _determine_dtype (series : Series) : res string :=
  if (s_len series =? 0)%nat then Ok "text"
  else if is_datetime64_any_dtype series then Ok "datetime"
  else
    do b <- boolean_rule series;
    match b with
    | Some label => Ok label
    | None =>
        if is_numeric_dtype series then Ok "numeric"
        else if forallb is_str (head 100 series)
        then numeric_string_rule series
        else
          let types := type_set [] (filter is_not_None (s_values series)) in
          if (1 <? List.length types)%nat then mixed_types_rule series types
          else
            do d <- datetime_string_rule series;
            match d with
            | Some label => Ok label
            | None =>
                if forallb is_str (head 100 series) then Ok "string"
                else Ok "object"
            end
    end.

(* ================================================================== *)
(** ** Column profiler *)
(* ================================================================== *)

Definition float_cell (f : pyfloat) : cell :=
  match f with Fin q => CFloat q | NaN => CNaN end.

Definition VInt (z : Z) : pyval := Atom (CInt z).
Definition VNat (n : nat) : pyval := Atom (CInt (Z.of_nat n)).
Definition VFloat (f : pyfloat) : pyval := Atom (float_cell f).
Definition VBool (b : bool) : pyval := Atom (CBool b).
Definition VStr (s : string) : pyval := Atom (CStr s).
Definition VNone : pyval := Atom CNone.

(** The rows of [pd.to_numeric(series, errors='coerce').dropna()]. *)
Fixpoint finite_rows (idx : list Z) (nums : list pyfloat) : list (Z * Q) :=
  match idx, nums with
  | i :: idx', Fin q :: nums' => (i, q) :: finite_rows idx' nums'
  | _ :: idx', NaN :: nums' => finite_rows idx' nums'
  | _, _ => []
  end.

Definition hundred : pyfloat := Fin 100.

(** Lines 396-436. *)
Definition _profile_numeric (series : Series) : res pydict :=
  do nums <- to_numeric (s_values series);
  let numeric_series := finite_rows (s_index series) nums in
  let xs := map snd numeric_series in
  let std_dev :=
    match pd_std xs with
    | NaN => Fin 0
    | Fin q => if (List.length xs =? 1)%nat then Fin 0 else Fin q
    end in
  let q1 := pd_quantile (1 # 4) xs in
  let q3 := pd_quantile (3 # 4) xs in
  let profile : pydict :=
    [(CStr "mean", VFloat (pd_mean xs));
     (CStr "median", VFloat (pd_median xs));
     (CStr "std_dev", VFloat std_dev);
     (CStr "min", VFloat (pd_min xs));
     (CStr "max", VFloat (pd_max xs));
     (CStr "q1", VFloat q1);
     (CStr "q3", VFloat q3)] in
  let iqr := F.sub q3 q1 in
  let lower_bound := F.sub q1 (F.mul (Fin 2) iqr) in
  let upper_bound := F.add q3 (F.mul (Fin 2) iqr) in
  let outliers :=
    filter (fun r => F.ltb (Fin (snd r)) lower_bound
                     || F.ltb upper_bound (Fin (snd r))) numeric_series in
  let capped :=
    if (List.length outliers <? 100)%nat then outliers
    else firstn 100 outliers in
  Ok (dict_set "outliers"
        (PDict
           [(CStr "count", VNat (List.length outliers));
            (CStr "values", PList (map (fun r => VFloat (Fin (snd r))) capped));
            (CStr "indices", PList (map (fun r => VInt (fst r)) capped))])
        profile).

(** [series.str.len()]: the length of a text or of a container, NaN
    ([None] here) for anything else. *)
Definition str_len (c : cell) : option Z :=
  match c with
  | CStr s => Some (Z.of_nat (String.length s))
  | CContainer _ n _ => Some (Z.of_nat n)
  | _ => None
  end.

Fixpoint somes {A} (l : list (option A)) : list A :=
  match l with
  | [] => []
  | Some x :: r => x :: somes r
  | None :: r => somes r
  end.

(** [min()] and [max()] of a column of lengths: an integer when no length
    is NaN, a float otherwise, NaN when there is none. *)
Definition lens_extremum (pick : Z -> Z -> Z) (lens : list (option Z)) : pyval :=
  match somes lens with
  | [] => Atom CNaN
  | x :: r =>
      let m := fold_left pick r x in
      if (List.length (somes lens) =? List.length lens)%nat then VInt m
      else VFloat (F.of_Z m)
  end.

(** Lines 438-483. *)
Definition _profile_string (series : Series) : res pydict :=
  let vals := s_values series in
  do uniq <-
    pytry_class TypeError
      (do unique_count <- pd_nunique vals;
       Ok (Some unique_count))
      (Ok None);
  let profile : pydict :=
    match uniq with
    | Some unique_count =>
        [(CStr "unique_count", VNat unique_count);
         (CStr "unique_percentage",
          VFloat (F.mul (F.np_div (F.of_nat unique_count)
                                   (F.of_nat (s_len series))) hundred))]
    | None =>
        [(CStr "unique_count", VNone); (CStr "unique_percentage", VNone)]
    end in
  do profile <-
    pytry_class TypeError
      (do value_counts <- pd_value_counts vals;
       let profile :=
         dict_set "most_common_values"
           (PDict (fold_left
                     (fun d kv => dict_set (fst kv) (VInt (snd kv)) d)
                     (firstn 10 value_counts) []))
           profile in
       match uniq with
       | Some unique_count =>
           Ok (dict_set "is_potential_id"
                 (VBool (negb (unique_count =? 0)%nat
                         && (unique_count =? s_len series)%nat))
                 profile)
       | None => Ok (dict_set "is_potential_id" (VBool false) profile)
       end)
      (Ok (dict_set "is_potential_id" (VBool false)
             (dict_set "most_common_values" (PDict []) profile)));
  let lens := map str_len vals in
  pytry_class AttributeError
    (Ok (dict_set "max_length" (lens_extremum Z.max lens)
           (dict_set "min_length" (lens_extremum Z.min lens)
              (dict_set "avg_length"
                 (VFloat (pd_mean (map inject_Z (somes lens)))) profile))))
    (Ok (dict_set "max_length" VNone
           (dict_set "min_length" VNone
              (dict_set "avg_length" VNone profile)))).

(** [series.sort_values()] on timestamps. *)
Fixpoint insert_sorted (x : Z) (l : list Z) : list Z :=
  match l with
  | [] => [x]
  | y :: r => if (x <? y)%Z then x :: y :: r else y :: insert_sorted x r
  end.
Definition sort_values (l : list Z) : list Z := fold_right insert_sorted [] l.

(** [series.diff().dropna()] *)
Fixpoint diff (l : list Z) : list Z :=
  match l with
  | x :: (y :: _) as r => (y - x)%Z :: diff r
  | _ => []
  end.

Definition count_occ_Z (x : Z) (l : list Z) : nat :=
  List.length (filter (Z.eqb x) l).

(** [series.mode()[0]]: the most frequent value, the smallest of them
    when several are. *)
Definition mode0 (l : list Z) : option Z :=
  fold_left
    (fun best x =>
       match best with
       | None => Some x
       | Some b =>
           if (count_occ_Z b l <? count_occ_Z x l)%nat then Some x
           else if (count_occ_Z b l =? count_occ_Z x l)%nat && (x <? b)%Z
           then Some x else Some b
       end)
    l None.

Definition ns_per_day : Z := 86400000000000.

(** Time stamps and their differences are 64-bit counts of nanoseconds:
    a difference above [2^63 - 1] does not fit, and [diff] on
    [datetime64[ns]] raises [OverflowError] for it. *)
Definition max_timedelta : Z := 9223372036854775807.
Definition overflow_error : exc :=
  mk_exc OtherException "Overflow in int64 addition".

(** Lines 510-542. The dates come sorted out of line 523, so no
    difference is negative. *)
Definition _detect_date_frequency (series : list Z) : res string :=
  if (List.length series <? 2)%nat then Ok "insufficient_data"
  else
    let sorted_series := sort_values series in
    let diffs := diff sorted_series in
    if existsb (fun gap => (max_timedelta <? gap)%Z) diffs
    then Raise overflow_error
    else
      match mode0 diffs with
      | None => Ok "unknown"
      | Some most_common_diff =>
          let days := (most_common_diff / ns_per_day)%Z in
          if (most_common_diff =? ns_per_day)%Z then Ok "daily"
          else if (most_common_diff =? 7 * ns_per_day)%Z then Ok "weekly"
          else if (28 <=? days)%Z && (days <=? 31)%Z then Ok "monthly"
          else if (365 <=? days)%Z && (days <=? 366)%Z then Ok "yearly"
          else Ok ("custom (" ++ timedelta_str most_common_diff ++ ")")%string
      end.

(** Lines 485-508. *)
Definition _profile_datetime (series : Series) : res pydict :=
  do parsed <- pd_to_datetime clock (s_values series);
  let dt_series := somes parsed in
  match dt_series with
  | [] => Ok []
  | t :: r =>
      do frequency <- _detect_date_frequency dt_series;
      Ok [(CStr "date_range",
           PDict [(CStr "min", VStr (isoformat (fold_left Z.min r t)));
                  (CStr "max", VStr (isoformat (fold_left Z.max r t)))]);
          (CStr "frequency", VStr frequency)]
  end.

(** Lines 544-558. *)
Definition _profile_boolean (series : Series) : res pydict :=
  do value_counts <- pd_value_counts (s_values series);
  let true_count := pd_get value_counts (CBool true) 0 in
  Ok [(CStr "true_count", VInt true_count);
      (CStr "false_count", VInt (pd_get value_counts (CBool false) 0));
      (CStr "true_percentage",
       VFloat (F.mul (F.np_div (F.of_Z true_count)
                                (F.of_nat (s_len series))) hundred))].

Definition nunique_or_None (vals : list cell) : res pyval :=
  pytry_class TypeError
    (do unique_count <- pd_nunique vals; Ok (VNat unique_count))
    (Ok VNone).

(** Lines 560-583. *)
Definition _profile_mixed (series : Series) : res pydict :=
  let type_counts :=
    fold_left
      (fun d value =>
         let type_name := CStr (type_name (type_of value)) in
         match dict_get_default type_name (VInt 0) d with
         | Atom (CInt n) => dict_set type_name (VInt (n + 1)) d
         | _ => d
         end)
      (s_values series) [] in
  do unique_count <- nunique_or_None (s_values series);
  Ok [(CStr "type_distribution", PDict type_counts);
      (CStr "unique_count", unique_count)].

(** Lines 585-603. *)
Definition _profile_object (series : Series) : res pydict :=
  do unique_count <- nunique_or_None (s_values series);
  Ok [(CStr "unique_count", unique_count); (CStr "type", VStr "object")].

(** Lines 260-302. The threshold is not used. *)
Definition _profile_column (series : Series) (column_name : string)
    (pattern_threshold : pyval) : res pydict :=
  let profile : pydict :=
    [(CStr "count", VNat (s_len series));
     (CStr "null_count", VNat (null_count series));
     (CStr "null_percentage",
      VFloat (F.mul (F.np_div (F.of_nat (null_count series))
                               (F.of_nat (s_len series))) hundred))] in
  let non_null := dropna series in
  if (s_len non_null =? 0)%nat
  then Ok (dict_set "dtype" (VStr "all_null") profile)
  else
    do dtype <- _determine_dtype non_null;
    let profile := dict_set "dtype" (VStr dtype) profile in
    do stats <-
      (if String.eqb dtype "numeric" then _profile_numeric non_null
       else if String.eqb dtype "string" then _profile_string non_null
       else if String.eqb dtype "datetime" then _profile_datetime non_null
       else if String.eqb dtype "boolean" then _profile_boolean non_null
       else if String.eqb dtype "mixed" then _profile_mixed non_null
       else _profile_object non_null);
    Ok (dict_update profile stats).

(* ================================================================== *)
(** ** Pattern detector: [_detect_patterns] *)
(* ================================================================== *)

Definition email_pattern : string :=
  "^[a-zA-Z0-9._%+-]+@[a-zA-Z0-9.-]+\.[a-zA-Z]{2,}$".
Definition phone_pattern : string := "^[+\-\(\)\d\s]+$".
Definition date_patterns : list string :=
  ["^\d{4}-\d{2}-\d{2}$"; "^\d{2}/\d{2}/\d{4}$"; "^\d{2}-\d{2}-\d{4}$";
   "^\d{4}/\d{2}/\d{2}$"].

(** [series.str.match(pattern).sum()]: a value that is not text gives NaN,
    which the sum skips. *)
Definition match_count (pattern : string) (vals : list cell) : nat :=
  List.length
    (filter (fun c => match c with
                      | CStr s => re_match pattern s
                      | _ => false
                      end) vals).

(** [bool(x >= threshold)] for a float [x] *)
Definition ge_threshold (x : pyfloat) (threshold : pyval) : res bool :=
  do t <- to_float threshold; Ok (F.leb t x).

(** Lines 625-661: the flags of a text column. *)
Definition string_patterns (series non_null : Series) (threshold : pyval)
    (patterns : pydict) : res pydict :=
  let n := s_len non_null in
  let vals := s_values non_null in
  do is_email <-
    ge_threshold (F.np_div (F.of_nat (match_count email_pattern vals))
                           (F.of_nat n)) threshold;
  let patterns := dict_set "is_email" (VBool is_email) patterns in
  do is_phone <-
    ge_threshold (F.np_div (F.of_nat (match_count phone_pattern vals))
                           (F.of_nat n)) threshold;
  let patterns := dict_set "is_phone" (VBool is_phone) patterns in
  do dtype <- _determine_dtype series;
  do patterns <-
    (if String.eqb dtype "datetime"
     then Ok (dict_set "is_date" (VBool true) patterns)
     else
       let date_matches :=
         fold_left (fun acc pattern => (acc + match_count pattern vals)%nat)
                   date_patterns 0%nat in
       do is_date <-
         ge_threshold (F.np_div (F.of_nat date_matches) (F.of_nat n))
                      threshold;
       Ok (dict_set "is_date" (VBool is_date) patterns));
  pytry_class TypeError
    (do nunique <- pd_nunique (s_values series);
     if (nunique =? s_len series)%nat
     then Ok (dict_set "is_id" (VBool true) patterns)
     else Ok (dict_set "is_id" (VBool false) patterns))
    (Ok (dict_set "is_id" (VBool false) patterns)).

(** Lines 605-684. *)
Definition _detect_patterns (series : Series) (column_name : string)
    (threshold : pyval) : res pydict :=
  let patterns : pydict := [] in
  let non_null := dropna series in
  if (s_len non_null =? 0)%nat then Ok patterns
  else
    do patterns <-
      (if forallb is_str (head 100 non_null)
       then string_patterns series non_null threshold patterns
       else Ok patterns);
    do patterns <-
      pytry_class TypeError
        (do unique_count <- pd_nunique (s_values series);
         let unique_ratio := ratio unique_count (s_len series) in
         Ok (dict_set "is_categorical"
               (VBool ((unique_count <=? 10)%nat
                       || (Qlt_bool unique_ratio (1 # 20)
                           && (unique_count <? 50)%nat)))
               patterns))
        (Ok (dict_set "is_categorical" (VBool false) patterns));
    pytry
      (do numeric_series <- to_numeric (s_values series);
       if (0 <? List.length (filter notna numeric_series))%nat
       then
         do nunique <- pd_nunique (map float_cell numeric_series);
         let numeric_unique_ratio :=
           ratio nunique (List.length numeric_series) in
         Ok (dict_set "is_continuous"
               (VBool (Qlt_bool (1 # 2) numeric_unique_ratio)) patterns)
       else Ok (dict_set "is_continuous" (VBool false) patterns))
      (fun _ => Ok (dict_set "is_continuous" (VBool false) patterns)).

(* ================================================================== *)
(** ** Correlation analyzer: [_calculate_correlations] *)
(* ================================================================== *)

(** [df.select_dtypes(include=[np.number])] *)
Definition numeric_columns (df : DataFrame)
  : list (string * (storage * list cell)) :=
  filter (fun c => is_np_number (fst (snd c))) (df_columns df).

(** Lines 686-712. *)
Definition _calculate_correlations (df : DataFrame) : pydict :=
  let numeric_columns := numeric_columns df in
  if (List.length numeric_columns <? 2)%nat then []
  else
    fold_left
      (fun correlations col1 =>
         dict_set (CStr (fst col1))
           (PDict
              (fold_left
                 (fun inner col2 =>
                    if negb (String.eqb (fst col1) (fst col2))
                    then dict_set (CStr (fst col2))
                           (VFloat (pd_corr (snd (snd col1))
                                            (snd (snd col2)))) inner
                    else inner)
                 numeric_columns []))
           correlations)
      numeric_columns [].

(* ================================================================== *)
(** ** Missing-pattern analyzer *)
(* ================================================================== *)

Fixpoint range_from (start : Z) (n : nat) : list Z :=
  match n with
  | O => []
  | S k => start :: range_from (start + 1) k
  end.

(** [list(range(n))] *)
Definition range (n : nat) : list Z := range_from 0 n.

Fixpoint list_eqb_Z (a b : list Z) : bool :=
  match a, b with
  | [], [] => true
  | x :: a', y :: b' => Z.eqb x y && list_eqb_Z a' b'
  | _, _ => false
  end.

(** [len(set(diffs))] *)
Fixpoint set_size (seen : list Z) (l : list Z) : nat :=
  match l with
  | [] => 0
  | x :: r =>
      if existsb (Z.eqb x) seen then set_size seen r
      else S (set_size (x :: seen) r)
  end.

(** Lines 752-778. [null_mask] is the column of [isnull] flags, each with
    its index label. *)
Definition _detect_missing_pattern (null_mask : list (Z * bool)) : string :=
  let null_indices := map fst (filter snd null_mask) in
  match null_indices with
  | [] => "none"
  | _ =>
      if list_eqb_Z null_indices (range (List.length null_indices))
      then "block"
      else if (1 <? List.length null_indices)%nat
              && (set_size [] (diff null_indices) =? 1)%nat
      then "systematic"
      else "random"
  end.

Definition null_mask (s : Series) : list (Z * bool) :=
  map (fun r => (fst r, isnull (snd r))) (s_rows s).

(** One iteration of the loop of lines 725-748. *)
Definition missing_record (df : DataFrame) (col : storage * list cell)
  : pydict :=
  let series := series_of df col in
  let null_count := null_count series in
  if (null_count =? 0)%nat then
    [(CStr "pattern", VStr "none"); (CStr "count", VInt 0);
     (CStr "percentage", VInt 0)]
  else if (null_count =? df_len df)%nat then
    [(CStr "pattern", VStr "all_missing"); (CStr "count", VNat null_count);
     (CStr "percentage", VInt 100)]
  else
    [(CStr "pattern", VStr (_detect_missing_pattern (null_mask series)));
     (CStr "count", VNat null_count);
     (CStr "percentage",
      VFloat (F.mul (F.np_div (F.of_nat null_count)
                               (F.of_nat (df_len df))) hundred))].

(** Lines 714-750. *)
Definition _analyze_missing_patterns (df : DataFrame) : pydict :=
  fold_left
    (fun patterns column =>
       dict_set (CStr (fst column))
                (PDict (missing_record df (snd column))) patterns)
    (df_columns df) [].

(* ================================================================== *)
(** ** Quality scorer: [_calculate_quality_score] *)
(* ================================================================== *)

(** [v.get] needs a dict; on another object it is an [AttributeError]. *)
Definition as_dict (v : pyval) : res pydict :=
  match v with
  | PDict d => Ok d
  | _ => Raise (mk_exc AttributeError "object has no attribute 'get'")
  end.

(** Lines 796-799. *)
Definition completeness_score (entry : cell * pyval) : res pyfloat :=
  do col_profile <- as_dict (snd entry);
  let null_percentage :=
    dict_get_default "null_percentage" (VInt 0) col_profile in
  do p <- to_float null_percentage;
  Ok (F.sub hundred p).

(** Lines 802-808; [None] when the column adds no outlier score. The two
    counts are Python integers, so a zero total is a
    [ZeroDivisionError]. *)
Definition outlier_score (entry : cell * pyval) : res (option pyfloat) :=
  do col_profile <- as_dict (snd entry);
  if match dict_get "dtype" col_profile with
     | Some dtype => eq_str dtype "numeric"
     | None => false
     end && dict_mem "outliers" col_profile
  then
    do outliers <- subscript (PDict col_profile) "outliers";
    do outlier_count <- subscript outliers "count";
    do total_count <- subscript (PDict col_profile) "count";
    do oc <- to_float outlier_count;
    do tc <- to_float total_count;
    do frac <- F.py_div oc tc;
    let outlier_percentage := F.mul frac hundred in
    Ok (Some (F.sub hundred
                (F.min (F.mul outlier_percentage (Fin 10)) hundred)))
  else Ok None.

(** Lines 811-818. *)
Definition pattern_score (entry : cell * pyval) : res pyfloat :=
  do pattern <- subscript (snd entry) "pattern";
  if eq_str pattern "random" then
    do percentage <- subscript (snd entry) "percentage";
    do p <- to_float percentage;
    Ok (F.sub hundred (F.mul p (Fin (3 # 2))))
  else if eq_str pattern "systematic" then
    do percentage <- subscript (snd entry) "percentage";
    do p <- to_float percentage;
    Ok (F.sub hundred (F.mul p (Fin (7 # 10))))
  else Ok hundred.

(** [sum(scores)] *)
Definition sum_scores (scores : list pyfloat) : pyfloat :=
  fold_left F.add scores (Fin 0).

(** Lines 780-821. *)
Definition _calculate_quality_score (profile correlations
    missing_patterns : pydict) : res pyfloat :=
  do completeness <- mapM completeness_score profile;
  do outlier <- mapM outlier_score profile;
  do pattern <- mapM pattern_score missing_patterns;
  let scores := completeness ++ somes outlier ++ pattern in
  match scores with
  | [] => Ok hundred
  | _ => F.py_div (sum_scores scores) (F.of_nat (List.length scores))
  end.

End Profiler.

(* ================================================================== *)
(** ** Orchestrator: [validate_input], [_validate_config], [execute] *)
(* ================================================================== *)

(** A value of the [data] mapping: a DataFrame or any other object. *)
Inductive obj :=
| ODataFrame (df : DataFrame)
| OValue (v : pyval).

Definition pydata := list (cell * obj).

Fixpoint data_get (k : cell) (d : pydata) : option obj :=
  match d with
  | [] => None
  | (k', v) :: r => if py_eqb k k' then Some v else data_get k r
  end.

(** The dict [execute] returns: [success], [data] ([None] for Python's
    [None]) and [errors]. *)
Record Result := mk_result {
  success : bool;
  data : option pydict;
  errors : list string
}.

Definition failure (errs : list string) : Result := mk_result false None errs.

(** The learning collaborator: an object with a state of its own, whose
    methods may raise. *)
Record Learning (St : Type) := {
  get_learned_patterns : St -> res pyval * St;
  suggest_column_type : string -> St -> res pyval * St;
  record_pattern : pydict -> St -> res unit * St
}.
Arguments get_learned_patterns {St} _ _.
Arguments suggest_column_type {St} _ _ _.
Arguments record_pattern {St} _ _ _.

(** Lines 170-193. *)
Definition validate_input (data : pydata) : list string :=
  match data_get "dataframe" data with
  | None => ["Missing required field: 'dataframe'"]
  | Some (OValue _) => ["'dataframe' must be a pandas DataFrame"]
  | Some (ODataFrame df) =>
      if df_empty df then ["'dataframe' cannot be empty"] else []
  end.

Definition default_sample_size : pyval := Atom (CInt 100000).
Definition default_pattern_threshold : pyval := Atom (CFloat (8 # 10)).

(** [a < b] and [a <= b] on objects that must be numbers. *)
Definition py_lt (a b : pyval) : res bool :=
  do x <- to_float a; do y <- to_float b; Ok (F.ltb x y).
Definition py_le (a b : pyval) : res bool :=
  do x <- to_float a; do y <- to_float b; Ok (F.leb x y).

(** Lines 225-244. [0 <= t <= 1] is [0 <= t and t <= 1]. *)
Definition _validate_config (config : pydict) : res (list string) :=
  let errors : list string := [] in
  let sample_size := dict_get_default "sample_size" default_sample_size config in
  do neg <- py_lt sample_size (Atom (CInt 0));
  let errors :=
    if neg then errors ++ ["Invalid sample_size: must be positive"]
    else errors in
  let pattern_threshold :=
    dict_get_default "pattern_threshold" default_pattern_threshold config in
  do lo <- py_le (Atom (CInt 0)) pattern_threshold;
  do inside <- (if lo then py_le pattern_threshold (Atom (CInt 1)) else Ok false);
  Ok (if negb inside
      then errors ++ ["Invalid pattern_threshold: must be between 0 and 1"]
      else errors).

Section Orchestrator.

Context {P : Pandas} {St : Type}.

(** [self.learning_history]; an object is true. *)
Variable learning_history : option (Learning St).

(** Lines 246-258. The seed is the constant 42. *)
Definition _sample_dataframe (df : DataFrame) (sample_size : pyval)
  : res DataFrame :=
  do over <- py_lt sample_size (VNat (df_len df));
  if over then pd_sample 42 sample_size df else Ok df.

(** Lines 116-130: what the loop does with the collaborator. The column's
    profile is the dict already stored under [profile[column]], so the
    suggestion written into it shows there. *)
Definition apply_learning (lh : Learning St) (column : string)
    (col_profile col_patterns : pydict) (st : St) : res pydict * St :=
  match suggest_column_type lh column st with
  | (Raise e, st) => (Raise e, st)
  | (Ok suggested_type, st) =>
      let col_profile :=
        if truthy suggested_type
        then dict_set "suggested_type" suggested_type col_profile
        else col_profile in
      let flag k := truthy (dict_get_default k VNone col_patterns) in
      let fact (type : string) (confidence : Q) : pydict :=
        [(CStr "column", VStr column); (CStr "type", VStr type);
         (CStr "confidence", Atom (CFloat confidence))] in
      let recorded :=
        if flag (CStr "is_id") then record_pattern lh (fact "id" (9 # 10)) st
        else if flag (CStr "is_email")
        then record_pattern lh (fact "email" (95 # 100)) st
        else if flag (CStr "is_phone")
        then record_pattern lh (fact "phone" (9 # 10)) st
        else if flag (CStr "is_categorical")
        then record_pattern lh (fact "categorical" (85 # 100)) st
        else (Ok tt, st) in
      match recorded with
      | (Raise e, st) => (Raise e, st)
      | (Ok _, st) => (Ok col_profile, st)
      end
  end.

(** Lines 108-130: the loop over [df.columns]. *)
Fixpoint profile_columns (df : DataFrame) (learn : bool)
    (pattern_threshold : pyval)
    (columns : list (string * (storage * list cell)))
    (profile patterns : pydict) (st : St)
  : res (pydict * pydict) * St :=
  match columns with
  | [] => (Ok (profile, patterns), st)
  | (column, col) :: rest =>
      let series := series_of df col in
      match _profile_column series column pattern_threshold with
      | Raise e => (Raise e, st)
      | Ok col_profile =>
          match _detect_patterns series column pattern_threshold with
          | Raise e => (Raise e, st)
          | Ok col_patterns =>
              let patterns := dict_set column (PDict col_patterns) patterns in
              match
                match learn, learning_history with
                | true, Some lh =>
                    apply_learning lh column col_profile col_patterns st
                | _, _ => (Ok col_profile, st)
                end
              with
              | (Raise e, st) => (Raise e, st)
              | (Ok col_profile, st) =>
                  profile_columns df learn pattern_threshold rest
                    (dict_set column (PDict col_profile) profile) patterns st
              end
          end
      end
  end.

(** Lines 96-102. The patterns fetched are not used afterwards. *)
Definition fetch_learned_patterns (learn : bool) (st : St) : res unit * St :=
  match learn, learning_history with
  | true, Some lh =>
      match get_learned_patterns lh st with
      | (Ok _, st) => (Ok tt, st)
      | (Raise e, st) =>
          (if exc_class_eqb (exc_cls e) AttributeError then Ok tt else Raise e,
           st)
      end
  | _, _ => (Ok tt, st)
  end.

(** Lines 83-160: the run after validation, for the table [df]. [now] is
    [datetime.now().isoformat()]. *)
Definition profile_table (now : string) (df : DataFrame) (config : pydict)
    (st : St) : res Result * St :=
  let enable_learning := dict_get_default "enable_learning" (VBool true) config in
  let sample_size := dict_get_default "sample_size" default_sample_size config in
  let pattern_threshold :=
    dict_get_default "pattern_threshold" default_pattern_threshold config in
  let original_size := df_len df in
  match
    (do over <- py_lt sample_size (VNat (df_len df));
     if over
     then do sampled_df <- _sample_dataframe df sample_size; Ok (sampled_df, true)
     else Ok (df, false))
  with
  | Raise e => (Raise e, st)
  | Ok (df, sampled) =>
      let learn := truthy enable_learning in
      match fetch_learned_patterns learn st with
      | (Raise e, st) => (Raise e, st)
      | (Ok _, st) =>
          match
            profile_columns df learn pattern_threshold (df_columns df) [] [] st
          with
          | (Raise e, st) => (Raise e, st)
          | (Ok (profile, patterns), st) =>
              let correlations := _calculate_correlations df in
              let missing_patterns := _analyze_missing_patterns df in
              match
                _calculate_quality_score profile correlations missing_patterns
              with
              | Raise e => (Raise e, st)
              | Ok quality_score =>
                  (Ok (mk_result true
                         (Some
                            [(CStr "profile", PDict profile);
                             (CStr "patterns", PDict patterns);
                             (CStr "correlations", PDict correlations);
                             (CStr "missing_patterns", PDict missing_patterns);
                             (CStr "quality_score", VFloat quality_score);
                             (CStr "metadata",
                              PDict
                                [(CStr "sampled", VBool sampled);
                                 (CStr "sample_size", VNat (df_len df));
                                 (CStr "original_size", VNat original_size);
                                 (CStr "profiled_at", VStr now)])])
                         []), st)
              end
          end
      end
  end.

(** Lines 64-160: the body of the [try]. *)
Definition execute_body (now : string) (data : pydata) (config : pydict)
    (st : St) : res Result * St :=
  match validate_input data with
  | (_ :: _) as errors => (Ok (failure errors), st)
  | [] =>
      match _validate_config config with
      | Raise e => (Raise e, st)
      | Ok ((_ :: _) as config_errors) => (Ok (failure config_errors), st)
      | Ok [] =>
          match data_get "dataframe" data with
          | Some (ODataFrame df) => profile_table now df config st
          | Some (OValue _) =>
              (Raise (mk_exc AttributeError "object has no attribute 'columns'"),
               st)
          | None => (Raise (mk_exc KeyError "'dataframe'"), st)
          end
      end
  end.

(** Lines 54-168. *)
Definition execute (now : string) (data : pydata) (config : pydict) (st : St)
  : Result * St :=
  match execute_body now data config st with
  | (Ok result, st) => (result, st)
  | (Raise e, st) => (failure [exc_msg e], st)
  end.

End Orchestrator.

(* ================================================================== *)
(** ** An executable instance of [Pandas]

    It runs the model on examples. It agrees with pandas on what it
    accepts and accepts less: numbers written as plain decimals, dates
    only as date objects and as the text 'now'; the square roots of
    [std] and [corr] are taken to nine decimals; [sample] keeps the first
    rows, where pandas draws them from the seed; time stamps print as
    their integer. *)
(* ================================================================== *)

Module Reference.

Definition is_digit (a : ascii) : bool :=
  (48 <=? nat_of_ascii a)%nat && (nat_of_ascii a <=? 57)%nat.
Definition is_alpha (a : ascii) : bool :=
  let n := nat_of_ascii a in
  ((65 <=? n)%nat && (n <=? 90)%nat) || ((97 <=? n)%nat && (n <=? 122)%nat).
Definition is_space (a : ascii) : bool :=
  let n := nat_of_ascii a in
  (n =? 32)%nat || ((9 <=? n)%nat && (n <=? 13)%nat).
Definition one_of (chars : string) (a : ascii) : bool :=
  existsb (Ascii.eqb a) (list_ascii_of_string chars).

Definition digits_value (l : list ascii) : Z :=
  fold_left (fun acc a => (10 * acc + Z.of_nat (nat_of_ascii a - 48))%Z) l 0%Z.

Definition nonempty {A} (l : list A) : bool :=
  match l with [] => false | _ => true end.

Fixpoint split_at (sep : ascii) (l : list ascii)
  : list ascii * option (list ascii) :=
  match l with
  | [] => ([], None)
  | a :: r =>
      if Ascii.eqb a sep then ([], Some r)
      else let (x, y) := split_at sep r in (a :: x, y)
  end.

(** An unsigned decimal: digits, then maybe a point and digits. *)
Definition unsigned_decimal (l : list ascii) : pyfloat :=
  let (int_part, rest) := split_at "."%char l in
  if nonempty int_part && forallb is_digit int_part then
    match rest with
    | None => Fin (inject_Z (digits_value int_part))
    | Some frac =>
        if nonempty frac && forallb is_digit frac then
          Fin (inject_Z (digits_value int_part)
               + inject_Z (digits_value frac)
                 / inject_Z (10 ^ Z.of_nat (List.length frac)))
        else NaN
    end
  else NaN.

Definition parse_number (s : string) : pyfloat :=
  match list_ascii_of_string s with
  | a :: r =>
      if Ascii.eqb a "-"%char
      then F.sub (Fin 0) (unsigned_decimal r)
      else if Ascii.eqb a "+"%char then unsigned_decimal r
      else unsigned_decimal (a :: r)
  | [] => NaN
  end.

(** The text 'now' is the reading [now] of the clock. *)
Definition to_datetime_cell (now : Z) (c : cell) : option Z :=
  match c with
  | CTimestamp t | CDatetime t | CDate t => Some t
  | CStr s => if String.eqb s "now" then Some now else None
  | _ => None
  end.

(** [$] also matches before a final newline. *)
Definition chomp (l : list ascii) : list ascii :=
  match rev l with
  | a :: r => if (nat_of_ascii a =? 10)%nat then rev r else l
  | [] => l
  end.

(** A text made of runs of digits of the given lengths with a separator
    between them, as [^\d{4}-\d{2}-\d{2}$]. *)
Fixpoint digit_groups (sep : ascii) (lens : list nat) (l : list ascii) : bool :=
  match lens with
  | [] => false
  | [n] => (List.length l =? n)%nat && forallb is_digit l
  | n :: lens' =>
      (List.length (firstn n l) =? n)%nat && forallb is_digit (firstn n l)
      && match skipn n l with
         | a :: r => Ascii.eqb a sep && digit_groups sep lens' r
         | [] => false
         end
  end.

Definition last_dot_split (l : list ascii) : option (list ascii * list ascii) :=
  let (tail_rev, rest) := split_at "."%char (rev l) in
  match rest with
  | Some head_rev => Some (rev head_rev, rev tail_rev)
  | None => None
  end.

Definition match_email (l : list ascii) : bool :=
  let (local, rest) := split_at "@"%char l in
  match rest with
  | None => false
  | Some domain =>
      nonempty local
      && forallb (fun a => is_alpha a || is_digit a || one_of "._%+-" a) local
      && match last_dot_split domain with
         | None => false
         | Some (host, tld) =>
             nonempty host
             && forallb (fun a => is_alpha a || is_digit a || one_of ".-" a) host
             && (2 <=? List.length tld)%nat && forallb is_alpha tld
         end
  end.

Definition re_match (pattern text : string) : bool :=
  let l := list_ascii_of_string text in
  if String.eqb pattern email_pattern then match_email (chomp l)
  else if String.eqb pattern phone_pattern then
    nonempty l
    && forallb (fun a => is_digit a || is_space a || one_of "+-()" a) l
  else if String.eqb pattern "^\d{4}-\d{2}-\d{2}$"
  then digit_groups "-"%char [4; 2; 2]%nat (chomp l)
  else if String.eqb pattern "^\d{2}/\d{2}/\d{4}$"
  then digit_groups "/"%char [2; 2; 4]%nat (chomp l)
  else if String.eqb pattern "^\d{2}-\d{2}-\d{4}$"
  then digit_groups "-"%char [2; 2; 4]%nat (chomp l)
  else if String.eqb pattern "^\d{4}/\d{2}/\d{2}$"
  then digit_groups "/"%char [4; 2; 2]%nat (chomp l)
  else false.

Definition Qsum (l : list Q) : Q := fold_left Qplus l 0.
Definition Qlen (l : list Q) : Q := inject_Z (Z.of_nat (List.length l)).

Definition mean (l : list Q) : pyfloat :=
  match l with [] => NaN | _ => Fin (Qred (Qsum l / Qlen l)) end.

Definition extremum (better : Q -> Q -> bool) (l : list Q) : pyfloat :=
  match l with
  | [] => NaN
  | x :: r => Fin (fold_left (fun m y => if better y m then y else m) r x)
  end.

Fixpoint insert_Q (x : Q) (l : list Q) : list Q :=
  match l with
  | [] => [x]
  | y :: r => if Qle_bool x y then x :: y :: r else y :: insert_Q x r
  end.
Definition sort_Q (l : list Q) : list Q := fold_right insert_Q [] l.

(** Linear interpolation between the two nearest ranks. *)
Definition quantile (p : Q) (l : list Q) : pyfloat :=
  match sort_Q l with
  | [] => NaN
  | (x :: _) as sorted =>
      let pos := p * (Qlen l - 1) in
      let lo := Z.to_nat (Qfloor pos) in
      let frac := pos - inject_Z (Qfloor pos) in
      let a := nth lo sorted x in
      let b := nth (S lo) sorted a in
      Fin (Qred (a + frac * (b - a)))
  end.

(** The square root of a non-negative rational, to nine decimals, exact
    on the squares of such decimals. *)
Definition Qsqrt (q : Q) : Q :=
  Qred (Z.sqrt (Qnum q * 10 ^ 18 / Z.pos (Qden q)) # 1000000000).

Definition variance_sum (l : list Q) : Q :=
  match mean l with
  | Fin m => Qsum (map (fun x => (x - m) * (x - m)) l)
  | NaN => 0
  end.

Definition std (l : list Q) : pyfloat :=
  if (List.length l <? 2)%nat then NaN
  else Fin (Qsqrt (variance_sum l / (Qlen l - 1))).

Fixpoint finite_pairs (a b : list cell) : list (Q * Q) :=
  match a, b with
  | x :: a', y :: b' =>
      match num_of x, num_of y with
      | Some (Fin p), Some (Fin q) => (p, q) :: finite_pairs a' b'
      | _, _ => finite_pairs a' b'
      end
  | _, _ => []
  end.

(** Pearson's coefficient over the rows where both columns have a
    value. *)
Definition corr (a b : list cell) : pyfloat :=
  let pairs := finite_pairs a b in
  let xs := map fst pairs in
  let ys := map snd pairs in
  match mean xs, mean ys with
  | Fin mx, Fin my =>
      let cov := Qsum (map (fun p => (fst p - mx) * (snd p - my)) pairs) in
      let d := Qsqrt (variance_sum xs * variance_sum ys) in
      if Qeq_bool d 0 then NaN else Fin (Qred (cov / d))
  | _, _ => NaN
  end.

Definition count_py (x : cell) (l : list cell) : Z :=
  Z.of_nat (List.length (filter (py_eqb x) l)).

(** Most frequent first; of two values as frequent, the one met first. *)
Fixpoint insert_count (e : cell * Z) (l : list (cell * Z)) : list (cell * Z) :=
  match l with
  | [] => [e]
  | y :: r =>
      if (snd y <? snd e)%Z then e :: y :: r else y :: insert_count e r
  end.

Definition value_counts (l : list cell) : res (list (cell * Z)) :=
  do u <- pd_unique l;
  Ok (fold_left (fun acc x => insert_count (x, count_py x l) acc)
                (filter notnull u) []).

(** A label of another kind than the key is not found, even when the
    two are equal as numbers. *)
Definition get (counts : list (cell * Z)) (key : cell) (default : Z) : Z :=
  match filter (fun e => py_eqb key (fst e)
                         && pytype_eqb (type_of key) (type_of (fst e)))
               counts with
  | e :: _ => snd e
  | [] => default
  end.

Definition sample (seed : Z) (n : pyval) (df : DataFrame) : res DataFrame :=
  match n with
  | Atom (CInt k) =>
      if (k <? 0)%Z || (Z.of_nat (df_len df) <? k)%Z
      then Raise (mk_exc ValueError "cannot take a larger sample")
      else Ok (mk_df (firstn (Z.to_nat k) (df_index df))
                     (map (fun c => (fst c, (fst (snd c),
                                             firstn (Z.to_nat k) (snd (snd c)))))
                          (df_columns df)))
  | _ => Raise (mk_exc ValueError "Only integers accepted as `n` values")
  end.

Fixpoint digits_of (fuel : nat) (n : Z) (acc : string) : string :=
  match fuel with
  | O => acc
  | S f =>
      let acc := String (ascii_of_nat (48 + Z.to_nat (n mod 10))) acc in
      if (n / 10 =? 0)%Z then acc else digits_of f (n / 10)%Z acc
  end.
Definition show_Z (z : Z) : string :=
  if (z <? 0)%Z then "-" ++ digits_of 64 (- z) "" else digits_of 64 z "".

#[export] Instance pandas : Pandas := {
  parse_number := parse_number;
  coerce_object := fun _ => Ok NaN;
  clock := 1709283600000000000;
  pd_to_datetime := fun now l => Ok (map (to_datetime_cell now) l);
  re_match := re_match;
  pd_mean := mean;
  pd_median := quantile (1 # 2);
  pd_std := std;
  pd_min := extremum Qlt_bool;
  pd_max := extremum (fun y m => Qlt_bool m y);
  pd_quantile := quantile;
  pd_value_counts := value_counts;
  pd_get := get;
  pd_corr := corr;
  pd_sample := sample;
  isoformat := show_Z;
  timedelta_str := show_Z
}.

(** A collaborator that knows nothing and counts what it is told. *)
Definition counting : Learning nat := {|
  get_learned_patterns := fun st => (Ok (PDict []), st);
  suggest_column_type := fun _ st => (Ok VNone, st);
  record_pattern := fun _ st => (Ok tt, S st)
|}.

End Reference.

(* ================================================================== *)
(** * Vocabulary of the properties *)
(* ================================================================== *)

(** ** Reading the results *)

(** [correlations[a][b]], when both keys are there. *)
Definition corr_entry (correlations : pydict) (a b : string) : option pyval :=
  match dict_get (CStr a) correlations with
  | Some (PDict inner) => dict_get (CStr b) inner
  | _ => None
  end.

(** [missing_patterns[name]['pattern']] *)
Definition pattern_of (missing_patterns : pydict) (name : string)
  : option pyval :=
  match dict_get (CStr name) missing_patterns with
  | Some (PDict record) => dict_get (CStr "pattern") record
  | _ => None
  end.

(** [result['data']['quality_score']] *)
Definition quality_score_of (r : Result) : option pyval :=
  match data r with
  | Some d => dict_get (CStr "quality_score") d
  | None => None
  end.

(** The six entries of a profiling result. *)
Definition complete_result (d : pydict) : Prop :=
  exists profile patterns correlations missing_patterns quality_score metadata,
    d = [(CStr "profile", PDict profile);
         (CStr "patterns", PDict patterns);
         (CStr "correlations", PDict correlations);
         (CStr "missing_patterns", PDict missing_patterns);
         (CStr "quality_score", VFloat quality_score);
         (CStr "metadata", PDict metadata)].

(** The result with the time stamp of the metadata blanked. *)
Definition without_profiled_at (r : Result) : Result :=
  match data r with
  | Some d =>
      match dict_get (CStr "metadata") d with
      | Some (PDict metadata) =>
          mk_result (success r)
            (Some (dict_set "metadata"
                     (PDict (dict_set "profiled_at" VNone metadata)) d))
            (errors r)
      | _ => r
      end
  | None => r
  end.


(** ** Correlations *)

(** The row of the correlations for the column [col1]: the inner loop of
    lines 708-710. *)
Definition corr_row `{Pandas} (cols : list (string * (storage * list cell)))
    (col1 : string * (storage * list cell)) : pydict :=
  fold_left
    (fun inner col2 =>
       if negb (String.eqb (fst col1) (fst col2))
       then dict_set (CStr (fst col2))
              (VFloat (pd_corr (snd (snd col1)) (snd (snd col2)))) inner
       else inner)
    cols [].

(** ** Missing patterns *)

(** The index labels of the missing cells, in row order, and their
    positions. *)
Definition null_labels (s : Series) : list Z :=
  map fst (filter (fun r => isnull (snd r)) (s_rows s)).
Definition null_positions (s : Series) : list Z :=
  map fst (filter (fun r => isnull (snd r))
             (combine (range (s_len s)) (s_values s))).

Definition all_equal (l : list Z) : bool :=
  match l with
  | [] => true
  | g :: r => forallb (Z.eqb g) r
  end.

(** The classification in the words of the specification: by the
    positions of the missing cells, 'systematic' whenever all the gaps
    are equal. *)
Definition stated_missing_pattern (s : Series) : string :=
  let nulls := null_positions s in
  let k := List.length nulls in
  if (k =? 0)%nat then "none"
  else if (k =? s_len s)%nat then "all_missing"
  else if list_eqb_Z nulls (range k) then "block"
  else if all_equal (diff nulls) then "systematic"
  else "random".

(** The same with 'systematic' only for two missing cells or more. *)
Definition guarded_missing_pattern (s : Series) : string :=
  let nulls := null_positions s in
  let k := List.length nulls in
  if (k =? 0)%nat then "none"
  else if (k =? s_len s)%nat then "all_missing"
  else if list_eqb_Z nulls (range k) then "block"
  else if (2 <=? k)%nat && all_equal (diff nulls) then "systematic"
  else "random".

(** The same again by the index labels of the missing cells instead of
    their positions: what the analyzer computes on any index. *)
Definition labelled_missing_pattern (s : Series) : string :=
  let nulls := null_labels s in
  let k := List.length nulls in
  if (k =? 0)%nat then "none"
  else if (k =? s_len s)%nat then "all_missing"
  else if list_eqb_Z nulls (range k) then "block"
  else if (2 <=? k)%nat && all_equal (diff nulls) then "systematic"
  else "random".

(** ** Columns *)

(** No value of the list equals, by Python's [==], a value before it. *)
Inductive distinct : list cell -> Prop :=
| distinct_nil : distinct []
| distinct_cons x l :
    (forall y, In y l -> py_eqb y x = false) -> distinct l ->
    distinct (x :: l).

(** A text that [pd.to_numeric] turns into a number. *)
Definition parses `{Pandas} (c : cell) : bool :=
  match c with
  | CStr s => notna (parse_number s)
  | _ => false
  end.

(** The distinct values are two and each is one of [True], [False] and
    their spellings: the condition of the boolean rule. *)
Definition boolean_spelling_pair (vals : list cell) : bool :=
  (List.length (dedupe [] vals) =? 2)%nat
  && forallb (fun c => py_in c boolean_literals) (dedupe [] vals).

Definition zero_or_one (c : cell) : Prop := c = CInt 0 \/ c = CInt 1.

(** ** Inputs of [execute] *)

(** The 'dataframe' field is absent, is not a DataFrame, or is empty. *)
Definition input_invalid (data : pydata) : Prop :=
  data_get "dataframe" data = None
  \/ (exists v, data_get "dataframe" data = Some (OValue v))
  \/ (exists df, data_get "dataframe" data = Some (ODataFrame df)
                 /\ df_empty df = true).

(** The configured (or default) value is a number below 0, resp. a number
    outside [0, 1]. *)
Definition sample_size_negative (config : pydict) : Prop :=
  exists q,
    to_float (dict_get_default "sample_size" default_sample_size config)
    = Ok (Fin q) /\ q < 0.
Definition threshold_out_of_range (config : pydict) : Prop :=
  exists q,
    to_float (dict_get_default "pattern_threshold" default_pattern_threshold
                config)
    = Ok (Fin q) /\ (q < 0 \/ 1 < q).

(** What validation reports, without a look at the table's content: the
    errors of the input, else those of the configuration, or the message
    of the exception that checking the configuration raised. *)
Definition validation_errors (data : pydata) (config : pydict) : list string :=
  match validate_input data with
  | [] =>
      match _validate_config config with
      | Ok config_errors => config_errors
      | Raise e => [exc_msg e]
      end
  | errors => errors
  end.

(* ================================================================== *)
(** * Example columns, tables and configurations *)
(* ================================================================== *)

(** Three cells, all missing. *)
Definition all_null_example : Series :=
  mk_series SObject [(0%Z, CNone); (1%Z, CNaN); (2%Z, CNone)].

(** Two columns of numeric storage and one of numbers written as text. *)
Definition correlations_example : DataFrame :=
  mk_df [0; 1; 2]%Z
    [("units", (SInt64, [CInt 1; CInt 2; CInt 3]));
     ("price", (SFloat64, [CFloat 2; CFloat 4; CFloat 6]));
     ("code", (SObject, [CStr "1"; CStr "2"; CStr "3"]))].

(** One missing cell, in the second of three rows. *)
Definition lone_null_example : DataFrame :=
  mk_df [0; 1; 2]%Z [("x", (SFloat64, [CFloat 1; CNaN; CFloat 3]))].

(** Two distinct texts and a missing cell between them. *)
Definition gap_id_example : Series :=
  mk_series SObject [(0%Z, CStr "alpha"); (1%Z, CNone); (2%Z, CStr "beta")].

(** Ten texts of which nine are numbers, and eleven of which ten are. *)
Definition nine_of_ten_example : Series :=
  mk_series SObject
    (combine (range 10)
       (map CStr ["1"; "2"; "3"; "4"; "5"; "6"; "7"; "8"; "9"; "n/a"])).
Definition mostly_numeric_example : Series :=
  mk_series SObject
    (combine (range 11)
       (map CStr ["1"; "2"; "3"; "4"; "5"; "6"; "7"; "8"; "9"; "10"; "n/a"])).

(** The texts 'true' and 'false'. *)
Definition spelled_boolean_example : Series :=
  mk_series SObject
    [(0%Z, CStr "true"); (1%Z, CStr "false"); (2%Z, CStr "true")].

(** A column of the integers 0 and 1, stored as int64. *)
Definition zero_one_example : Series :=
  mk_series SInt64 [(0%Z, CInt 0); (1%Z, CInt 1); (2%Z, CInt 0); (3%Z, CInt 1)].

(** A table of sixteen rows and one column, which holds a text in its
    second row and nothing elsewhere. *)
Definition sparse_example : DataFrame :=
  mk_df (range 16)
    [("note", (SObject, CNone :: CStr "x" :: repeat CNone 14))].
Definition sparse_data : pydata :=
  [(CStr "dataframe", ODataFrame sparse_example)].

Definition negative_sample_size : pydict := [(CStr "sample_size", VInt (-5))].

(* ================================================================== *)
(** * More of the profiler, and the vocabulary of its properties *)
(* ================================================================== *)

(** ** Configuration schema: [get_config_schema] *)

(** Lines 195-223. *)
Definition get_config_schema : pydict :=
  [(CStr "type", VStr "object");
   (CStr "properties",
    PDict
      [(CStr "enable_learning",
        PDict [(CStr "type", VStr "boolean");
               (CStr "default", VBool true);
               (CStr "description",
                VStr "Enable learning from profiling results")]);
       (CStr "sample_size",
        PDict [(CStr "type", VStr "integer");
               (CStr "default", VInt 100000);
               (CStr "minimum", VInt 1000);
               (CStr "description",
                VStr "Maximum rows to process (sampling threshold)")]);
       (CStr "pattern_threshold",
        PDict [(CStr "type", VStr "number");
               (CStr "default", Atom (CFloat (8 # 10)));
               (CStr "minimum", VInt 0);
               (CStr "maximum", VInt 1);
               (CStr "description",
                VStr "Minimum confidence for pattern detection")])])].

(** [schema['properties'][name][field]] *)
Definition schema_field (name field : string) : option pyval :=
  match dict_get (CStr "properties") get_config_schema with
  | Some (PDict properties) =>
      match dict_get (CStr name) properties with
      | Some (PDict fields) => dict_get (CStr field) fields
      | _ => None
      end
  | _ => None
  end.

(** A configuration completed from the schema: every option of the
    schema that the configuration lacks gets the schema's default. *)
Definition schema_properties : pydict :=
  match dict_get (CStr "properties") get_config_schema with
  | Some (PDict properties) => properties
  | _ => []
  end.

Definition fill_default (config : pydict) (property : cell * pyval) : pydict :=
  match snd property with
  | PDict fields =>
      match dict_get (CStr "default") fields with
      | Some default =>
          if dict_mem (fst property) config then config
          else dict_set (fst property) default config
      | None => config
      end
  | _ => config
  end.

Definition with_schema_defaults (config : pydict) : pydict :=
  fold_left fill_default schema_properties config.

(** ** The collaborator class of [src/utils/learning_history.py] *)

(** [LearningHistoryManager] defines [store_operation], [suggest_fixes],
    [get_learned_mappings] and others, but none of the three methods the
    profiler calls, and no [__getattr__]: each call is an
    [AttributeError]. The object itself is true. *)
Definition no_attribute (method : string) : exc :=
  mk_exc AttributeError
    ("'LearningHistoryManager' object has no attribute '" ++ method ++ "'").

Definition history_manager {St : Type} : Learning St := {|
  get_learned_patterns := fun st => (Raise (no_attribute "get_learned_patterns"), st);
  suggest_column_type := fun _ st => (Raise (no_attribute "suggest_column_type"), st);
  record_pattern := fun _ st => (Raise (no_attribute "record_pattern"), st)
|}.




(** ** Vocabulary *)



(** The number of distinct values of a column, missing cells apart. *)
Definition distinct_count (l : list cell) : nat :=
  List.length (filter notnull (dedupe [] l)).

(** The number of values whose Python type has the given name. *)
Definition count_of_type (name : string) (l : list cell) : nat :=
  List.length (filter (fun c => String.eqb (type_name (type_of c)) name) l).



(** The labels of the type classifier on a column that is not empty. *)
Definition dtype_labels : list string :=
  ["datetime"; "boolean"; "numeric"; "mixed"; "string"; "object"].

(** The flags of a text column and of any other column, in the order the
    detector sets them. *)
Definition text_flags : list cell :=
  [CStr "is_email"; CStr "is_phone"; CStr "is_date"; CStr "is_id";
   CStr "is_categorical"; CStr "is_continuous"].
Definition plain_flags : list cell :=
  [CStr "is_categorical"; CStr "is_continuous"].

Definition is_bool_value (v : pyval) : bool :=
  match v with Atom (CBool _) => true | _ => false end.

(** Lines 88-94 of [execute]: the table that is profiled and whether it
    is a sample. *)
Definition profiled_frame `{Pandas} (df : DataFrame) (config : pydict)
  : res (DataFrame * bool) :=
  let sample_size := dict_get_default "sample_size" default_sample_size config in
  do over <- py_lt sample_size (VNat (df_len df));
  if over
  then do sampled_df <- _sample_dataframe df sample_size; Ok (sampled_df, true)
  else Ok (df, false).

(** [result['data'][key]] and [result['data']['metadata'][key]] *)
Definition data_entry (r : Result) (key : string) : option pyval :=
  match data r with
  | Some d => dict_get (CStr key) d
  | None => None
  end.
Definition metadata_entry (r : Result) (key : string) : option pyval :=
  match data_entry r "metadata" with
  | Some (PDict metadata) => dict_get (CStr key) metadata
  | _ => None
  end.

(** A column profile as [execute] stores it: what [_profile_column]
    returns for the column, with the collaborator's suggestion added
    under suggested_type when there is one. *)
Definition stored_profile `{Pandas} (df : DataFrame) (column : string)
    (col : storage * list cell) (threshold : pyval) (p : pydict) : Prop :=
  exists p0,
    _profile_column (series_of df col) column threshold = Ok p0
    /\ (p = p0 \/ exists s, p = dict_set "suggested_type" s p0).

(** A score that is NaN or at most 100. *)
Definition at_most_hundred (f : pyfloat) : Prop :=
  match f with
  | NaN => True
  | Fin x => x <= 100
  end.

(** The keys of a dict, in order. *)
Definition keys (d : pydict) : list cell := map fst d.

(** The entries every column profile starts with, and the statistics
    that follow them for each dtype. *)
Definition base_keys : list cell :=
  [CStr "count"; CStr "null_count"; CStr "null_percentage"; CStr "dtype"].
Definition statistics_keys (dtype : string) : list cell :=
  if String.eqb dtype "numeric" then
    [CStr "mean"; CStr "median"; CStr "std_dev"; CStr "min"; CStr "max";
     CStr "q1"; CStr "q3"; CStr "outliers"]
  else if String.eqb dtype "string" then
    [CStr "unique_count"; CStr "unique_percentage";
     CStr "most_common_values"; CStr "is_potential_id"; CStr "avg_length";
     CStr "min_length"; CStr "max_length"]
  else if String.eqb dtype "datetime" then
    [CStr "date_range"; CStr "frequency"]
  else if String.eqb dtype "boolean" then
    [CStr "true_count"; CStr "false_count"; CStr "true_percentage"]
  else if String.eqb dtype "mixed" then
    [CStr "type_distribution"; CStr "unique_count"]
  else if String.eqb dtype "object" then
    [CStr "unique_count"; CStr "type"]
  else [].

(** Time stamps at a fixed step: [start], [start + step], ... *)
Fixpoint progression (start step : Z) (n : nat) : list Z :=
  match n with
  | O => []
  | S k => start :: progression (start + step) step k
  end.

(** The name of a gap between time stamps: lines 533-542. *)
Definition gap_name `{Pandas} (gap : Z) : string :=
  let days := (gap / ns_per_day)%Z in
  if (gap =? ns_per_day)%Z then "daily"
  else if (gap =? 7 * ns_per_day)%Z then "weekly"
  else if (28 <=? days)%Z && (days <=? 31)%Z then "monthly"
  else if (365 <=? days)%Z && (days <=? 366)%Z then "yearly"
  else "custom (" ++ timedelta_str gap ++ ")".

(** ** More examples *)

(** A float column of zeros and ones. *)
Definition zero_one_float_example : Series :=
  mk_series SFloat64 [(0%Z, CFloat 0); (1%Z, CFloat 1); (2%Z, CFloat 1)].


(** Three plain numbers. *)
Definition small_numeric_example : Series :=
  mk_series SFloat64 [(0%Z, CFloat 1); (1%Z, CFloat 2); (2%Z, CFloat 4)].

(** The table of three columns as the input of [execute], and a sample
    size below its three rows. *)
Definition correlations_data : pydata :=
  [(CStr "dataframe", ODataFrame correlations_example)].
Definition sample_two : pydict :=
  [(CStr "sample_size", VInt 2); (CStr "enable_learning", VBool false)].

(** A run on that table with that sample size. *)
Definition sampled_run : Result * unit :=
  execute (P := Reference.pandas) None "2024-03-01T09:00:00"
    correlations_data sample_two tt.


(** The profile of the column of two texts and a missing cell. *)
Definition gap_id_profile : pydict :=
  match
    _profile_column (P := Reference.pandas) gap_id_example "ref"
      default_pattern_threshold
  with
  | Ok p => p
  | Raise _ => []
  end.


(* ================================================================== *)
(** * Properties *)
(* ================================================================== *)

(** ** Dicts with text keys *)

Lemma py_eqb_str (a b : string) : py_eqb (CStr a) (CStr b) = String.eqb a b.
Proof. reflexivity. Qed.

Lemma py_eqb_str_inv (a : string) (k : cell) :
  py_eqb (CStr a) k = true -> k = CStr a.
Proof.
  destruct k; simpl; try discriminate.
  intros H. apply String.eqb_eq in H. now subst.
Qed.

Lemma dict_get_set_same (a : string) (v : pyval) (d : pydict) :
  dict_get (CStr a) (dict_set (CStr a) v d) = Some v.
Proof.
  induction d as [|[k w] d IH]; cbn [dict_get dict_set].
  - now rewrite py_eqb_str, String.eqb_refl.
  - destruct (py_eqb (CStr a) k) eqn:E; cbn [dict_get]; rewrite E; auto.
Qed.

Lemma dict_get_set_other (a b : string) (v : pyval) (d : pydict) :
  a <> b ->
  dict_get (CStr a) (dict_set (CStr b) v d) = dict_get (CStr a) d.
Proof.
  intros Hab. apply String.eqb_neq in Hab.
  induction d as [|[k w] d IH]; cbn [dict_get dict_set].
  - now rewrite py_eqb_str, Hab.
  - destruct (py_eqb (CStr b) k) eqn:E; cbn [dict_get].
    + apply py_eqb_str_inv in E. subst k.
      now rewrite py_eqb_str, Hab.
    + now rewrite IH.
Qed.

Lemma find_all_false {A} (f : A -> bool) (l : list A) :
  (forall y, In y l -> f y = false) -> find f l = None.
Proof.
  induction l as [|x l IH]; simpl; intros H; auto.
  rewrite (H x) by auto. apply IH. intros y Hy. apply H. now right.
Qed.

(** The loop [for x in l: d[key(x)] = value(x)] over entries with distinct
    keys stores under each key the value of its entry. *)
Lemma dict_get_fold_set {A} (key : A -> string) (value : A -> pyval)
    (l : list A) (d : pydict) (a : string) :
  NoDup (map key l) ->
  dict_get (CStr a)
    (fold_left (fun acc x => dict_set (CStr (key x)) (value x) acc) l d)
  = match find (fun x => String.eqb a (key x)) l with
    | Some x => Some (value x)
    | None => dict_get (CStr a) d
    end.
Proof.
  revert d. induction l as [|x l IH]; intros d Hnd; simpl; auto.
  inversion Hnd as [|? ? Hnotin Hnd']; subst.
  rewrite IH by assumption.
  destruct (String.eqb a (key x)) eqn:E.
  - apply String.eqb_eq in E. subst a.
    replace (find (fun y => String.eqb (key x) (key y)) l) with (@None A).
    + apply dict_get_set_same.
    + symmetry. apply find_all_false. intros y Hy.
      apply String.eqb_neq. intros Heq. apply Hnotin.
      rewrite Heq. now apply in_map.
  - apply String.eqb_neq in E.
    destruct (find _ l); auto. now apply dict_get_set_other.
Qed.

Lemma find_NoDup_In {A} (key : A -> string) (l : list A) (x : A) :
  NoDup (map key l) -> In x l ->
  find (fun y => String.eqb (key x) (key y)) l = Some x.
Proof.
  induction l as [|y l IH]; simpl; intros Hnd Hin; [easy|].
  inversion Hnd as [|? ? Hnotin Hnd']; subst.
  destruct Hin as [->|Hin].
  - now rewrite String.eqb_refl.
  - destruct (String.eqb (key x) (key y)) eqn:E.
    + apply String.eqb_eq in E. exfalso. apply Hnotin.
      rewrite <- E. now apply in_map.
    + now apply IH.
Qed.

(** ** Quality scorer *)

(** C9. The quality score does not depend on the correlations: whatever
    two correlation mappings are passed with the same profile and the same
    missing-pattern mapping, the scorer returns the same value (or raises
    the same exception). *)
Theorem quality_score_ignores_correlations `{Pandas}
    (profile c1 c2 missing_patterns : pydict) :
  _calculate_quality_score profile c1 missing_patterns
  = _calculate_quality_score profile c2 missing_patterns.
Proof. reflexivity. Qed.

(** ** Columns whose cells are all missing *)

Section AllNull.

Context {P : Pandas}.

Lemma filter_all {A} (f : A -> bool) (l : list A) :
  forallb f l = true -> filter f l = l.
Proof.
  induction l as [|x l IH]; simpl; auto.
  intros H. apply andb_prop in H as [Hx Hl]. rewrite Hx. f_equal. auto.
Qed.

Lemma dropna_all_null (series : Series) :
  forallb isnull (s_values series) = true -> s_len (dropna series) = 0%nat.
Proof.
  unfold s_len, dropna, s_values. simpl.
  induction (s_rows series) as [|r rows IH]; simpl; auto.
  intros H. apply andb_prop in H as [Hr Hrows].
  unfold notnull at 1. rewrite Hr. simpl. auto.
Qed.

Lemma null_count_all_null (series : Series) :
  forallb isnull (s_values series) = true -> null_count series = s_len series.
Proof.
  intros H. unfold null_count. rewrite filter_all by assumption.
  unfold s_values, s_len. apply length_map.
Qed.

Lemma percentage_of_all (n : nat) :
  (0 < n)%nat ->
  exists q, F.mul (F.np_div (F.of_nat n) (F.of_nat n)) hundred = Fin q
            /\ q == 100.
Proof.
  intros Hn. unfold F.np_div, F.of_nat, F.mul, hundred.
  assert (Hz : ~ inject_Z (Z.of_nat n) == 0).
  { unfold Qeq, inject_Z. simpl. lia. }
  destruct (Qeq_bool (inject_Z (Z.of_nat n)) 0) eqn:E.
  - apply Qeq_bool_iff in E. contradiction.
  - eexists. split; [reflexivity|]. field. exact Hz.
Qed.

(** C10. For a column whose cells are all missing the pattern detector
    returns the empty mapping, so none of the six flags is present, and
    the column profile has exactly the four entries count, null_count,
    null_percentage and dtype, the dtype being 'all_null'; count and
    null_count are the number of rows and, when there is a row,
    null_percentage is 100. *)
Theorem all_null_column (series : Series) (column_name : string)
    (threshold : pyval) :
  forallb isnull (s_values series) = true ->
  _detect_patterns series column_name threshold = Ok [] /\
  exists p,
    _profile_column series column_name threshold
    = Ok [(CStr "count", VNat (s_len series));
          (CStr "null_count", VNat (s_len series));
          (CStr "null_percentage", VFloat p);
          (CStr "dtype", VStr "all_null")]
    /\ ((0 < s_len series)%nat -> exists q, p = Fin q /\ q == 100).
Proof.
  intros H. split.
  - unfold _detect_patterns. now rewrite dropna_all_null.
  - unfold _profile_column.
    rewrite dropna_all_null, null_count_all_null by assumption.
    cbn [Nat.eqb]. eexists. split; [reflexivity|].
    apply percentage_of_all.
Qed.

End AllNull.

Lemma all_null_column_witness :
  forallb isnull (s_values all_null_example) = true /\
  _detect_patterns (P := Reference.pandas) all_null_example "notes"
    default_pattern_threshold = Ok [].
Proof.
  split; [reflexivity|].
  apply (all_null_column (P := Reference.pandas) all_null_example "notes"
           default_pattern_threshold).
  reflexivity.
Defined.

(** ** Correlation analyzer *)

Section Correlations.

Context {P : Pandas}.

Lemma fold_left_guard {A B} (p : B -> bool) (f : A -> B -> A) (l : list B)
    (a : A) :
  fold_left (fun acc x => if p x then f acc x else acc) l a
  = fold_left f (filter p l) a.
Proof.
  revert a. induction l as [|x l IH]; intros a; simpl; auto.
  destruct (p x); simpl; apply IH.
Qed.

Lemma NoDup_map_filter {A B} (key : A -> B) (p : A -> bool) (l : list A) :
  NoDup (map key l) -> NoDup (map key (filter p l)).
Proof.
  induction l as [|x l IH]; simpl; intros H; auto.
  inversion H as [|? ? Hnotin Hnd]; subst.
  destruct (p x); simpl; auto.
  constructor; auto.
  intros Hin. apply Hnotin. apply in_map_iff in Hin as [y [Hy Hin]].
  apply filter_In in Hin as [Hin _]. rewrite <- Hy. now apply in_map.
Qed.

Lemma find_filter_other {A} (key : A -> string) (a b : string) (l : list A) :
  find (fun x => String.eqb b (key x))
       (filter (fun x => negb (String.eqb a (key x))) l)
  = if String.eqb a b then None
    else find (fun x => String.eqb b (key x)) l.
Proof.
  induction l as [|x l IH]; simpl.
  - now destruct (String.eqb a b).
  - destruct (String.eqb a (key x)) eqn:Ea; simpl.
    + rewrite IH. destruct (String.eqb a b) eqn:Eab; auto.
      apply String.eqb_eq in Ea. subst a. rewrite String.eqb_sym in Eab.
      now rewrite Eab.
    + destruct (String.eqb b (key x)) eqn:Eb.
      * apply String.eqb_eq in Eb. subst b. now rewrite Ea.
      * apply IH.
Qed.

Lemma corr_row_get cols col1 (b : string) :
  NoDup (map fst cols) ->
  dict_get (CStr b) (corr_row cols col1)
  = if String.eqb (fst col1) b then None
    else match find (fun x => String.eqb b (fst x)) cols with
         | Some col2 =>
             Some (VFloat (pd_corr (snd (snd col1)) (snd (snd col2))))
         | None => None
         end.
Proof.
  intros Hnd. unfold corr_row.
  rewrite (fold_left_guard
             (fun col2 => negb (String.eqb (fst col1) (fst col2)))
             (fun inner col2 =>
                dict_set (CStr (fst col2))
                  (VFloat (pd_corr (snd (snd col1)) (snd (snd col2)))) inner)).
  rewrite (dict_get_fold_set fst
             (fun col2 => VFloat (pd_corr (snd (snd col1)) (snd (snd col2)))))
    by now apply NoDup_map_filter.
  rewrite find_filter_other.
  now destruct (String.eqb (fst col1) b).
Qed.

Lemma correlations_get (df : DataFrame) (a : string) :
  NoDup (df_names df) ->
  (2 <= List.length (numeric_columns df))%nat ->
  dict_get (CStr a) (_calculate_correlations df)
  = match find (fun x => String.eqb a (fst x)) (numeric_columns df) with
    | Some col1 => Some (PDict (corr_row (numeric_columns df) col1))
    | None => None
    end.
Proof.
  intros Hnd Hlen. unfold _calculate_correlations.
  apply Nat.ltb_ge in Hlen. rewrite Hlen.
  apply (dict_get_fold_set fst
           (fun col1 => PDict (corr_row (numeric_columns df) col1))).
  now apply NoDup_map_filter.
Qed.

(** C8. With fewer than two columns of numeric storage the result is the
    empty mapping. Otherwise, for any two different columns of numeric
    storage the result holds their coefficient under the ordered pair of
    their names; no name has an entry with itself; and a column whose
    storage is not numeric (whatever the type classifier says of it) is
    neither a key of the result nor a key under any other column. *)
Theorem correlations_shape (df : DataFrame) :
  NoDup (df_names df) ->
  ((List.length (numeric_columns df) < 2)%nat ->
   _calculate_correlations df = [])
  /\
  ((2 <= List.length (numeric_columns df))%nat ->
   (forall n1 c1 n2 c2,
      In (n1, c1) (df_columns df) -> In (n2, c2) (df_columns df) ->
      is_np_number (fst c1) = true -> is_np_number (fst c2) = true ->
      n1 <> n2 ->
      corr_entry (_calculate_correlations df) n1 n2
      = Some (VFloat (pd_corr (snd c1) (snd c2))))
   /\
   (forall n, corr_entry (_calculate_correlations df) n n = None)
   /\
   (forall n c,
      In (n, c) (df_columns df) -> is_np_number (fst c) = false ->
      dict_get (CStr n) (_calculate_correlations df) = None
      /\ forall m, corr_entry (_calculate_correlations df) m n = None)).
Proof.
  intros Hnd. split.
  - intros Hlen. unfold _calculate_correlations.
    apply Nat.ltb_lt in Hlen. now rewrite Hlen.
  - intros Hlen.
    assert (Hnum : NoDup (map fst (numeric_columns df)))
      by now apply NoDup_map_filter.
    assert (Hfind : forall n c, In (n, c) (df_columns df) ->
              is_np_number (fst c) = true ->
              find (fun x => String.eqb n (fst x)) (numeric_columns df)
              = Some (n, c)).
    { intros n c Hin Hc.
      apply (find_NoDup_In fst (numeric_columns df) (n, c) Hnum).
      apply filter_In. split; assumption. }
    assert (Hmiss : forall n c, In (n, c) (df_columns df) ->
              is_np_number (fst c) = false ->
              find (fun x => String.eqb n (fst x)) (numeric_columns df) = None).
    { intros n c Hin Hc. apply find_all_false. intros [m d] Hy.
      apply filter_In in Hy as [Hy Hd]. simpl in *.
      apply String.eqb_neq. intros ->.
      assert (d = c).
      { clear - Hnd Hin Hy. unfold df_names in Hnd.
        induction (df_columns df) as [|x l IH]; simpl in *; [easy|].
        inversion Hnd as [|? ? Hnotin Hnd']; subst.
        destruct Hin as [->|Hin], Hy as [Heq|Hy].
        - now inversion Heq.
        - exfalso. apply Hnotin. simpl.
          change m with (fst (m, d)). now apply in_map.
        - subst x. exfalso. apply Hnotin. simpl.
          change m with (fst (m, c)). now apply in_map.
        - now apply IH. }
      subst d. congruence. }
    split; [|split].
    + intros n1 c1 n2 c2 H1 H2 Hc1 Hc2 Hne. unfold corr_entry.
      rewrite correlations_get, (Hfind n1 c1) by assumption.
      rewrite corr_row_get by assumption. simpl.
      apply String.eqb_neq in Hne. rewrite Hne.
      now rewrite (Hfind n2 c2).
    + intros n. unfold corr_entry. rewrite correlations_get by assumption.
      destruct (find _ (numeric_columns df)) as [col1|] eqn:E; auto.
      rewrite corr_row_get by assumption.
      apply find_some in E as [_ E]. apply String.eqb_eq in E.
      rewrite <- E. now rewrite String.eqb_refl.
    + intros n c Hin Hc. split.
      * rewrite correlations_get by assumption. now rewrite (Hmiss n c).
      * intros m. unfold corr_entry. rewrite correlations_get by assumption.
        destruct (find _ (numeric_columns df)) as [col1|]; auto.
        rewrite corr_row_get by assumption.
        rewrite (Hmiss n c) by assumption.
        now destruct (String.eqb (fst col1) n).
Qed.

End Correlations.

Lemma correlations_shape_witness :
  NoDup (df_names correlations_example)
  /\ (2 <= List.length (numeric_columns correlations_example))%nat
  /\ corr_entry (_calculate_correlations (P := Reference.pandas)
                   correlations_example) "units" "units" = None
  /\ dict_get (CStr "code")
       (_calculate_correlations (P := Reference.pandas) correlations_example)
     = None.
Proof.
  assert (Hnd : NoDup (df_names correlations_example)).
  { repeat constructor; simpl; intuition discriminate. }
  assert (Hlen : (2 <= List.length (numeric_columns correlations_example))%nat)
    by (simpl; lia).
  destruct (correlations_shape (P := Reference.pandas) correlations_example Hnd)
    as [_ Hshape].
  destruct (Hshape Hlen) as [_ [Hself Hother]].
  split; [exact Hnd|]. split; [exact Hlen|]. split.
  - apply Hself.
  - apply (Hother "code" (SObject, [CStr "1"; CStr "2"; CStr "3"])).
    + simpl. auto.
    + reflexivity.
Defined.

(** ** Missing-pattern analyzer *)

Section MissingPatterns.

Lemma null_indices_labels (s : Series) :
  map fst (filter snd (null_mask s)) = null_labels s.
Proof.
  unfold null_mask, null_labels.
  induction (s_rows s) as [|r rows IH]; simpl; auto.
  destruct (isnull (snd r)); simpl; now rewrite IH.
Qed.

Lemma null_count_labels (s : Series) :
  null_count s = List.length (null_labels s).
Proof.
  unfold null_count, null_labels, s_values.
  induction (s_rows s) as [|r rows IH]; simpl; auto.
  destruct (isnull (snd r)); simpl; now rewrite IH.
Qed.

Lemma set_size_seen (g : Z) (l : list Z) :
  (set_size [g] l =? 0)%nat = forallb (Z.eqb g) l.
Proof.
  induction l as [|x l IH]; simpl; auto.
  rewrite orb_false_r, (Z.eqb_sym x g).
  destruct (Z.eqb g x); simpl; auto.
Qed.

Lemma systematic_test (l : list Z) :
  (1 <? List.length l)%nat && (set_size [] (diff l) =? 1)%nat
  = (2 <=? List.length l)%nat && all_equal (diff l).
Proof.
  destruct l as [|a [|b r]]; try reflexivity.
  change (diff (a :: b :: r)) with ((b - a)%Z :: diff (b :: r)).
  cbn [List.length Nat.ltb Nat.leb andb all_equal set_size existsb].
  apply set_size_seen.
Qed.

Lemma series_of_len (df : DataFrame) (col : storage * list cell) :
  List.length (snd col) = df_len df -> s_len (series_of df col) = df_len df.
Proof.
  intros H. unfold s_len, series_of, df_len in *. simpl.
  rewrite length_combine. lia.
Qed.

(** The pattern computed by one turn of the loop is the classification
    by labels. *)
Lemma missing_record_pattern (df : DataFrame) (col : storage * list cell) :
  List.length (snd col) = df_len df ->
  dict_get (CStr "pattern") (missing_record df col)
  = Some (VStr (labelled_missing_pattern (series_of df col))).
Proof.
  intros Hlen. unfold missing_record, labelled_missing_pattern.
  rewrite series_of_len by assumption.
  rewrite null_count_labels.
  destruct (List.length (null_labels (series_of df col)) =? 0)%nat eqn:E0;
    [reflexivity|].
  destruct (List.length (null_labels (series_of df col)) =? df_len df)%nat;
    [reflexivity|].
  cbn [dict_get]. rewrite py_eqb_str. cbn [String.eqb Ascii.eqb Bool.eqb].
  unfold _detect_missing_pattern.
  rewrite null_indices_labels, systematic_test.
  destruct (null_labels (series_of df col)); [discriminate|reflexivity].
Qed.

Lemma missing_record_count_percentage (df : DataFrame)
    (col : storage * list cell) :
  List.length (snd col) = df_len df -> (0 < df_len df)%nat ->
  exists pct q,
    dict_get (CStr "count") (missing_record df col)
    = Some (VNat (null_count (series_of df col)))
    /\ dict_get (CStr "percentage") (missing_record df col) = Some pct
    /\ to_float pct = Ok (Fin q)
    /\ q == ratio (null_count (series_of df col)) (df_len df) * 100.
Proof.
  intros Hlen Hpos. unfold missing_record.
  assert (Hz : ~ inject_Z (Z.of_nat (df_len df)) == 0).
  { unfold Qeq, inject_Z. simpl. lia. }
  destruct (null_count (series_of df col) =? 0)%nat eqn:E0.
  - apply Nat.eqb_eq in E0. rewrite E0.
    exists (VInt 0), (inject_Z 0).
    split; [reflexivity|]. split; [reflexivity|]. split; [reflexivity|].
    unfold ratio. change (inject_Z 0) with 0. field. exact Hz.
  - destruct (null_count (series_of df col) =? df_len df)%nat eqn:E1.
    + apply Nat.eqb_eq in E1. rewrite E1.
      exists (VInt 100), (inject_Z 100).
      split; [reflexivity|]. split; [reflexivity|]. split; [reflexivity|].
      unfold ratio. change (inject_Z 100) with 100. field. exact Hz.
    + unfold F.np_div, F.of_nat, F.mul, hundred.
      destruct (Qeq_bool (inject_Z (Z.of_nat (df_len df))) 0) eqn:E.
      { apply Qeq_bool_iff in E. contradiction. }
      eexists. eexists.
      split; [reflexivity|]. split; [reflexivity|]. split; [reflexivity|].
      unfold ratio, hundred. reflexivity.
Qed.

Lemma map_snd_combine_eq {A B} (a : list A) (b : list B) :
  List.length b = List.length a -> map snd (combine a b) = b.
Proof.
  revert b. induction a as [|x a IH]; intros [|y b]; simpl; try easy.
  intros H. injection H as H. f_equal. now apply IH.
Qed.

(** With the default index 0, 1, ..., n-1 the label of a row is its
    position. *)
Lemma default_index_positions (df : DataFrame) (col : storage * list cell) :
  List.length (snd col) = df_len df ->
  df_index df = range (df_len df) ->
  null_labels (series_of df col) = null_positions (series_of df col).
Proof.
  intros Hlen Hidx. unfold null_labels, null_positions.
  rewrite series_of_len by assumption.
  unfold s_values, series_of. cbn [s_rows].
  rewrite map_snd_combine_eq by (unfold df_len in Hlen; exact Hlen).
  now rewrite <- Hidx.
Qed.

(** C7 as amended. For every column of a table with at least one row and
    the default row index 0, 1, ..., n-1, the record of the analyzer has:
    as pattern, 'none' when no cell is missing, 'all_missing' when every
    cell is, otherwise 'block' when the positions of the missing cells
    are exactly 0, 1, ..., K-1, else 'systematic' when at least two cells
    are missing and the gaps between consecutive missing positions are
    all equal, else 'random'; as count the number K of missing cells; and
    as percentage K over the number of rows, times 100. *)
Theorem missing_pattern_record (df : DataFrame) (name : string)
    (col : storage * list cell) :
  wf_df df -> df_index df = range (df_len df) ->
  In (name, col) (df_columns df) -> (0 < df_len df)%nat ->
  exists record pct q,
    dict_get (CStr name) (_analyze_missing_patterns df) = Some (PDict record)
    /\ dict_get (CStr "pattern") record
       = Some (VStr (guarded_missing_pattern (series_of df col)))
    /\ dict_get (CStr "count") record
       = Some (VNat (null_count (series_of df col)))
    /\ dict_get (CStr "percentage") record = Some pct
    /\ to_float pct = Ok (Fin q)
    /\ q == ratio (null_count (series_of df col)) (df_len df) * 100.
Proof.
  intros [Hnd Hall] Hidx Hin Hpos.
  assert (Hlen : List.length (snd col) = df_len df).
  { rewrite Forall_forall in Hall. apply (Hall (name, col) Hin). }
  destruct (missing_record_count_percentage df col Hlen Hpos)
    as [pct [q [Hc [Hp [Hf Hq]]]]].
  exists (missing_record df col), pct, q.
  repeat split; auto.
  - unfold _analyze_missing_patterns.
    rewrite (dict_get_fold_set fst
               (fun column => PDict (missing_record df (snd column))))
      by exact Hnd.
    change name with (fst (name, col)).
    now rewrite (find_NoDup_In fst (df_columns df) (name, col) Hnd Hin).
  - rewrite missing_record_pattern by assumption.
    unfold labelled_missing_pattern, guarded_missing_pattern.
    now rewrite default_index_positions.
Qed.

End MissingPatterns.

(** C7 as stated fails on a column with a single missing cell that is
    not in the first row: it has no gap at all, so all its gaps are
    equal and the statement gives 'systematic'; the analyzer returns
    'random'. *)
Lemma missing_pattern_counterexample :
  stated_missing_pattern
    (series_of lone_null_example (SFloat64, [CFloat 1; CNaN; CFloat 3]))
  = "systematic"
  /\ pattern_of (_analyze_missing_patterns lone_null_example) "x"
     = Some (VStr "random").
Proof. split; reflexivity. Qed.

Lemma missing_pattern_record_witness :
  wf_df lone_null_example
  /\ df_index lone_null_example = range (df_len lone_null_example)
  /\ (0 < df_len lone_null_example)%nat
  /\ exists record,
       dict_get (CStr "x") (_analyze_missing_patterns lone_null_example)
       = Some (PDict record)
       /\ dict_get (CStr "pattern") record = Some (VStr "random").
Proof.
  assert (Hwf : wf_df lone_null_example).
  { split.
    - repeat constructor. simpl. tauto.
    - repeat constructor. }
  assert (Hpos : (0 < df_len lone_null_example)%nat)
    by (unfold df_len; simpl; lia).
  split; [exact Hwf|]. split; [reflexivity|]. split; [exact Hpos|].
  destruct (missing_pattern_record lone_null_example "x"
              (SFloat64, [CFloat 1; CNaN; CFloat 3]) Hwf eq_refl
              (or_introl eq_refl) Hpos)
    as [record [pct [q [Hget [Hpat _]]]]].
  exists record. split; [exact Hget|exact Hpat].
Defined.

(** ** Distinct values *)

Section Distinct.

Lemma dedupe_length_le (seen l : list cell) :
  (List.length (dedupe seen l) <= List.length l)%nat.
Proof.
  revert seen. induction l as [|x l IH]; intros seen; simpl; auto.
  destruct (py_in x seen); simpl.
  - specialize (IH seen). lia.
  - specialize (IH (x :: seen)). lia.
Qed.

Lemma dedupe_full (seen l : list cell) :
  List.length (dedupe seen l) = List.length l
  <-> distinct l /\ forall y, In y l -> py_in y seen = false.
Proof.
  revert seen. induction l as [|x l IH]; intros seen; simpl.
  - split; auto. intros _. split; [constructor|easy].
  - destruct (py_in x seen) eqn:E.
    + split.
      * intros H. pose proof (dedupe_length_le seen l). lia.
      * intros [_ H]. rewrite (H x) in E by auto. discriminate.
    + simpl. split.
      * intros H. injection H as H. apply IH in H as [Hd Hs].
        split.
        -- constructor; auto. intros y Hy. specialize (Hs y Hy).
           simpl in Hs. now apply orb_false_elim in Hs as [Hs _].
        -- intros y [<-|Hy]; auto. specialize (Hs y Hy).
           simpl in Hs. now apply orb_false_elim in Hs as [_ Hs].
      * intros [Hd Hs]. f_equal. apply IH.
        inversion Hd as [|? ? Hx Hd']; subst. split; auto.
        intros y Hy. simpl. rewrite (Hx y Hy). simpl. apply Hs. now right.
Qed.

Lemma dedupe_full_eq (seen l : list cell) :
  List.length (dedupe seen l) = List.length l -> dedupe seen l = l.
Proof.
  revert seen. induction l as [|x l IH]; intros seen; simpl; auto.
  destruct (py_in x seen).
  - intros H. pose proof (dedupe_length_le seen l). lia.
  - simpl. intros H. injection H as H. f_equal. now apply IH.
Qed.

Lemma filter_length_all {A} (f : A -> bool) (l : list A) :
  List.length (filter f l) = List.length l <-> forallb f l = true.
Proof.
  induction l as [|x l IH]; simpl; [easy|].
  destruct (f x); simpl.
  - rewrite <- IH. split; intros H; lia.
  - split; [|discriminate].
    intros H. pose proof (filter_length_le f l). lia.
Qed.

(** The count of distinct values that are not missing equals the count of
    rows exactly when no value is missing and no value repeats. *)
Lemma nunique_full (l : list cell) :
  List.length (filter notnull (dedupe [] l)) = List.length l
  <-> forallb notnull l = true /\ distinct l.
Proof.
  split.
  - intros H.
    pose proof (filter_length_le notnull (dedupe [] l)) as H1.
    pose proof (dedupe_length_le [] l) as H2.
    assert (Hd : List.length (dedupe [] l) = List.length l) by lia.
    rewrite (dedupe_full_eq [] l Hd) in H.
    split; [now apply filter_length_all|].
    now apply dedupe_full in Hd as [Hd _].
  - intros [Hn Hd].
    assert (He : List.length (dedupe [] l) = List.length l).
    { apply dedupe_full. split; auto. }
    rewrite (dedupe_full_eq [] l He). now apply filter_length_all.
Qed.

Lemma pd_unique_cases (l : list cell) :
  (existsb unhashable l = true
   /\ pd_unique l = Raise (mk_exc TypeError "unhashable type"))
  \/ (existsb unhashable l = false /\ pd_unique l = Ok (dedupe [] l)).
Proof.
  unfold pd_unique. destruct (existsb unhashable l); auto.
Qed.

Lemma pd_nunique_cases (l : list cell) :
  (existsb unhashable l = true
   /\ pd_nunique l = Raise (mk_exc TypeError "unhashable type"))
  \/ (existsb unhashable l = false
      /\ pd_nunique l = Ok (List.length (filter notnull (dedupe [] l)))).
Proof.
  unfold pd_nunique.
  destruct (pd_unique_cases l) as [[H ->]|[H ->]]; auto.
Qed.

End Distinct.

(** ** The type classifier always answers *)

Section Classifier.

Context {P : Pandas}.

Local Ltac answer := eexists; reflexivity.

Lemma boolean_rule_total (series : Series) :
  exists o, boolean_rule series = Ok o.
Proof.
  unfold boolean_rule.
  destruct (pd_unique_cases (s_values series)) as [[_ ->]|[_ ->]];
    cbn [pytry pytry_class bind exc_cls exc_class_eqb].
  - answer.
  - destruct (dtype_is_bool series); [answer|].
    destruct (_ && _); answer.
Qed.

Lemma numeric_string_rule_total (series : Series) :
  exists l, numeric_string_rule series = Ok l.
Proof.
  unfold numeric_string_rule.
  destruct (to_numeric (s_values series)); cbn [pytry pytry_class bind exc_cls exc_class_eqb]; [|answer].
  destruct (Qlt_bool _ _); [answer|]. destruct (_ <? _)%nat; answer.
Qed.

Lemma mixed_types_rule_total (series : Series) (types : list pytype) :
  exists l, mixed_types_rule series types = Ok l.
Proof.
  unfold mixed_types_rule.
  destruct (forallb _ types).
  - destruct (pd_to_datetime clock (s_values series)); cbn [pytry pytry_class bind exc_cls exc_class_eqb]; [|answer].
    destruct (_ =? _)%nat; answer.
  - destruct (existsb _ complex_types); answer.
Qed.

Lemma datetime_string_rule_total (series : Series) :
  exists o, datetime_string_rule series = Ok o.
Proof.
  unfold datetime_string_rule.
  destruct (pd_to_datetime clock (s_values series)); cbn [pytry pytry_class bind exc_cls exc_class_eqb]; [|answer].
  destruct (_ && _); answer.
Qed.

Lemma determine_dtype_total (series : Series) :
  exists label, _determine_dtype series = Ok label.
Proof.
  unfold _determine_dtype.
  destruct (s_len series =? 0)%nat; [answer|].
  destruct (is_datetime64_any_dtype series); [answer|].
  destruct (boolean_rule_total series) as [[label|] ->]; cbn [pytry pytry_class bind exc_cls exc_class_eqb]; [answer|].
  destruct (is_numeric_dtype series); [answer|].
  destruct (forallb is_str (head 100 series)).
  - apply numeric_string_rule_total.
  - destruct (_ <? _)%nat; [apply mixed_types_rule_total|].
    destruct (datetime_string_rule_total series) as [[label|] ->]; cbn [pytry pytry_class bind exc_cls exc_class_eqb];
      answer.
Qed.

End Classifier.

(** ** Pattern detector: the [is_id] flag *)

Section IdFlag.

Context {P : Pandas}.

Lemma ge_threshold_ok (x t : pyfloat) (threshold : pyval) :
  to_float threshold = Ok t -> ge_threshold x threshold = Ok (F.leb t x).
Proof. intros H. unfold ge_threshold. now rewrite H. Qed.

(** Lines 653-661. *)
Lemma is_id_step (series : Series) (patterns : pydict) :
  exists b,
    pytry_class TypeError
      (do nunique <- pd_nunique (s_values series);
       if (nunique =? s_len series)%nat
       then Ok (dict_set "is_id" (VBool true) patterns)
       else Ok (dict_set "is_id" (VBool false) patterns))
      (Ok (dict_set "is_id" (VBool false) patterns))
    = Ok (dict_set "is_id" (VBool b) patterns)
    /\ (b = true <->
        existsb unhashable (s_values series) = false
        /\ forallb notnull (s_values series) = true
        /\ distinct (s_values series)).
Proof.
  assert (Hlen : s_len series = List.length (s_values series)).
  { unfold s_len, s_values. now rewrite length_map. }
  destruct (pd_nunique_cases (s_values series)) as [[Hu ->]|[Hu ->]];
    cbn [pytry_class bind exc_cls exc_class_eqb].
  - exists false. split; [reflexivity|]. rewrite Hu.
    split; [discriminate|]. intros [H _]. discriminate.
  - rewrite Hlen.
    destruct (_ =? _)%nat eqn:E; cbn [pytry_class]; eexists;
      (split; [reflexivity|]).
    + apply Nat.eqb_eq in E. apply nunique_full in E. tauto.
    + apply Nat.eqb_neq in E. split; [discriminate|].
      intros [_ H]. exfalso. apply E. now apply nunique_full.
Qed.

(** Lines 663-671. *)
Lemma is_categorical_step (series : Series) (patterns : pydict) :
  exists b,
    pytry_class TypeError
      (do unique_count <- pd_nunique (s_values series);
       let unique_ratio := ratio unique_count (s_len series) in
       Ok (dict_set "is_categorical"
             (VBool ((unique_count <=? 10)%nat
                     || (Qlt_bool unique_ratio (1 # 20)
                         && (unique_count <? 50)%nat)))
             patterns))
      (Ok (dict_set "is_categorical" (VBool false) patterns))
    = Ok (dict_set "is_categorical" (VBool b) patterns).
Proof.
  destruct (pd_nunique_cases (s_values series)) as [[_ ->]|[_ ->]];
    eexists; reflexivity.
Qed.

(** Lines 673-682. *)
Lemma is_continuous_step (series : Series) (patterns : pydict) :
  exists b,
    pytry
      (do numeric_series <- to_numeric (s_values series);
       if (0 <? List.length (filter notna numeric_series))%nat
       then
         do nunique <- pd_nunique (map float_cell numeric_series);
         let numeric_unique_ratio :=
           ratio nunique (List.length numeric_series) in
         Ok (dict_set "is_continuous"
               (VBool (Qlt_bool (1 # 2) numeric_unique_ratio)) patterns)
       else Ok (dict_set "is_continuous" (VBool false) patterns))
      (fun _ => Ok (dict_set "is_continuous" (VBool false) patterns))
    = Ok (dict_set "is_continuous" (VBool b) patterns).
Proof.
  destruct (to_numeric (s_values series)) as [nums|e];
    cbn [pytry bind]; [|eexists; reflexivity].
  destruct (0 <? _)%nat; [|eexists; reflexivity].
  destruct (pd_nunique (map float_cell nums)); eexists; reflexivity.
Qed.

(** For a column with a value that is not missing, whose first hundred
    such values are text, and a numeric threshold, the pattern detector
    returns a mapping in which is_id is a boolean; it is true exactly
    when no value is unhashable, no cell is missing and no two cells hold
    equal values, that is, when the count of distinct values equals the
    count of rows. *)
Lemma is_id_flag (series : Series) (column_name : string)
    (threshold : pyval) (t : pyfloat) :
  to_float threshold = Ok t ->
  s_len (dropna series) <> 0%nat ->
  forallb is_str (head 100 (dropna series)) = true ->
  exists patterns b,
    _detect_patterns series column_name threshold = Ok patterns
    /\ dict_get (CStr "is_id") patterns = Some (VBool b)
    /\ (b = true <->
        existsb unhashable (s_values series) = false
        /\ forallb notnull (s_values series) = true
        /\ distinct (s_values series)).
Proof.
  intros Ht Hlen Hstr. unfold _detect_patterns.
  apply Nat.eqb_neq in Hlen. rewrite Hlen, Hstr.
  unfold string_patterns.
  rewrite !(ge_threshold_ok _ t) by assumption. cbn [bind].
  destruct (determine_dtype_total series) as [dtype ->]. cbn [bind].
  destruct (String.eqb dtype "datetime"); cbn [bind];
    match goal with
    | |- context [dict_set (CStr "is_id") (VBool true) ?p] =>
        destruct (is_id_step series p) as [b [-> Hb]]; cbn [bind];
        destruct (is_categorical_step series (dict_set "is_id" (VBool b) p))
          as [c Hc]; cbv zeta in Hc |- *; rewrite Hc; cbn [bind];
        destruct (is_continuous_step series
                    (dict_set "is_categorical" (VBool c)
                       (dict_set "is_id" (VBool b) p))) as [k Hk];
        cbv zeta in Hk |- *; rewrite Hk;
        eexists; exists b; split; [reflexivity|]; split; [|exact Hb];
        rewrite !dict_get_set_other by discriminate;
        apply dict_get_set_same
    end.
Qed.

Lemma some_null_not_all_notnull (l : list cell) :
  existsb isnull l = true -> forallb notnull l = false.
Proof.
  induction l as [|c l IH]; simpl; [discriminate|].
  unfold notnull at 1. destruct (isnull c); simpl; auto.
Qed.

(** C6, what the code does. For a text column (a value that is not
    missing, the first hundred such values being text) with a missing
    cell, whatever its other values, the pattern detector sets is_id to
    false: line 655 compares the count of distinct values, which leaves
    missing cells out, with the count of all rows, which includes them.
    So is_id is false also when every value that is not missing is
    distinct from every other. *)
Theorem is_id_false_with_missing_cell (series : Series) (column_name : string)
    (threshold : pyval) (t : pyfloat) :
  to_float threshold = Ok t ->
  s_len (dropna series) <> 0%nat ->
  forallb is_str (head 100 (dropna series)) = true ->
  existsb isnull (s_values series) = true ->
  exists patterns,
    _detect_patterns series column_name threshold = Ok patterns
    /\ dict_get (CStr "is_id") patterns = Some (VBool false).
Proof.
  intros Ht Hlen Hstr Hnull.
  destruct (is_id_flag series column_name threshold t Ht Hlen Hstr)
    as [patterns [[|] [Hrun [Hget Hb]]]].
  - destruct Hb as [Hb _]. destruct (Hb eq_refl) as [_ [Hall _]].
    rewrite (some_null_not_all_notnull _ Hnull) in Hall. discriminate.
  - exists patterns. split; assumption.
Qed.

End IdFlag.

(** A column of two distinct texts with a missing cell between them. *)
Lemma is_id_false_with_missing_cell_witness :
  to_float default_pattern_threshold = Ok (Fin (8 # 10))
  /\ s_len (dropna gap_id_example) <> 0%nat
  /\ forallb is_str (head 100 (dropna gap_id_example)) = true
  /\ existsb isnull (s_values gap_id_example) = true
  /\ distinct (s_values (dropna gap_id_example))
  /\ exists patterns,
       _detect_patterns (P := Reference.pandas) gap_id_example "ref"
         default_pattern_threshold = Ok patterns
       /\ dict_get (CStr "is_id") patterns = Some (VBool false).
Proof.
  assert (Hlen : s_len (dropna gap_id_example) <> 0%nat) by discriminate.
  split; [reflexivity|]. split; [exact Hlen|]. split; [reflexivity|].
  split; [reflexivity|]. split.
  - repeat constructor; simpl; intros y Hy; intuition (subst; reflexivity).
  - exact (is_id_false_with_missing_cell (P := Reference.pandas)
             gap_id_example "ref" default_pattern_threshold (Fin (8 # 10))
             eq_refl Hlen eq_refl eq_refl).
Defined.

(** ** Type classifier: text columns *)

Section TextColumns.

Context {P : Pandas}.

Lemma to_numeric_text (l : list cell) :
  forallb is_str l = true ->
  exists nums,
    to_numeric l = Ok nums
    /\ List.length (filter notna nums) = List.length (filter parses l).
Proof.
  unfold to_numeric.
  induction l as [|c l IH]; simpl; intros H.
  - exists []. auto.
  - apply andb_prop in H as [Hc Hl].
    destruct (IH Hl) as [nums [-> Hn]].
    destruct c; try discriminate. cbn [to_numeric_cell bind parses].
    eexists. split; [reflexivity|].
    simpl. destruct (notna (parse_number s)); simpl; now rewrite Hn.
Qed.

Lemma text_is_hashable (l : list cell) :
  forallb is_str l = true -> existsb unhashable l = false.
Proof.
  induction l as [|c l IH]; simpl; auto.
  intros H. apply andb_prop in H as [Hc Hl].
  destruct c; try discriminate. simpl. auto.
Qed.

Lemma forallb_firstn {A} (f : A -> bool) (n : nat) (l : list A) :
  forallb f l = true -> forallb f (firstn n l) = true.
Proof.
  revert n. induction l as [|x l IH]; intros [|n]; simpl; auto.
  intros H. apply andb_prop in H as [-> Hl]. simpl. auto.
Qed.

(** More than nine in ten, in integers. *)
Lemma over_nine_tenths (valid len : nat) :
  (0 < len)%nat ->
  Qlt_bool (9 # 10) (ratio valid len) = (9 * len <? 10 * valid)%nat.
Proof.
  intros Hlen. unfold Qlt_bool.
  destruct (9 * len <? 10 * valid)%nat eqn:E.
  - apply Nat.ltb_lt in E. apply negb_true_iff.
    destruct (Qle_bool (ratio valid len) (9 # 10)) eqn:Q; auto.
    apply Qle_bool_iff in Q. exfalso.
    unfold ratio, Qle, Qdiv, Qmult, Qinv, inject_Z in Q. simpl in Q.
    destruct (Z.of_nat len) eqn:Z; try lia. simpl in Q. nia.
  - apply Nat.ltb_ge in E. apply negb_false_iff. apply Qle_bool_iff.
    unfold ratio, Qle, Qdiv, Qmult, Qinv, inject_Z. simpl.
    destruct (Z.of_nat len) eqn:Z; try lia. simpl. nia.
Qed.

(** C5 as amended. For a non-empty column of texts, stored as objects,
    whose distinct values are not two spellings of true and false, the
    classifier answers by the share of values that parse as numbers:
    'numeric' when it is strictly above nine in ten, 'mixed' when it is
    positive and at most nine in ten, 'string' when no value parses. *)
Theorem text_column_dtype (series : Series) :
  s_dtype series = SObject ->
  (0 < s_len series)%nat ->
  forallb is_str (s_values series) = true ->
  boolean_spelling_pair (s_values series) = false ->
  let valid := List.length (filter parses (s_values series)) in
  _determine_dtype series
  = Ok (if (9 * s_len series <? 10 * valid)%nat then "numeric"
        else if (0 <? valid)%nat then "mixed"
        else "string").
Proof.
  intros Hobj Hlen Hstr Hpair valid. unfold _determine_dtype.
  destruct (s_len series =? 0)%nat eqn:E0;
    [apply Nat.eqb_eq in E0; lia|].
  unfold is_datetime64_any_dtype, is_numeric_dtype, boolean_rule,
    dtype_is_bool. rewrite Hobj.
  unfold pd_unique. rewrite (text_is_hashable _ Hstr).
  cbn [bind pytry_class]. unfold issubset.
  unfold boolean_spelling_pair in Hpair. rewrite Hpair.
  cbn [bind pytry_class].
  unfold head. rewrite (forallb_firstn _ _ _ Hstr).
  unfold numeric_string_rule.
  destruct (to_numeric_text _ Hstr) as [nums [-> Hn]].
  cbn [bind pytry]. rewrite Hn, over_nine_tenths by assumption.
  fold valid.
  destruct (_ <? _)%nat; [reflexivity|].
  destruct (0 <? valid)%nat; reflexivity.
Qed.

End TextColumns.

(** C5 as stated fails three times. With nine texts of ten that parse the
    share is exactly 90% and the classifier answers 'mixed', not
    'numeric': the test is strict. A column of the texts 'true' and
    'false', none of which parses, is 'boolean', not 'string': the
    boolean rule comes first. And the empty column is 'text'. *)
Lemma text_column_counterexample :
  (List.length (filter (parses (H := Reference.pandas))
                  (s_values nine_of_ten_example)) = 9%nat
   /\ s_len nine_of_ten_example = 10%nat
   /\ _determine_dtype (P := Reference.pandas) nine_of_ten_example
      = Ok "mixed")
  /\
  (filter (parses (H := Reference.pandas)) (s_values spelled_boolean_example)
   = []
   /\ _determine_dtype (P := Reference.pandas) spelled_boolean_example
      = Ok "boolean")
  /\ _determine_dtype (P := Reference.pandas) (mk_series SObject [])
     = Ok "text".
Proof. repeat split; reflexivity. Qed.

Lemma text_column_dtype_witness :
  s_dtype mostly_numeric_example = SObject
  /\ (0 < s_len mostly_numeric_example)%nat
  /\ forallb is_str (s_values mostly_numeric_example) = true
  /\ boolean_spelling_pair (s_values mostly_numeric_example) = false
  /\ _determine_dtype (P := Reference.pandas) mostly_numeric_example
     = Ok "numeric".
Proof.
  assert (Hlen : (0 < s_len mostly_numeric_example)%nat)
    by (unfold s_len; simpl; lia).
  split; [reflexivity|]. split; [exact Hlen|].
  split; [reflexivity|]. split; [reflexivity|].
  exact (text_column_dtype (P := Reference.pandas) mostly_numeric_example
           eq_refl Hlen eq_refl eq_refl).
Defined.

(** ** Type classifier: columns of the integers 0 and 1 *)

Section ZeroOne.

Context {P : Pandas}.

Lemma dedupe_both_seen (l : list cell) :
  Forall zero_or_one l ->
  dedupe [CInt 1; CInt 0] l = [] /\ dedupe [CInt 0; CInt 1] l = [].
Proof.
  induction 1 as [|c l [-> | ->] _ [IH1 IH2]]; simpl; auto.
Qed.

Lemma dedupe_zero_seen (l : list cell) :
  Forall zero_or_one l -> In (CInt 1) l -> dedupe [CInt 0] l = [CInt 1].
Proof.
  induction 1 as [|c l [-> | ->] Hl IH]; simpl; intros Hin; [easy| |].
  - destruct Hin as [Hin|Hin]; [discriminate|]. now apply IH.
  - f_equal. now apply dedupe_both_seen.
Qed.

Lemma dedupe_one_seen (l : list cell) :
  Forall zero_or_one l -> In (CInt 0) l -> dedupe [CInt 1] l = [CInt 0].
Proof.
  induction 1 as [|c l [-> | ->] Hl IH]; simpl; intros Hin; [easy| |].
  - f_equal. now apply dedupe_both_seen.
  - destruct Hin as [Hin|Hin]; [discriminate|]. now apply IH.
Qed.

Lemma dedupe_zero_one (l : list cell) :
  Forall zero_or_one l -> In (CInt 0) l -> In (CInt 1) l ->
  dedupe [] l = [CInt 0; CInt 1] \/ dedupe [] l = [CInt 1; CInt 0].
Proof.
  intros Hall H0 H1. destruct Hall as [|c l [-> | ->] Hl]; [easy| |].
  - left. simpl. f_equal. apply dedupe_zero_seen; auto.
    destruct H1 as [H1|H1]; [discriminate|assumption].
  - right. simpl. f_equal. apply dedupe_one_seen; auto.
    destruct H0 as [H0|H0]; [discriminate|assumption].
Qed.

Lemma zero_one_hashable (l : list cell) :
  Forall zero_or_one l -> existsb unhashable l = false.
Proof. induction 1 as [|c l [-> | ->] _ IH]; simpl; auto. Qed.

(** C4, what the code does. A column whose values are the integers 0 and
    1, both present, and whose storage is not a date/time type is
    classified 'boolean', not 'numeric': its two distinct values are
    looked up in the set of True, False and their spellings, where
    Python finds 1 equal to True and 0 equal to False, so the boolean
    rule fires before the numeric one is reached. *)
Theorem zero_one_column_is_boolean (series : Series) :
  s_dtype series <> SDatetime64 ->
  Forall zero_or_one (s_values series) ->
  In (CInt 0) (s_values series) -> In (CInt 1) (s_values series) ->
  _determine_dtype series = Ok "boolean".
Proof.
  intros Hdt Hall H0 H1. unfold _determine_dtype.
  assert (Hlen : (s_len series =? 0)%nat = false).
  { apply Nat.eqb_neq. unfold s_len, s_values in *.
    destruct (s_rows series); [easy|discriminate]. }
  rewrite Hlen.
  assert (Hd : is_datetime64_any_dtype series = false).
  { unfold is_datetime64_any_dtype. now destruct (s_dtype series). }
  rewrite Hd. unfold boolean_rule, pd_unique.
  rewrite (zero_one_hashable _ Hall). cbn [bind].
  destruct (dtype_is_bool series); [reflexivity|].
  destruct (dedupe_zero_one _ Hall H0 H1) as [-> | ->]; reflexivity.
Qed.

End ZeroOne.

Lemma zero_one_column_witness :
  s_dtype zero_one_example <> SDatetime64
  /\ Forall zero_or_one (s_values zero_one_example)
  /\ _determine_dtype (P := Reference.pandas) zero_one_example = Ok "boolean".
Proof.
  assert (Hdt : s_dtype zero_one_example <> SDatetime64) by discriminate.
  assert (Hall : Forall zero_or_one (s_values zero_one_example)).
  { unfold s_values. simpl.
    repeat apply Forall_cons; try apply Forall_nil; unfold zero_or_one; auto. }
  split; [exact Hdt|]. split; [exact Hall|].
  apply (zero_one_column_is_boolean (P := Reference.pandas) zero_one_example
           Hdt Hall); simpl; auto.
Defined.

(** ** Orchestrator: determinism *)

(** Blanking the time stamp touches nothing else: every other entry of the
    result and every other entry of its metadata stay as they are. *)
Lemma without_profiled_at_keeps (r : Result) (d metadata : pydict) :
  data r = Some d ->
  dict_get (CStr "metadata") d = Some (PDict metadata) ->
  exists d' metadata',
    data (without_profiled_at r) = Some d'
    /\ success (without_profiled_at r) = success r
    /\ errors (without_profiled_at r) = errors r
    /\ dict_get (CStr "metadata") d' = Some (PDict metadata')
    /\ (forall k, k <> "metadata" -> dict_get (CStr k) d' = dict_get (CStr k) d)
    /\ (forall k, k <> "profiled_at" ->
         dict_get (CStr k) metadata' = dict_get (CStr k) metadata).
Proof.
  intros Hd Hm. unfold without_profiled_at. rewrite Hd, Hm.
  eexists. eexists. cbn [data success errors].
  split; [reflexivity|]. split; [reflexivity|]. split; [reflexivity|].
  split; [apply dict_get_set_same|]. split.
  - intros k Hk. now apply dict_get_set_other.
  - intros k Hk. now apply dict_get_set_other.
Qed.

Section Determinism.

Context {P : Pandas} {St1 St2 : Type}.
Variable lh1 : option (Learning St1).
Variable lh2 : option (Learning St2).




End Determinism.

(** ** Orchestrator: failures *)

Section Failures.

Context {P : Pandas} {St : Type}.
Variable learning_history : option (Learning St).

Lemma input_invalid_errors (data : pydata) :
  input_invalid data -> validate_input data <> [].
Proof.
  unfold validate_input.
  intros [H | [[v H] | [df [H E]]]]; rewrite H; try discriminate.
  rewrite E. discriminate.
Qed.

Lemma negative_is_below_zero (q : Q) : q < 0 -> Qlt_bool q (inject_Z 0) = true.
Proof.
  intros H. unfold Qlt_bool. apply negb_true_iff.
  destruct (Qle_bool (inject_Z 0) q) eqn:E; auto.
  apply Qle_bool_iff in E. change (inject_Z 0) with 0 in E.
  exfalso. apply (Qlt_not_le _ _ H E).
Qed.

Lemma config_invalid_errors (config : pydict) :
  sample_size_negative config \/ threshold_out_of_range config ->
  match _validate_config config with
  | Ok config_errors => config_errors <> []
  | Raise _ => True
  end.
Proof.
  intros H. unfold _validate_config, py_lt, py_le.
  destruct (to_float (dict_get_default "sample_size" _ config))
    as [s|e] eqn:Es; cbn [bind to_float num_of F.of_Z]; [|exact I].
  destruct (to_float (dict_get_default "pattern_threshold" _ config))
    as [t|e] eqn:Et; cbn [bind]; [|exact I].
  destruct H as [[q [Hq Hneg]] | [q [Hq Hout]]].
  - rewrite Es in Hq. injection Hq as ->.
    unfold F.ltb, F.of_Z. rewrite (negative_is_below_zero q Hneg).
    destruct (F.leb _ t); cbn [bind];
      [destruct (F.leb t _)|]; cbn [negb app]; discriminate.
  - rewrite Et in Hq. injection Hq as ->. unfold F.leb, F.of_Z.
    assert (Hin : (if Qle_bool (inject_Z 0) q
                   then Ok (Qle_bool q (inject_Z 1)) else Ok false)
                  = Ok false).
    { destruct (Qle_bool (inject_Z 0) q) eqn:E0; auto.
      destruct (Qle_bool q (inject_Z 1)) eqn:E1; auto.
      apply Qle_bool_iff in E0, E1.
      change (inject_Z 0) with 0 in E0. change (inject_Z 1) with 1 in E1.
      destruct Hout as [Hlt|Hgt];
        [destruct (Qlt_not_le _ _ Hlt E0)|destruct (Qlt_not_le _ _ Hgt E1)]. }
    rewrite Hin. cbn [bind negb].
    destruct (F.ltb s _); cbn [app]; discriminate.
Qed.

Lemma profile_table_complete (now : string) (df : DataFrame) (config : pydict)
    (st st' : St) (r : Result) :
  profile_table learning_history now df config st = (Ok r, st') ->
  success r = true /\ errors r = []
  /\ exists d, data r = Some d /\ complete_result d.
Proof.
  unfold profile_table.
  destruct (do over <- py_lt _ _; if over then _ else _) as [[sdf sampled]|e];
    [|discriminate].
  destruct (fetch_learned_patterns _ _ _) as [[|] s0]; [|discriminate].
  destruct (profile_columns _ _ _ _ _ _ _ _) as [[[profile patterns]|] s1];
    [|discriminate].
  destruct (_calculate_quality_score _ _ _) as [quality_score|];
    [|discriminate].
  intros H. injection H as <- _. cbn [success errors data].
  split; [reflexivity|]. split; [reflexivity|].
  eexists. split; [reflexivity|].
  unfold complete_result. repeat eexists.
Qed.

(** C2. Whenever the 'dataframe' field is absent, not a DataFrame or
    empty, or the configuration has a sample_size below 0 or a
    pattern_threshold outside [0, 1], [execute] returns success false,
    data None and the non-empty list of errors of validation; that list is
    computed from the field and the configuration alone, and the
    collaborator's state is untouched, so no profiling has run. Any
    exception of the body is returned as success false, data None and its
    message as the only error. And every result of [execute] is either
    such a failure, with no data and at least one error, or a success
    with all six entries of a profiling result and no error. *)
Theorem execute_failures (now : string) (input : pydata) (config : pydict)
    (st : St) :
  (input_invalid input \/ sample_size_negative config
   \/ threshold_out_of_range config ->
   validation_errors input config <> []
   /\ execute learning_history now input config st
      = (failure (validation_errors input config), st))
  /\
  (forall e st',
     execute_body learning_history now input config st = (Raise e, st') ->
     execute learning_history now input config st
     = (failure [exc_msg e], st'))
  /\
  (let r := fst (execute learning_history now input config st) in
   (success r = false /\ data r = None /\ errors r <> [])
   \/ (success r = true /\ errors r = []
       /\ exists d, data r = Some d /\ complete_result d)).
Proof.
  split; [|split].
  - intros Hbad. unfold validation_errors, execute, execute_body.
    destruct (validate_input input) as [|err errs] eqn:Ev.
    + destruct Hbad as [Hin | Hcfg].
      { now apply input_invalid_errors in Hin. }
      pose proof (config_invalid_errors config Hcfg) as Hc.
      destruct (_validate_config config) as [[|c cs]|e].
      * now contradiction Hc.
      * split; [discriminate|reflexivity].
      * split; [discriminate|reflexivity].
    + split; [discriminate|reflexivity].
  - intros e st' Hbody. unfold execute. now rewrite Hbody.
  - unfold execute.
    destruct (execute_body learning_history now input config st)
      as [[r|e] st'] eqn:Hbody; cbn [fst].
    + unfold execute_body in Hbody.
      destruct (validate_input input) as [|err errs].
      * destruct (_validate_config config) as [[|c cs]|e]; [| |discriminate].
        -- destruct (data_get _ input) as [[df|v]|]; try discriminate.
           right. now apply (profile_table_complete now df config st st').
        -- injection Hbody as <- _. left. repeat split. discriminate.
      * injection Hbody as <- _. left. repeat split. discriminate.
    + left. repeat split. discriminate.
Qed.

End Failures.

Lemma execute_failures_witness :
  sample_size_negative negative_sample_size
  /\ execute (P := Reference.pandas) (Some Reference.counting)
       "2024-03-01T09:00:00" sparse_data negative_sample_size 0%nat
     = (failure ["Invalid sample_size: must be positive"], 0%nat).
Proof.
  assert (Hneg : sample_size_negative negative_sample_size).
  { exists (inject_Z (-5)). split; [reflexivity|]. unfold Qlt. simpl. lia. }
  split; [exact Hneg|].
  destruct (execute_failures (P := Reference.pandas)
              (Some Reference.counting) "2024-03-01T09:00:00" sparse_data
              negative_sample_size 0%nat) as [Hfail _].
  destruct (Hfail (or_intror (or_introl Hneg))) as [_ Hrun].
  exact Hrun.
Defined.

(** ** Quality scorer: a score below zero *)

(** C1, what the code does on a table that validation accepts. For the
    table of sixteen rows whose one column holds a text in its second
    row and nothing elsewhere, under the default configuration,
    [execute] succeeds with a quality score of -17.1875: completeness
    gives 100 - 93.75 = 6.25 and the 'random' missing pattern gives
    100 - 93.75 * 1.5 = -40.625, which has no floor, and the mean of the
    two is negative. *)
Theorem quality_score_below_zero :
  exists r q,
    execute (P := Reference.pandas) (St := unit) None "2024-03-01T09:00:00"
      sparse_data [] tt = (r, tt)
    /\ success r = true
    /\ quality_score_of r = Some (VFloat (Fin q))
    /\ q == - (275 # 16)
    /\ q < 0.
Proof.
  eexists. eexists.
  split; [vm_compute; reflexivity|].
  split; [reflexivity|]. split; [reflexivity|].
  split; reflexivity.
Qed.

(* ================================================================== *)
(** * Further properties *)
(* ================================================================== *)

Lemma Ok_inj {A} (a b : A) : Ok a = Ok b -> a = b.
Proof. intros H. now injection H. Qed.

Lemma Qlt_bool_spec (a b : Q) :
  (Qlt_bool a b = true /\ a < b) \/ (Qlt_bool a b = false /\ b <= a).
Proof.
  unfold Qlt_bool. destruct (Qle_bool b a) eqn:E; cbn [negb].
  - right. split; [reflexivity|]. now apply Qle_bool_iff.
  - left. split; [reflexivity|]. apply Qnot_le_lt. intros H.
    apply Qle_bool_iff in H. congruence.
Qed.

Lemma Qle_bool_spec (a b : Q) :
  (Qle_bool a b = true /\ a <= b) \/ (Qle_bool a b = false /\ b < a).
Proof.
  destruct (Qle_bool a b) eqn:E.
  - left. split; [reflexivity|]. now apply Qle_bool_iff.
  - right. split; [reflexivity|]. apply Qnot_le_lt. intros H.
    apply Qle_bool_iff in H. congruence.
Qed.

(** ** Type classifier: its labels *)

Section Labels.

Context {P : Pandas}.

Local Ltac label := eexists; split; [reflexivity|]; simpl; tauto.

Lemma classifier_label (series : Series) :
  exists label,
    _determine_dtype series = Ok label
    /\ In label (if (s_len series =? 0)%nat then ["text"] else dtype_labels).
Proof.
  unfold _determine_dtype, dtype_labels.
  destruct (s_len series =? 0)%nat; [label|].
  destruct (is_datetime64_any_dtype series); [label|].
  unfold boolean_rule.
  destruct (pd_unique_cases (s_values series)) as [[_ ->]|[_ ->]];
    cbn [pytry_class bind exc_cls exc_class_eqb].
  2: destruct (dtype_is_bool series); cbn [pytry_class bind]; [label|].
  2: destruct (_ && _); cbn [pytry_class bind]; [label|].
  all: destruct (is_numeric_dtype series); [label|].
  all: destruct (forallb is_str (head 100 series)).
  all: try (unfold numeric_string_rule;
            destruct (to_numeric (s_values series)); cbn [pytry bind];
            [|label];
            destruct (Qlt_bool _ _); [label|];
            destruct (_ <? _)%nat; label).
  all: destruct (_ <? _)%nat.
  all: try (unfold mixed_types_rule;
            destruct (forallb _ _);
            [destruct (pd_to_datetime clock (s_values series)); cbn [pytry bind];
             [destruct (_ =? _)%nat; label|label]
            |destruct (existsb _ complex_types); label]).
  all: unfold datetime_string_rule;
    destruct (pd_to_datetime clock (s_values series)); cbn [pytry bind];
    [destruct (_ && _); cbn [bind]; label|cbn [bind]; label].
Qed.

(** X1. On every column the type classifier answers, without raising, with
    'text' when the column is empty and otherwise with one of 'datetime',
    'boolean', 'numeric', 'mixed', 'string' and 'object'. *)
Theorem determine_dtype_labels (series : Series) :
  exists label,
    _determine_dtype series = Ok label
    /\ In label (if (s_len series =? 0)%nat then ["text"] else dtype_labels).
Proof. exact (classifier_label series). Qed.

End Labels.

(** ** Type classifier: columns of numeric storage *)

Section NumericStorage.

Context {P : Pandas}.

(** X2. A column of int64 or float64 storage that is not empty is 'numeric',
    unless its distinct values are exactly two and both among 0 and 1
    (which Python finds equal to False and True): then it is 'boolean'. *)
Theorem numeric_storage_dtype (series : Series) :
  is_np_number (s_dtype series) = true ->
  s_len series <> 0%nat ->
  existsb unhashable (s_values series) = false ->
  _determine_dtype series
  = Ok (if boolean_spelling_pair (s_values series) then "boolean"
        else "numeric").
Proof.
  intros Hnum Hlen Hhash. unfold _determine_dtype.
  apply Nat.eqb_neq in Hlen. rewrite Hlen.
  unfold is_datetime64_any_dtype, boolean_rule, pd_unique, dtype_is_bool,
    is_numeric_dtype.
  rewrite Hhash. cbn [bind]. unfold issubset, boolean_spelling_pair.
  destruct (s_dtype series); try discriminate;
    destruct (_ && _); reflexivity.
Qed.

End NumericStorage.

Lemma numeric_storage_dtype_witness :
  is_np_number (s_dtype zero_one_float_example) = true
  /\ s_len zero_one_float_example <> 0%nat
  /\ _determine_dtype (P := Reference.pandas) zero_one_float_example
     = Ok "boolean".
Proof.
  assert (Hlen : s_len zero_one_float_example <> 0%nat) by discriminate.
  split; [reflexivity|]. split; [exact Hlen|].
  exact (numeric_storage_dtype (P := Reference.pandas) zero_one_float_example
           eq_refl Hlen eq_refl).
Defined.

(** ** Pattern detector: the shape of its result *)

Section PatternShape.

Context {P : Pandas}.

(** X3. With a numeric threshold the pattern detector never raises. It
    returns no flag for a column whose cells are all missing, the six
    flags is_email, is_phone, is_date, is_id, is_categorical and
    is_continuous, in this order, when the first hundred values that are
    not missing are text, and only is_categorical and is_continuous
    otherwise; every flag it returns is a boolean. *)
Theorem detect_patterns_shape (series : Series) (column_name : string)
    (threshold : pyval) (t : pyfloat) :
  to_float threshold = Ok t ->
  exists patterns,
    _detect_patterns series column_name threshold = Ok patterns
    /\ keys patterns
       = (if (s_len (dropna series) =? 0)%nat then []
          else if forallb is_str (head 100 (dropna series)) then text_flags
          else plain_flags)
    /\ forallb (fun kv => is_bool_value (snd kv)) patterns = true.
Proof.
  intros Ht. unfold _detect_patterns.
  destruct (s_len (dropna series) =? 0)%nat; [exists []; auto|].
  destruct (forallb is_str (head 100 (dropna series))).
  - unfold string_patterns.
    rewrite !(ge_threshold_ok _ t) by assumption. cbn [bind].
    destruct (determine_dtype_total series) as [dtype ->]. cbn [bind].
    destruct (String.eqb dtype "datetime"); cbn [bind];
      match goal with
      | |- context [dict_set (CStr "is_id") (VBool true) ?p] =>
          destruct (is_id_step series p) as [b [-> Hb]]; cbn [bind];
          destruct (is_categorical_step series (dict_set "is_id" (VBool b) p))
            as [c Hc]; cbv zeta in Hc |- *; rewrite Hc; cbn [bind];
          destruct (is_continuous_step series
                      (dict_set "is_categorical" (VBool c)
                         (dict_set "is_id" (VBool b) p))) as [k Hk];
          cbv zeta in Hk |- *; rewrite Hk;
          eexists; split; [reflexivity|]; split; reflexivity
      end.
  - cbn [bind].
    destruct (is_categorical_step series []) as [c Hc];
      cbv zeta in Hc |- *; rewrite Hc; cbn [bind].
    destruct (is_continuous_step series
                (dict_set "is_categorical" (VBool c) [])) as [k Hk];
      cbv zeta in Hk |- *; rewrite Hk.
    eexists. split; [reflexivity|]. split; reflexivity.
Qed.

End PatternShape.

Lemma detect_patterns_shape_witness :
  to_float default_pattern_threshold = Ok (Fin (8 # 10))
  /\ exists patterns,
       _detect_patterns (P := Reference.pandas) gap_id_example "ref"
         default_pattern_threshold = Ok patterns
       /\ keys patterns = text_flags.
Proof.
  split; [reflexivity|].
  destruct (detect_patterns_shape (P := Reference.pandas) gap_id_example "ref"
              default_pattern_threshold (Fin (8 # 10)) eq_refl)
    as [patterns [Hrun [Hkeys _]]].
  exists patterns. split; [exact Hrun|exact Hkeys].
Defined.

(** ** Pattern detector: the threshold at its bounds *)

(** Looks a text key up through a chain of [dict_set]. *)
Ltac lookup :=
  repeat (rewrite dict_get_set_other by discriminate);
  rewrite ?dict_get_set_same.

Section ThresholdBounds.

Context {P : Pandas}.

Lemma np_div_ratio (m n : nat) :
  n <> 0%nat -> F.np_div (F.of_nat m) (F.of_nat n) = Fin (ratio m n).
Proof.
  intros Hn. unfold F.np_div, F.of_nat.
  destruct (Qeq_bool (inject_Z (Z.of_nat n)) 0) eqn:E; [|reflexivity].
  apply Qeq_bool_iff in E. unfold Qeq, inject_Z in E. simpl in E. lia.
Qed.

Lemma ratio_nonneg (m n : nat) : 0 <= ratio m n.
Proof.
  unfold ratio, Qle, Qdiv, Qmult, Qinv, inject_Z. simpl.
  destruct (Z.of_nat n) eqn:E; simpl; lia.
Qed.

Lemma ratio_ge_one (m n : nat) :
  n <> 0%nat -> (m <= n)%nat -> Qle_bool 1 (ratio m n) = (m =? n)%nat.
Proof.
  intros Hn Hm. destruct (m =? n)%nat eqn:E.
  - apply Nat.eqb_eq in E. subst m. apply Qle_bool_iff.
    unfold ratio, Qle, Qdiv, Qmult, Qinv, inject_Z. simpl.
    destruct (Z.of_nat n) eqn:Z; simpl; lia.
  - apply Nat.eqb_neq in E.
    destruct (Qle_bool 1 (ratio m n)) eqn:Q; auto.
    apply Qle_bool_iff in Q. exfalso.
    unfold ratio, Qle, Qdiv, Qmult, Qinv, inject_Z in Q. simpl in Q.
    destruct (Z.of_nat n) eqn:Z; simpl in Q; lia.
Qed.

Lemma match_count_le (pattern : string) (vals : list cell) :
  (match_count pattern vals <= List.length vals)%nat.
Proof. apply filter_length_le. Qed.

(** The run of the detector on a text column, step by step. *)
Lemma text_patterns_run (series : Series) (column_name : string)
    (threshold : pyval) (t : pyfloat) :
  to_float threshold = Ok t ->
  s_len (dropna series) <> 0%nat ->
  forallb is_str (head 100 (dropna series)) = true ->
  let n := s_len (dropna series) in
  let vals := s_values (dropna series) in
  exists dtype b c k,
    _determine_dtype series = Ok dtype
    /\ _detect_patterns series column_name threshold
       = Ok (dict_set "is_continuous" (VBool k)
               (dict_set "is_categorical" (VBool c)
                  (dict_set "is_id" (VBool b)
                     (dict_set "is_date"
                        (VBool
                           (if String.eqb dtype "datetime" then true
                            else F.leb t
                                   (F.np_div
                                      (F.of_nat
                                         (fold_left
                                            (fun acc pattern =>
                                               (acc + match_count pattern vals)%nat)
                                            date_patterns 0%nat))
                                      (F.of_nat n))))
                        (dict_set "is_phone"
                           (VBool (F.leb t (F.np_div
                                              (F.of_nat (match_count phone_pattern vals))
                                              (F.of_nat n))))
                           (dict_set "is_email"
                              (VBool (F.leb t (F.np_div
                                                 (F.of_nat (match_count email_pattern vals))
                                                 (F.of_nat n))))
                              [])))))).
Proof.
  intros Ht Hlen Hstr n vals. unfold _detect_patterns.
  apply Nat.eqb_neq in Hlen. rewrite Hlen, Hstr.
  unfold string_patterns.
  rewrite !(ge_threshold_ok _ t) by assumption. cbn [bind].
  destruct (determine_dtype_total series) as [dtype Hd]. rewrite Hd.
  cbn [bind]. exists dtype.
  destruct (String.eqb dtype "datetime"); cbn [bind];
    match goal with
    | |- context [dict_set (CStr "is_id") (VBool true) ?p] =>
        destruct (is_id_step series p) as [b [-> Hb]]; cbn [bind];
        destruct (is_categorical_step series (dict_set "is_id" (VBool b) p))
          as [c Hc]; cbv zeta in Hc |- *; rewrite Hc; cbn [bind];
        destruct (is_continuous_step series
                    (dict_set "is_categorical" (VBool c)
                       (dict_set "is_id" (VBool b) p))) as [k Hk];
        cbv zeta in Hk |- *; rewrite Hk;
        exists b, c, k; split; reflexivity
    end.
Qed.

(** X4. A threshold of 0 (or below) flags every text column as email, phone
    and date, whatever its values; a threshold of 1 flags it as email,
    resp. phone, exactly when every value that is not missing matches the
    pattern. *)
Theorem threshold_bounds (series : Series) (column_name : string)
    (threshold : pyval) (q : Q) :
  to_float threshold = Ok (Fin q) ->
  s_len (dropna series) <> 0%nat ->
  forallb is_str (head 100 (dropna series)) = true ->
  exists patterns,
    _detect_patterns series column_name threshold = Ok patterns
    /\ (q <= 0 ->
        dict_get (CStr "is_email") patterns = Some (VBool true)
        /\ dict_get (CStr "is_phone") patterns = Some (VBool true)
        /\ dict_get (CStr "is_date") patterns = Some (VBool true))
    /\ (q == 1 ->
        dict_get (CStr "is_email") patterns
        = Some (VBool (match_count email_pattern (s_values (dropna series))
                       =? s_len (dropna series))%nat)
        /\ dict_get (CStr "is_phone") patterns
           = Some (VBool (match_count phone_pattern (s_values (dropna series))
                          =? s_len (dropna series))%nat)).
Proof.
  intros Ht Hlen Hstr.
  destruct (text_patterns_run series column_name threshold (Fin q) Ht Hlen Hstr)
    as [dtype [b [c [k [_ Hrun]]]]].
  eexists. split; [exact Hrun|].
  assert (Hvals : s_len (dropna series)
                  = List.length (s_values (dropna series))).
  { unfold s_len, s_values. now rewrite length_map. }
  rewrite !np_div_ratio by assumption. unfold F.leb.
  split.
  - intros Hq.
    assert (Hle : forall m n, Qle_bool q (ratio m n) = true).
    { intros m n. apply Qle_bool_iff.
      apply Qle_trans with 0; [exact Hq|apply ratio_nonneg]. }
    rewrite !Hle.
    split; [|split]; lookup; [reflexivity..|].
    now destruct (String.eqb dtype "datetime").
  - intros Hq.
    assert (Hone : forall m, (m <= s_len (dropna series))%nat ->
              Qle_bool q (ratio m (s_len (dropna series)))
              = (m =? s_len (dropna series))%nat).
    { intros m Hm. rewrite <- (ratio_ge_one m _ Hlen Hm).
      destruct (Qle_bool q _) eqn:E1, (Qle_bool 1 _) eqn:E2; auto.
      - apply Qle_bool_iff in E1. rewrite Hq in E1.
        apply Qle_bool_iff in E1. congruence.
      - apply Qle_bool_iff in E2. rewrite <- Hq in E2.
        apply Qle_bool_iff in E2. congruence. }
    split; lookup;
      rewrite Hone by (rewrite Hvals; apply match_count_le); reflexivity.
Qed.

End ThresholdBounds.

Lemma threshold_bounds_witness :
  to_float (VInt 0) = Ok (Fin (inject_Z 0))
  /\ s_len (dropna gap_id_example) <> 0%nat
  /\ forallb is_str (head 100 (dropna gap_id_example)) = true
  /\ exists patterns,
       _detect_patterns (P := Reference.pandas) gap_id_example "ref" (VInt 0)
       = Ok patterns
       /\ dict_get (CStr "is_email") patterns = Some (VBool true).
Proof.
  assert (Hlen : s_len (dropna gap_id_example) <> 0%nat) by discriminate.
  split; [reflexivity|]. split; [exact Hlen|]. split; [reflexivity|].
  destruct (threshold_bounds (P := Reference.pandas) gap_id_example "ref"
              (VInt 0) (inject_Z 0) eq_refl Hlen eq_refl)
    as [patterns [Hrun [Hzero _]]].
  exists patterns. split; [exact Hrun|].
  apply Hzero. unfold Qle. simpl. lia.
Defined.

(** ** Column profiler: numeric statistics *)

Section NumericProfile.

Context {P : Pandas}.


Lemma capped_length {A} (l : list A) :
  List.length (if (List.length l <? 100)%nat then l else firstn 100 l)
  = Nat.min (List.length l) 100.
Proof.
  destruct (List.length l <? 100)%nat eqn:E.
  - apply Nat.ltb_lt in E. lia.
  - apply Nat.ltb_ge in E. rewrite length_firstn. lia.
Qed.






End NumericProfile.


(** ** Column profiler: the entries of a profile *)

Section ProfileFields.

Context {P : Pandas}.

Lemma null_and_not_null (series : Series) :
  (null_count series + s_len (dropna series) = s_len series)%nat.
Proof.
  unfold null_count, s_len, dropna, s_values. cbn [s_rows].
  induction (s_rows series) as [|r rows IH]; simpl; auto.
  unfold notnull at 1. destruct (isnull (snd r)); simpl; lia.
Qed.

Local Ltac fields dtype :=
  let H := fresh "H" in
  intros H; apply Ok_inj in H; subst; exists dtype;
  split; [reflexivity|]; split; [reflexivity|]; split; [reflexivity|];
  split; [reflexivity|].

Lemma profile_column_entries (series : Series) (column_name : string)
    (threshold : pyval) (d : pydict) :
  _profile_column series column_name threshold = Ok d ->
  exists dtype,
    dict_get (CStr "count") d = Some (VNat (s_len series))
    /\ dict_get (CStr "null_count") d = Some (VNat (null_count series))
    /\ dict_get (CStr "null_percentage") d
       = Some (VFloat (F.mul (F.np_div (F.of_nat (null_count series))
                                       (F.of_nat (s_len series))) hundred))
    /\ dict_get (CStr "dtype") d = Some (VStr dtype)
    /\ (null_count series + s_len (dropna series) = s_len series)%nat
    /\ ((dtype = "all_null" /\ s_len (dropna series) = 0%nat
         /\ keys d = base_keys)
        \/ (In dtype dtype_labels /\ s_len (dropna series) <> 0%nat
            /\ (keys d = base_keys ++ statistics_keys dtype
                \/ (dtype = "datetime" /\ keys d = base_keys)))).
Proof.
  unfold _profile_column.
  pose proof (null_and_not_null series) as Hsum.
  destruct (s_len (dropna series) =? 0)%nat eqn:E.
  - apply Nat.eqb_eq in E. fields "all_null".
    split; [exact Hsum|]. left. auto.
  - destruct (classifier_label (dropna series)) as [label [-> Hin]].
    rewrite E in Hin. apply Nat.eqb_neq in E. cbn [bind].
    unfold dtype_labels in Hin. cbn [In] in Hin.
    destruct Hin as [<-|[<-|[<-|[<-|[<-|[<-|[]]]]]]];
      cbn [String.eqb Ascii.eqb Bool.eqb].
    + (* datetime *)
      unfold _profile_datetime.
      destruct (pd_to_datetime _ _) as [parsed|e]; cbn [bind]; [|discriminate].
      destruct (somes parsed); cbn [bind];
        [|destruct (_detect_date_frequency _) as [frequency|e]; cbn [bind];
          [|discriminate]];
        fields "datetime";
        (split; [exact Hsum|]); right; (split; [simpl; tauto|]);
        (split; [exact E|]); [right|left]; auto.
    + (* boolean *)
      unfold _profile_boolean.
      destruct (pd_value_counts _) as [counts|e]; cbn [bind]; [|discriminate].
      fields "boolean". split; [exact Hsum|]. right.
      split; [simpl; tauto|]. split; [exact E|]. left. reflexivity.
    + (* numeric *)
      unfold _profile_numeric.
      destruct (to_numeric _) as [nums|e]; cbn [bind]; [|discriminate].
      fields "numeric". split; [exact Hsum|]. right.
      split; [simpl; tauto|]. split; [exact E|]. left. reflexivity.
    + (* mixed *)
      unfold _profile_mixed, nunique_or_None.
      destruct (pd_nunique_cases (s_values (dropna series)))
        as [[_ ->]|[_ ->]]; cbn [bind pytry_class exc_cls exc_class_eqb];
        fields "mixed"; (split; [exact Hsum|]); right;
        (split; [simpl; tauto|]); (split; [exact E|]); left; reflexivity.
    + (* string *)
      unfold _profile_string.
      destruct (pd_nunique_cases (s_values (dropna series)))
        as [[_ ->]|[_ ->]]; cbn [bind pytry_class exc_cls exc_class_eqb];
        (destruct (pd_value_counts _) as [counts|e];
         cbn [bind pytry_class];
         [|destruct (exc_class_eqb (exc_cls e) TypeError); cbn [bind];
           [|discriminate]]);
        fields "string"; (split; [exact Hsum|]); right;
        (split; [simpl; tauto|]); (split; [exact E|]); left; reflexivity.
    + (* object *)
      unfold _profile_object, nunique_or_None.
      destruct (pd_nunique_cases (s_values (dropna series)))
        as [[_ ->]|[_ ->]]; cbn [bind pytry_class exc_cls exc_class_eqb];
        fields "object"; (split; [exact Hsum|]); right;
        (split; [simpl; tauto|]); (split; [exact E|]); left; reflexivity.
Qed.

(** X6. Whenever a column is profiled, the profile reports under count the
    number of rows, under null_count the number of missing cells, which
    with the cells that are not missing add up to the rows, under
    null_percentage their share times 100, and under dtype 'all_null' or
    a label of the type classifier; the statistics of that dtype follow
    these four entries and overwrite none of them. A 'datetime' column
    of which no value converts has no statistics. *)
Theorem profile_column_fields (series : Series) (column_name : string)
    (threshold : pyval) (d : pydict) :
  _profile_column series column_name threshold = Ok d ->
  exists dtype,
    dict_get (CStr "count") d = Some (VNat (s_len series))
    /\ dict_get (CStr "null_count") d = Some (VNat (null_count series))
    /\ dict_get (CStr "null_percentage") d
       = Some (VFloat (F.mul (F.np_div (F.of_nat (null_count series))
                                       (F.of_nat (s_len series))) hundred))
    /\ dict_get (CStr "dtype") d = Some (VStr dtype)
    /\ (null_count series + s_len (dropna series) = s_len series)%nat
    /\ ((dtype = "all_null" /\ s_len (dropna series) = 0%nat
         /\ keys d = base_keys)
        \/ (In dtype dtype_labels /\ s_len (dropna series) <> 0%nat
            /\ (keys d = base_keys ++ statistics_keys dtype
                \/ (dtype = "datetime" /\ keys d = base_keys)))).
Proof. exact (profile_column_entries series column_name threshold d). Qed.

End ProfileFields.

Lemma profile_column_fields_witness :
  exists d,
    _profile_column (P := Reference.pandas) gap_id_example "ref"
      default_pattern_threshold = Ok d
    /\ dict_get (CStr "null_count") d = Some (VNat 1)
    /\ dict_get (CStr "dtype") d = Some (VStr "string").
Proof.
  eexists.
  assert (Hrun : _profile_column (P := Reference.pandas) gap_id_example "ref"
                   default_pattern_threshold = Ok _)
    by (vm_compute; reflexivity).
  destruct (profile_column_fields (P := Reference.pandas) gap_id_example "ref"
              default_pattern_threshold _ Hrun)
    as [dtype [_ [Hnull [_ [Hdtype _]]]]].
  split; [exact Hrun|]. split; [exact Hnull|reflexivity].
Defined.

(** ** Column profiler: the frequency of dates *)

Section DateFrequency.

Context {P : Pandas}.

Lemma insert_sorted_comm (x y : Z) (l : list Z) :
  insert_sorted x (insert_sorted y l) = insert_sorted y (insert_sorted x l).
Proof.
  induction l as [|z r IH]; simpl;
    repeat (match goal with
            | |- context [(?a <? ?b)%Z] => destruct (Z.ltb_spec a b)
            end; simpl);
    try lia; try reflexivity;
    try (assert (x = y) by lia; subst; reflexivity).
  now rewrite IH.
Qed.

(** Sorting does not depend on the order of the rows. *)
Lemma sort_values_perm (l1 l2 : list Z) :
  Permutation l1 l2 -> sort_values l1 = sort_values l2.
Proof.
  unfold sort_values.
  induction 1 as [|x l l' _ IH|x y l|l l' l'' _ IH1 _ IH2]; simpl.
  - reflexivity.
  - now rewrite IH.
  - apply insert_sorted_comm.
  - now rewrite IH1.
Qed.

Lemma insert_sorted_length (x : Z) (l : list Z) :
  List.length (insert_sorted x l) = S (List.length l).
Proof.
  induction l as [|y r IH]; simpl; auto.
  destruct (x <? y)%Z; simpl; auto.
Qed.

Lemma sort_values_length (l : list Z) :
  List.length (sort_values l) = List.length l.
Proof.
  unfold sort_values. induction l as [|x l IH]; simpl; auto.
  now rewrite insert_sorted_length, IH.
Qed.

(** X7. The frequency of a column of dates does not depend on the order of
    its rows. *)
Theorem date_frequency_order (l1 l2 : list Z) :
  Permutation l1 l2 ->
  _detect_date_frequency l1 = _detect_date_frequency l2.
Proof.
  intros H. unfold _detect_date_frequency.
  now rewrite (Permutation_length H), (sort_values_perm l1 l2 H).
Qed.

Lemma fold_left_some {A} (f : option A -> A -> option A) :
  (forall b x, exists m, f (Some b) x = Some m) ->
  forall r b, exists m, fold_left f r (Some b) = Some m.
Proof.
  intros Hf. induction r as [|x r IH]; intros b; simpl; [eauto|].
  destruct (Hf b x) as [m ->]. apply IH.
Qed.

Lemma mode0_some (l : list Z) : l <> [] -> exists m, mode0 l = Some m.
Proof.
  unfold mode0. destruct l as [|x r]; [easy|]. intros _.
  cbn [fold_left]. apply fold_left_some. intros b y.
  destruct (_ <? _)%nat; [eauto|]. destruct (_ && _); eauto.
Qed.

(** X8. The frequency is never 'unknown': with two dates or more there is a
    gap between consecutive dates, hence a most common one. *)
Theorem date_frequency_never_unknown (series : list Z) :
  _detect_date_frequency series <> Ok "unknown".
Proof.
  unfold _detect_date_frequency.
  destruct (List.length series <? 2)%nat eqn:E; [discriminate|].
  apply Nat.ltb_ge in E. rewrite <- sort_values_length in E.
  destruct (sort_values series) as [|a [|b r]]; simpl in E; try lia.
  cbv zeta. destruct (existsb _ _); [discriminate|].
  destruct (mode0_some (diff (a :: b :: r))) as [m ->]; [discriminate|].
  repeat match goal with
         | |- (if ?c then _ else _) <> _ => destruct c
         end; discriminate.
Qed.

Lemma sort_values_progression (start step : Z) (n : nat) :
  (0 < step)%Z ->
  sort_values (progression start step n) = progression start step n.
Proof.
  intros Hstep. unfold sort_values. revert start.
  induction n as [|n IH]; intros start; simpl; auto.
  rewrite IH. destruct n as [|n]; simpl; auto.
  destruct (Z.ltb_spec start (start + step)); [reflexivity|lia].
Qed.

Lemma diff_progression (start step : Z) (n : nat) :
  diff (progression start step (S n)) = repeat step n.
Proof.
  revert start. induction n as [|n IH]; intros start; [reflexivity|].
  change (progression start step (S (S n)))
    with (start :: start + step :: progression (start + step + step) step n)%Z.
  change (diff (start :: start + step :: progression (start + step + step) step n)%Z)
    with ((start + step - start)%Z
          :: diff (progression (start + step) step (S n))).
  rewrite IH. simpl. f_equal. lia.
Qed.

Lemma fold_left_fixed {A} (f : option A -> A -> option A) (g : A) :
  f (Some g) g = Some g ->
  forall n, fold_left f (repeat g n) (Some g) = Some g.
Proof.
  intros Hf. induction n as [|n IH]; simpl; auto. now rewrite Hf.
Qed.

Lemma mode0_repeat (g : Z) (n : nat) : mode0 (repeat g (S n)) = Some g.
Proof.
  unfold mode0. cbn [repeat fold_left].
  apply (fold_left_fixed _ g).
  now rewrite Nat.ltb_irrefl, Z.ltb_irrefl, andb_false_r.
Qed.

Lemma existsb_repeat {A} (f : A -> bool) (x : A) (n : nat) :
  existsb f (repeat x (S n)) = f x.
Proof.
  induction n as [|n IH]; cbn [repeat existsb] in *.
  - apply orb_false_r.
  - rewrite IH. apply orb_diag.
Qed.

(** X9. Dates at a fixed positive step, two or more, in any order of rows:
    when the step fits a 64-bit count of nanoseconds they have the
    frequency that names the step, 'daily' for one day, 'weekly' for
    seven, 'monthly' for 28 to 31 days, 'yearly' for 365 or 366, and
    'custom' with the step otherwise; when the step does not fit, as for
    two dates some three hundred years apart, the detection raises. *)
Theorem date_frequency_regular (series : list Z) (start step : Z) (n : nat) :
  Permutation series (progression start step n) ->
  (2 <= n)%nat -> (0 < step)%Z ->
  _detect_date_frequency series
  = if (step <=? max_timedelta)%Z then Ok (gap_name step)
    else Raise overflow_error.
Proof.
  intros Hperm Hn Hstep. unfold _detect_date_frequency, gap_name.
  rewrite (Permutation_length Hperm), (sort_values_perm _ _ Hperm).
  assert (Hlen : List.length (progression start step n) = n).
  { clear. revert start. induction n; intros; simpl; auto. }
  rewrite Hlen. destruct (n <? 2)%nat eqn:E; [apply Nat.ltb_lt in E; lia|].
  rewrite sort_values_progression by assumption.
  destruct n as [|[|n]]; try lia.
  cbv zeta. rewrite diff_progression, existsb_repeat, mode0_repeat.
  destruct (max_timedelta <? step)%Z eqn:Eo.
  - apply Z.ltb_lt in Eo.
    destruct (Z.leb_spec step max_timedelta); [lia|reflexivity].
  - apply Z.ltb_ge in Eo.
    destruct (Z.leb_spec step max_timedelta); [|lia].
    repeat match goal with
           | |- context [if ?c then _ else _] => destruct c
           end; reflexivity.
Qed.

End DateFrequency.

Lemma date_frequency_order_witness :
  Permutation [3; 1; 2]%Z [1; 2; 3]%Z
  /\ _detect_date_frequency (P := Reference.pandas) [3; 1; 2]%Z
     = _detect_date_frequency (P := Reference.pandas) [1; 2; 3]%Z.
Proof.
  assert (Hperm : Permutation [3; 1; 2]%Z [1; 2; 3]%Z).
  { change [1; 2; 3]%Z with ([1; 2] ++ [3])%Z.
    apply Permutation_cons_app. rewrite app_nil_r. apply Permutation_refl. }
  split; [exact Hperm|].
  exact (date_frequency_order (P := Reference.pandas) _ _ Hperm).
Defined.

Lemma date_frequency_regular_witness :
  Permutation [ns_per_day; 0; 2 * ns_per_day]%Z (progression 0 ns_per_day 3)
  /\ _detect_date_frequency (P := Reference.pandas)
       [ns_per_day; 0; 2 * ns_per_day]%Z = Ok "daily"
  /\ _detect_date_frequency (P := Reference.pandas)
       [7258118400000000000; -8520336000000000000]%Z
     = Raise overflow_error.
Proof.
  assert (Hperm : Permutation [ns_per_day; 0; 2 * ns_per_day]%Z
                    (progression 0 ns_per_day 3)).
  { apply perm_swap. }
  split; [exact Hperm|]. split.
  - apply (date_frequency_regular (P := Reference.pandas) _ 0%Z ns_per_day 3
             Hperm); [lia|reflexivity].
  - apply (date_frequency_regular (P := Reference.pandas) _
             (-8520336000000000000)%Z 15778454400000000000%Z 2);
      [apply perm_swap|lia|reflexivity].
Defined.

(** ** Orchestrator: what a successful run returns *)

Section Success.

Context {P : Pandas} {St : Type}.
Variable learning_history : option (Learning St).

Lemma apply_learning_result (lh : Learning St) (column : string)
    (p0 pats p : pydict) (st st' : St) :
  apply_learning lh column p0 pats st = (Ok p, st') ->
  p = p0 \/ exists s, p = dict_set "suggested_type" s p0.
Proof.
  unfold apply_learning.
  destruct (suggest_column_type lh column st) as [[s|e] st1]; [|discriminate].
  cbv zeta.
  match goal with
  | |- match ?c with _ => _ end = _ -> _ => destruct c as [[u|e] st2]
  end; [|discriminate].
  intros H. injection H as <- _.
  destruct (truthy s); [right; eauto|left; reflexivity].
Qed.

(** One turn of the loop over the columns. *)
Lemma profile_columns_step (df : DataFrame) (learn : bool) (t : pyval)
    (column : string) (col : storage * list cell)
    (rest : list (string * (storage * list cell)))
    (profile patterns : pydict) (st st' : St) (res : pydict * pydict) :
  profile_columns learning_history df learn t ((column, col) :: rest)
    profile patterns st = (Ok res, st') ->
  exists p pats st1,
    stored_profile df column col t p
    /\ _detect_patterns (series_of df col) column t = Ok pats
    /\ profile_columns learning_history df learn t rest
         (dict_set column (PDict p) profile)
         (dict_set column (PDict pats) patterns) st1 = (Ok res, st').
Proof.
  cbn [profile_columns].
  destruct (_profile_column _ _ _) as [p0|e] eqn:Hp; [|discriminate].
  destruct (_detect_patterns _ _ _) as [pats|e] eqn:Hd; [|discriminate].
  destruct learn, learning_history as [lh|].
  1: destruct (apply_learning lh column p0 pats st) as [[p|e] st1] eqn:Hl;
    [|discriminate].
  1: apply apply_learning_result in Hl.
  all: intros H; eexists; exists pats; eexists;
    (split; [|split; [reflexivity|exact H]]);
    exists p0; (split; [exact Hp|auto]).
Qed.

Lemma py_eqb_str_inv_r (a : string) (k : cell) :
  py_eqb k (CStr a) = true -> k = CStr a.
Proof.
  destruct k; simpl; try discriminate.
  - destruct b; discriminate.
  - intros H. apply String.eqb_eq in H. now subst.
Qed.

Lemma dict_get_absent (a : string) (d : pydict) :
  ~ In (CStr a) (keys d) -> dict_get (CStr a) d = None.
Proof.
  induction d as [|[k v] d IH]; cbn [dict_get keys map In fst]; auto.
  intros H. destruct (py_eqb (CStr a) k) eqn:E.
  - apply py_eqb_str_inv in E. subst k. tauto.
  - apply IH. tauto.
Qed.

(** Setting a key that is not there adds it at the end. *)
Lemma dict_set_new_key (a : string) (v : pyval) (d : pydict) :
  ~ In (CStr a) (keys d) -> keys (dict_set (CStr a) v d) = keys d ++ [CStr a].
Proof.
  induction d as [|[k w] d IH]; cbn [dict_set keys map In fst app]; auto.
  intros H. destruct (py_eqb (CStr a) k) eqn:E.
  - apply py_eqb_str_inv in E. subst k. tauto.
  - cbn [map fst]. f_equal. apply IH. tauto.
Qed.

Lemma dict_set_keys_NoDup_step (names : list string) (a : string)
    (d : pydict) :
  NoDup (keys d ++ map CStr (a :: names)) -> ~ In (CStr a) (keys d).
Proof.
  intros H Hin. apply NoDup_remove_2 in H. apply H.
  apply in_or_app. now left.
Qed.

Lemma profile_columns_keys (df : DataFrame) (learn : bool) (t : pyval)
    (columns : list (string * (storage * list cell))) :
  forall (profile patterns : pydict) (st st' : St) (res : pydict * pydict),
    profile_columns learning_history df learn t columns profile patterns st
    = (Ok res, st') ->
    NoDup (keys profile ++ map CStr (map fst columns)) ->
    NoDup (keys patterns ++ map CStr (map fst columns)) ->
    keys (fst res) = keys profile ++ map CStr (map fst columns)
    /\ keys (snd res) = keys patterns ++ map CStr (map fst columns).
Proof.
  induction columns as [|[column col] rest IH];
    intros profile patterns st st' res Hrun Hp Hq.
  - cbn [profile_columns] in Hrun. injection Hrun as <- _.
    cbn [map fst snd]. now rewrite !app_nil_r.
  - apply profile_columns_step in Hrun as [p [pats [st1 [_ [_ Hrest]]]]].
    cbn [map fst] in *.
    pose proof (dict_set_keys_NoDup_step _ _ _ Hp) as Hnp.
    pose proof (dict_set_keys_NoDup_step _ _ _ Hq) as Hnq.
    apply IH in Hrest.
    + rewrite !dict_set_new_key in Hrest by assumption.
      rewrite <- !app_assoc in Hrest. exact Hrest.
    + rewrite dict_set_new_key by assumption.
      rewrite <- app_assoc. exact Hp.
    + rewrite dict_set_new_key by assumption.
      rewrite <- app_assoc. exact Hq.
Qed.

Lemma fold_set_keys {A} (key : A -> string) (value : A -> pyval)
    (l : list A) :
  forall d,
    NoDup (keys d ++ map CStr (map key l)) ->
    keys (fold_left (fun acc x => dict_set (CStr (key x)) (value x) acc) l d)
    = keys d ++ map CStr (map key l).
Proof.
  induction l as [|x l IH]; intros d Hnd; cbn [fold_left map].
  - now rewrite app_nil_r.
  - pose proof (dict_set_keys_NoDup_step _ _ _ Hnd) as Hn.
    rewrite IH; rewrite dict_set_new_key by assumption;
      rewrite <- app_assoc; [reflexivity|exact Hnd].
Qed.

Lemma NoDup_map_CStr (names : list string) :
  NoDup names -> NoDup (map CStr names).
Proof.
  induction 1 as [|a names Hn _ IH]; cbn [map]; constructor; auto.
  intros Hin. apply in_map_iff in Hin as [b [Hb Hin]].
  injection Hb as ->. contradiction.
Qed.

(** What a successful run of [profile_table] is made of. *)
Lemma profile_table_success (now : string) (df : DataFrame) (config : pydict)
    (st st' : St) (r : Result) :
  profile_table learning_history now df config st = (Ok r, st') ->
  exists df' sampled profile patterns quality st0,
    profiled_frame df config = Ok (df', sampled)
    /\ profile_columns learning_history df'
         (truthy (dict_get_default "enable_learning" (VBool true) config))
         (dict_get_default "pattern_threshold" default_pattern_threshold config)
         (df_columns df') [] [] st0 = (Ok (profile, patterns), st')
    /\ _calculate_quality_score profile (_calculate_correlations df')
         (_analyze_missing_patterns df') = Ok quality
    /\ r = mk_result true
             (Some
                [(CStr "profile", PDict profile);
                 (CStr "patterns", PDict patterns);
                 (CStr "correlations", PDict (_calculate_correlations df'));
                 (CStr "missing_patterns",
                  PDict (_analyze_missing_patterns df'));
                 (CStr "quality_score", VFloat quality);
                 (CStr "metadata",
                  PDict
                    [(CStr "sampled", VBool sampled);
                     (CStr "sample_size", VNat (df_len df'));
                     (CStr "original_size", VNat (df_len df));
                     (CStr "profiled_at", VStr now)])])
             [].
Proof.
  unfold profile_table, profiled_frame.
  destruct (do over <- py_lt _ _; if over then _ else _)
    as [[df' sampled]|e]; [|discriminate].
  destruct (fetch_learned_patterns _ _ _) as [[u|e] st0]; [|discriminate].
  destruct (profile_columns _ _ _ _ _ _ _ _) as [[[profile patterns]|e] s1]
    eqn:Hcols; [|discriminate].
  destruct (_calculate_quality_score _ _ _) as [quality|e] eqn:Hq;
    [|discriminate].
  intros H. injection H as <- <-.
  exists df', sampled, profile, patterns, quality, st0.
  repeat split; assumption.
Qed.

(** What a successful run of [execute] is made of. *)
Lemma execute_success (now : string) (input : pydata) (config : pydict)
    (st st' : St) (r : Result) :
  execute learning_history now input config st = (r, st') ->
  success r = true ->
  exists df,
    data_get "dataframe" input = Some (ODataFrame df)
    /\ df_empty df = false
    /\ _validate_config config = Ok []
    /\ profile_table learning_history now df config st = (Ok r, st').
Proof.
  unfold execute, execute_body, validate_input.
  destruct (data_get "dataframe" input) as [[df|v]|].
  2,3: intros H; injection H as <- _; discriminate.
  destruct (df_empty df) eqn:Hempty.
  { intros H; injection H as <- _; discriminate. }
  destruct (_validate_config config) as [[|c cs]|e].
  2,3: intros H; injection H as <- _; discriminate.
  destruct (profile_table _ _ _ _ _) as [[r0|e] s0] eqn:Htable.
  2: intros H; injection H as <- _; discriminate.
  intros H _. injection H as <- <-. exists df. auto.
Qed.

(** X10. Whenever [execute] succeeds, the metadata of the result tell what was
    profiled: original_size is the number of rows of the table given;
    sampled is true exactly when that number exceeds sample_size, in
    which case the table profiled is the sample drawn with seed 42 and
    sample_size reports its number of rows; otherwise the table itself is
    profiled and sample_size equals original_size; profiled_at is the
    time of the run. *)
Theorem sampling_metadata (now : string) (input : pydata) (config : pydict)
    (st st' : St) (r : Result) :
  execute learning_history now input config st = (r, st') ->
  success r = true ->
  exists df df' sampled,
    data_get "dataframe" input = Some (ODataFrame df)
    /\ py_lt (dict_get_default "sample_size" default_sample_size config)
             (VNat (df_len df)) = Ok sampled
    /\ (if sampled
        then pd_sample 42
               (dict_get_default "sample_size" default_sample_size config) df
             = Ok df'
        else df' = df)
    /\ metadata_entry r "sampled" = Some (VBool sampled)
    /\ metadata_entry r "sample_size" = Some (VNat (df_len df'))
    /\ metadata_entry r "original_size" = Some (VNat (df_len df))
    /\ metadata_entry r "profiled_at" = Some (VStr now).
Proof.
  intros Hrun Hok.
  destruct (execute_success _ _ _ _ _ _ Hrun Hok) as [df [Hdf [_ [_ Htable]]]].
  destruct (profile_table_success _ _ _ _ _ _ Htable)
    as [df' [sampled [profile [patterns [quality [st0 [Hframe [_ [_ ->]]]]]]]]].
  exists df, df', sampled. split; [exact Hdf|].
  unfold profiled_frame, _sample_dataframe in Hframe.
  destruct (py_lt _ _) as [[|]|e]; cbn [bind] in Hframe; try discriminate.
  - destruct (pd_sample _ _ _) as [sdf|e]; cbn [bind] in Hframe;
      [|discriminate].
    apply Ok_inj in Hframe. injection Hframe as <- <-.
    repeat split; reflexivity.
  - apply Ok_inj in Hframe. injection Hframe as <- <-.
    repeat split; reflexivity.
Qed.

(** X11. Whenever [execute] succeeds on a table whose profiled columns have
    distinct names, the profile, the patterns and the missing patterns of
    the result each have exactly the columns of the profiled table as
    keys, in the order of the columns. *)
Theorem column_maps_keys (now : string) (input : pydata) (config : pydict)
    (st st' : St) (r : Result) :
  execute learning_history now input config st = (r, st') ->
  success r = true ->
  exists df df' sampled profile patterns missing_patterns,
    data_get "dataframe" input = Some (ODataFrame df)
    /\ profiled_frame df config = Ok (df', sampled)
    /\ data_entry r "profile" = Some (PDict profile)
    /\ data_entry r "patterns" = Some (PDict patterns)
    /\ data_entry r "missing_patterns" = Some (PDict missing_patterns)
    /\ (NoDup (df_names df') ->
        keys profile = map CStr (df_names df')
        /\ keys patterns = map CStr (df_names df')
        /\ keys missing_patterns = map CStr (df_names df')).
Proof.
  intros Hrun Hok.
  destruct (execute_success _ _ _ _ _ _ Hrun Hok) as [df [Hdf [_ [_ Htable]]]].
  destruct (profile_table_success _ _ _ _ _ _ Htable)
    as [df' [sampled [profile [patterns [quality [st0 [Hframe [Hcols [_ ->]]]]]]]]].
  exists df, df', sampled, profile, patterns, (_analyze_missing_patterns df').
  split; [exact Hdf|]. split; [exact Hframe|].
  split; [reflexivity|]. split; [reflexivity|]. split; [reflexivity|].
  intros Hnd. apply NoDup_map_CStr in Hnd.
  apply profile_columns_keys in Hcols; [|exact Hnd|exact Hnd].
  destruct Hcols as [Hp Hq]. cbn [fst snd keys map app] in Hp, Hq.
  split; [exact Hp|]. split; [exact Hq|].
  unfold _analyze_missing_patterns.
  apply (fold_set_keys fst (fun column => PDict (missing_record df' (snd column)))
           (df_columns df') [] Hnd).
Qed.

End Success.

(** ** Quality score: its upper bound *)

Section QualityBound.

Context {P : Pandas}.

Lemma to_float_VFloat (f : pyfloat) : to_float (VFloat f) = Ok f.
Proof. destruct f; reflexivity. Qed.

Lemma percentage_nonneg (m n : nat) :
  match F.mul (F.np_div (F.of_nat m) (F.of_nat n)) hundred with
  | NaN => True
  | Fin x => 0 <= x
  end.
Proof.
  destruct n as [|n]; [exact I|].
  rewrite np_div_ratio by discriminate. cbn [F.mul hundred].
  pose proof (ratio_nonneg m (S n)). nra.
Qed.

Lemma stored_profile_get (df : DataFrame) (column : string)
    (col : storage * list cell) (t : pyval) (p : pydict) :
  stored_profile df column col t p ->
  exists p0,
    _profile_column (series_of df col) column t = Ok p0
    /\ forall key : string,
         key <> "suggested_type" ->
         dict_get (CStr key) p = dict_get (CStr key) p0.
Proof.
  intros [p0 [Hp0 [->|[s ->]]]]; exists p0; (split; [exact Hp0|]); auto.
  intros key Hkey. now apply dict_get_set_other.
Qed.

Lemma completeness_bound (df : DataFrame) (column : string)
    (col : storage * list cell) (t : pyval) (p : pydict) (k : cell)
    (f : pyfloat) :
  stored_profile df column col t p ->
  completeness_score (k, PDict p) = Ok f -> at_most_hundred f.
Proof.
  intros Hs. destruct (stored_profile_get _ _ _ _ _ Hs) as [p0 [Hp0 Hget]].
  destruct (profile_column_entries _ _ _ _ Hp0) as [dtype [_ [_ [Hpct _]]]].
  unfold completeness_score, dict_get_default. cbn [snd as_dict bind].
  rewrite Hget, Hpct, to_float_VFloat by discriminate. cbn [bind].
  intros H. apply Ok_inj in H. subst f.
  pose proof (percentage_nonneg (null_count (series_of df col))
                (s_len (series_of df col))) as Hn.
  destruct (F.mul _ _) as [x|]; [|exact I].
  unfold at_most_hundred, hundred, F.sub. lra.
Qed.

Local Ltac other_dtype :=
  let H := fresh "H" in
  let Hd := fresh "Hd" in
  intros H Hd; apply Ok_inj in H; subst; exfalso; revert Hd;
  match goal with
  | |- context [dict_get ?k ?x] =>
      match goal with
      | |- context [dict_get k x] =>
          let v := eval cbn in (dict_get k x) in
          change (dict_get k x) with v
      end
  end;
  discriminate.

(** A profile of dtype 'numeric' is that of a column with rows, and its
    outliers start with their count. *)
Lemma profile_column_outliers (series : Series) (column_name : string)
    (threshold : pyval) (d : pydict) :
  _profile_column series column_name threshold = Ok d ->
  match dict_get (CStr "dtype") d with
  | Some dtype => eq_str dtype "numeric"
  | None => false
  end = true ->
  s_len series <> 0%nat
  /\ dict_get (CStr "count") d = Some (VNat (s_len series))
  /\ exists c rest,
       dict_get (CStr "outliers") d
       = Some (PDict ((CStr "count", VNat c) :: rest)).
Proof.
  unfold _profile_column.
  pose proof (null_and_not_null series) as Hsum.
  destruct (s_len (dropna series) =? 0)%nat eqn:E; [other_dtype|].
  destruct (classifier_label (dropna series)) as [label [-> Hin]].
  rewrite E in Hin. apply Nat.eqb_neq in E. cbn [bind].
  unfold dtype_labels in Hin. cbn [In] in Hin.
  destruct Hin as [<-|[<-|[<-|[<-|[<-|[<-|[]]]]]]];
    cbn [String.eqb Ascii.eqb Bool.eqb].
  - unfold _profile_datetime.
    destruct (pd_to_datetime _ _) as [parsed|e]; cbn [bind]; [|discriminate].
    destruct (somes parsed); cbn [bind];
      [|destruct (_detect_date_frequency _) as [frequency|e]; cbn [bind];
        [|discriminate]];
      other_dtype.
  - unfold _profile_boolean.
    destruct (pd_value_counts _) as [counts|e]; cbn [bind]; [|discriminate].
    other_dtype.
  - unfold _profile_numeric.
    destruct (to_numeric _) as [nums|e]; cbn [bind]; [|discriminate].
    intros H _. apply Ok_inj in H. subst d.
    split; [lia|]. split; [reflexivity|].
    eexists. eexists. reflexivity.
  - unfold _profile_mixed, nunique_or_None.
    destruct (pd_nunique_cases (s_values (dropna series)))
      as [[_ ->]|[_ ->]]; cbn [bind pytry_class exc_cls exc_class_eqb];
      other_dtype.
  - unfold _profile_string.
    destruct (pd_nunique_cases (s_values (dropna series)))
      as [[_ ->]|[_ ->]]; cbn [bind pytry_class exc_cls exc_class_eqb];
      (destruct (pd_value_counts _) as [counts|e];
       cbn [bind pytry_class];
       [|destruct (exc_class_eqb (exc_cls e) TypeError); cbn [bind];
         [|discriminate]]);
      other_dtype.
  - unfold _profile_object, nunique_or_None.
    destruct (pd_nunique_cases (s_values (dropna series)))
      as [[_ ->]|[_ ->]]; cbn [bind pytry_class exc_cls exc_class_eqb];
      other_dtype.
Qed.

Lemma outlier_bound (df : DataFrame) (column : string)
    (col : storage * list cell) (t : pyval) (p : pydict) (k : cell)
    (f : pyfloat) :
  stored_profile df column col t p ->
  outlier_score (k, PDict p) = Ok (Some f) ->
  at_most_hundred f /\ f <> NaN.
Proof.
  intros Hs. destruct (stored_profile_get _ _ _ _ _ Hs) as [p0 [Hp0 Hget]].
  unfold outlier_score, dict_mem, subscript. cbn [snd as_dict bind].
  rewrite !Hget by discriminate.
  destruct (match dict_get (CStr "dtype") p0 with
            | Some dtype => eq_str dtype "numeric"
            | None => false
            end) eqn:Hd; cbn [andb]; [|discriminate].
  destruct (profile_column_outliers _ _ _ _ Hp0 Hd)
    as [Hn [Hc [c [rest Ho]]]].
  rewrite Ho, Hc. cbn [bind dict_get].
  rewrite py_eqb_str. cbn [String.eqb Ascii.eqb Bool.eqb bind].
  change (to_float (VNat c)) with (Ok (F.of_nat c)).
  change (to_float (VNat (s_len (series_of df col))))
    with (Ok (F.of_nat (s_len (series_of df col)))).
  cbn [bind].
  assert (Hdiv : F.py_div (F.of_nat c) (F.of_nat (s_len (series_of df col)))
                 = Ok (Fin (ratio c (s_len (series_of df col))))).
  { unfold F.py_div, F.of_nat.
    destruct (Qeq_bool _ 0) eqn:E; [|reflexivity].
    apply Qeq_bool_iff in E. unfold Qeq, inject_Z in E. simpl in E. lia. }
  rewrite Hdiv. cbn [bind].
  intros H. apply Ok_inj in H. injection H as <-.
  pose proof (ratio_nonneg c (s_len (series_of df col))) as Hr.
  unfold at_most_hundred, hundred, F.mul, F.min, F.ltb.
  destruct (Qlt_bool _ _); cbn [F.sub]; (split; [nra|discriminate]).
Qed.

Lemma pattern_bound (df : DataFrame) (col : storage * list cell) (k : cell)
    (f : pyfloat) :
  pattern_score (k, PDict (missing_record df col)) = Ok f ->
  at_most_hundred f.
Proof.
  unfold pattern_score, missing_record. cbv zeta. cbn [snd].
  destruct (null_count (series_of df col) =? 0)%nat.
  { intros H. apply Ok_inj in H. subst f. simpl. lra. }
  destruct (null_count (series_of df col) =? df_len df)%nat.
  { intros H. apply Ok_inj in H. subst f. simpl. lra. }
  unfold subscript. cbn [dict_get].
  rewrite !py_eqb_str. cbn [String.eqb Ascii.eqb Bool.eqb bind].
  rewrite to_float_VFloat. cbn [bind].
  pose proof (percentage_nonneg (null_count (series_of df col)) (df_len df))
    as Hn.
  destruct (F.mul _ hundred) as [x|].
  - destruct (eq_str _ "random");
      [|destruct (eq_str _ "systematic")];
      intros H; apply Ok_inj in H; subst f;
      unfold at_most_hundred, hundred, F.mul, F.sub; lra.
  - destruct (eq_str _ "random");
      [|destruct (eq_str _ "systematic")];
      intros H; apply Ok_inj in H; subst f; simpl; try exact I; lra.
Qed.

Lemma mapM_Forall {A B} (f : A -> res B) (Q : A -> Prop) (R : B -> Prop) :
  (forall x y, Q x -> f x = Ok y -> R y) ->
  forall l ys, Forall Q l -> mapM f l = Ok ys -> Forall R ys.
Proof.
  intros Hf. induction l as [|x l IH]; intros ys Hl; cbn [mapM].
  - intros H. apply Ok_inj in H. subst ys. constructor.
  - inversion Hl as [|? ? Hx Hl']; subst.
    destruct (f x) as [y|e] eqn:Hy; cbn [bind]; [|discriminate].
    destruct (mapM f l) as [ys'|e]; cbn [bind]; [|discriminate].
    intros H. apply Ok_inj in H. subst ys. constructor; eauto.
Qed.

Lemma somes_Forall {A} (R : A -> Prop) (l : list (option A)) :
  Forall (fun o => match o with Some x => R x | None => True end) l ->
  Forall R (somes l).
Proof.
  induction 1 as [|[x|] l Hx _ IH]; cbn [somes]; auto.
Qed.

(** A sum of scores that are each NaN or at most 100. *)
Lemma sum_scores_bound (scores : list pyfloat) :
  Forall at_most_hundred scores ->
  forall acc n,
    match acc with
    | NaN => True
    | Fin a => a <= 100 * inject_Z (Z.of_nat n)
    end ->
    match fold_left F.add scores acc with
    | NaN => True
    | Fin s => s <= 100 * inject_Z (Z.of_nat (n + List.length scores))
    end.
Proof.
  induction 1 as [|x scores Hx _ IH]; intros acc n Hacc; cbn [fold_left].
  - cbn [List.length]. now rewrite Nat.add_0_r.
  - cbn [List.length]. rewrite Nat.add_succ_r.
    apply (IH (F.add acc x) (S n)).
    destruct acc as [a|], x as [y|]; cbn [F.add]; auto.
    unfold at_most_hundred in Hx.
    rewrite Nat2Z.inj_succ. unfold Z.succ. rewrite inject_Z_plus.
    change (inject_Z 1) with 1. lra.
Qed.

Lemma average_bound (scores : list pyfloat) (q : pyfloat) :
  Forall at_most_hundred scores ->
  F.py_div (sum_scores scores) (F.of_nat (List.length scores)) = Ok q ->
  at_most_hundred q.
Proof.
  intros Hall. unfold sum_scores.
  pose proof (sum_scores_bound scores Hall (Fin 0) 0) as Hsum.
  cbn [Nat.add] in Hsum.
  destruct (fold_left F.add scores (Fin 0)) as [s|];
    unfold F.py_div, F.of_nat.
  - destruct (Qeq_bool _ 0) eqn:E; [discriminate|].
    intros H. apply Ok_inj in H. subst q. unfold at_most_hundred.
    apply Qeq_bool_neq in E.
    assert (Hpos : 0 < inject_Z (Z.of_nat (List.length scores))).
    { destruct (List.length scores); [now elim E|].
      unfold Qlt, inject_Z. simpl. lia. }
    apply Qle_shift_div_r; [exact Hpos|]. apply Hsum. unfold Qle. simpl. lia.
  - intros H. apply Ok_inj in H. now subst q.
Qed.

(** The value of the columns' profiles that [execute] builds: each is a
    stored profile of a column. *)
Lemma dict_set_values (V : pyval -> Prop) (k : cell) (v : pyval)
    (d : pydict) :
  V v -> Forall (fun kv => V (snd kv)) d ->
  Forall (fun kv => V (snd kv)) (dict_set k v d).
Proof.
  intros Hv. induction 1 as [|[k' w] d Hw Hd IH]; cbn [dict_set].
  - constructor; auto.
  - destruct (py_eqb k k'); constructor; cbn [snd]; auto.
Qed.

End QualityBound.

Section ScoreOnSuccess.

Context {P : Pandas} {St : Type}.
Variable learning_history : option (Learning St).

Lemma profile_columns_values (df : DataFrame) (learn : bool) (t : pyval)
    (all columns : list (string * (storage * list cell))) :
  forall (profile patterns : pydict) (st st' : St) (res : pydict * pydict),
    incl columns all ->
    profile_columns learning_history df learn t columns profile patterns st
    = (Ok res, st') ->
    Forall (fun kv => exists column col p,
                snd kv = PDict p /\ In (column, col) all
                /\ stored_profile df column col t p)
           profile ->
    Forall (fun kv => exists column col p,
                snd kv = PDict p /\ In (column, col) all
                /\ stored_profile df column col t p)
           (fst res).
Proof.
  induction columns as [|[column col] rest IH];
    intros profile patterns st st' res Hincl Hrun Hall.
  - cbn [profile_columns] in Hrun. now injection Hrun as <- _.
  - apply profile_columns_step in Hrun as [p [pats [st1 [Hp [_ Hrest]]]]].
    apply IH in Hrest; [exact Hrest|intros x Hx; apply Hincl; now right|].
    apply (dict_set_values
             (fun v => exists column col p,
                  v = PDict p /\ In (column, col) all
                  /\ stored_profile df column col t p));
      [|exact Hall].
    exists column, col, p. split; [reflexivity|]. split; [|exact Hp].
    apply Hincl. now left.
Qed.

Lemma missing_patterns_values (df : DataFrame) :
  Forall (fun kv => exists col, snd kv = PDict (missing_record df col))
         (_analyze_missing_patterns df).
Proof.
  unfold _analyze_missing_patterns.
  assert (Hgen : forall l d,
             Forall (fun kv => exists col,
                         snd kv = PDict (missing_record df col)) d ->
             Forall (fun kv => exists col,
                         snd kv = PDict (missing_record df col))
                    (fold_left
                       (fun patterns (column : string * (storage * list cell)) =>
                          dict_set (CStr (fst column))
                            (PDict (missing_record df (snd column))) patterns)
                       l d)).
  { induction l as [|x l IH]; intros d Hd; cbn [fold_left]; auto.
    apply IH.
    apply (dict_set_values
             (fun v => exists col, v = PDict (missing_record df col)));
      eauto. }
  apply Hgen. constructor.
Qed.

(** X12. Whenever [execute] succeeds, the quality score it reports is NaN or
    at most 100: no column's completeness, outlier or missing-pattern
    score exceeds 100. *)
Theorem quality_score_at_most_hundred (now : string) (input : pydata)
    (config : pydict) (st st' : St) (r : Result) :
  execute learning_history now input config st = (r, st') ->
  success r = true ->
  exists q,
    data_entry r "quality_score" = Some (VFloat q) /\ at_most_hundred q.
Proof.
  intros Hrun Hok.
  destruct (execute_success _ _ _ _ _ _ _ Hrun Hok)
    as [df [Hdf [_ [_ Htable]]]].
  destruct (profile_table_success _ _ _ _ _ _ _ Htable)
    as [df' [sampled [profile [patterns [q [st0 [_ [Hcols [Hq ->]]]]]]]]].
  exists q. split; [reflexivity|].
  apply (profile_columns_values df' _ _ (df_columns df')) in Hcols;
    [|apply incl_refl|constructor].
  cbn [fst] in Hcols.
  pose proof (missing_patterns_values df') as Hmiss.
  unfold _calculate_quality_score in Hq.
  destruct (mapM completeness_score profile) as [completeness|e] eqn:Hc;
    cbn [bind] in Hq; [|discriminate].
  destruct (mapM outlier_score profile) as [outlier|e] eqn:Ho;
    cbn [bind] in Hq; [|discriminate].
  destruct (mapM pattern_score (_analyze_missing_patterns df'))
    as [pattern|e] eqn:Hp; cbn [bind] in Hq; [|discriminate].
  assert (Hall : Forall at_most_hundred
                   (completeness ++ somes outlier ++ pattern)).
  { apply Forall_app. split; [|apply Forall_app; split].
    - eapply mapM_Forall; [|exact Hcols|exact Hc].
      intros [k v] y [column [col [p [Hv [_ Hs]]]]] Hy. cbn [snd] in Hv.
      subst v.
      exact (completeness_bound _ _ _ _ _ _ _ Hs Hy).
    - apply somes_Forall. eapply mapM_Forall; [|exact Hcols|exact Ho].
      intros [k v] [y|] [column [col [p [Hv [_ Hs]]]]] Hy; [|exact I].
      cbn [snd] in Hv. subst v.
      exact (proj1 (outlier_bound _ _ _ _ _ _ _ Hs Hy)).
    - eapply mapM_Forall; [|exact Hmiss|exact Hp].
      intros [k v] y [col Hv] Hy. cbn [snd] in Hv. subst v.
      exact (pattern_bound _ _ _ _ Hy). }
  cbv zeta in Hq.
  destruct (completeness ++ somes outlier ++ pattern) as [|s scores] eqn:E.
  - apply Ok_inj in Hq. subst q. unfold at_most_hundred, hundred. lra.
  - exact (average_bound _ _ Hall Hq).
Qed.

End ScoreOnSuccess.

Lemma sampling_metadata_witness :
  success (fst sampled_run) = true
  /\ exists df df' sampled,
       data_get "dataframe" correlations_data = Some (ODataFrame df)
       /\ py_lt (dict_get_default "sample_size" default_sample_size sample_two)
                (VNat (df_len df)) = Ok sampled
       /\ (if sampled
           then pd_sample (Pandas := Reference.pandas) 42
                  (dict_get_default "sample_size" default_sample_size
                     sample_two) df
                = Ok df'
           else df' = df)
       /\ metadata_entry (fst sampled_run) "sampled" = Some (VBool sampled)
       /\ metadata_entry (fst sampled_run) "sample_size"
          = Some (VNat (df_len df'))
       /\ metadata_entry (fst sampled_run) "original_size"
          = Some (VNat (df_len df))
       /\ metadata_entry (fst sampled_run) "profiled_at"
          = Some (VStr "2024-03-01T09:00:00").
Proof.
  split; [reflexivity|].
  apply (sampling_metadata (P := Reference.pandas) (St := unit) None
           "2024-03-01T09:00:00" correlations_data sample_two tt tt);
    reflexivity.
Defined.

Lemma column_maps_keys_witness :
  success (fst sampled_run) = true
  /\ exists df df' sampled profile patterns missing_patterns,
       data_get "dataframe" correlations_data = Some (ODataFrame df)
       /\ profiled_frame (H := Reference.pandas) df sample_two
          = Ok (df', sampled)
       /\ data_entry (fst sampled_run) "profile" = Some (PDict profile)
       /\ data_entry (fst sampled_run) "patterns" = Some (PDict patterns)
       /\ data_entry (fst sampled_run) "missing_patterns"
          = Some (PDict missing_patterns)
       /\ (NoDup (df_names df') ->
           keys profile = map CStr (df_names df')
           /\ keys patterns = map CStr (df_names df')
           /\ keys missing_patterns = map CStr (df_names df')).
Proof.
  split; [reflexivity|].
  apply (column_maps_keys (P := Reference.pandas) (St := unit) None
           "2024-03-01T09:00:00" correlations_data sample_two tt tt);
    reflexivity.
Defined.

Lemma quality_score_at_most_hundred_witness :
  success (fst sampled_run) = true
  /\ exists q,
       data_entry (fst sampled_run) "quality_score" = Some (VFloat q)
       /\ at_most_hundred q.
Proof.
  split; [reflexivity|].
  apply (quality_score_at_most_hundred (P := Reference.pandas) (St := unit)
           None "2024-03-01T09:00:00" correlations_data sample_two tt tt);
    reflexivity.
Defined.

(** ** Orchestrator: the collaborator of [src/utils/learning_history.py] *)

Section HistoryManager.

Context {P : Pandas} {St : Type}.

Lemma execute_outcome (learning_history : option (Learning St))
    (now : string) (input : pydata) (config : pydict) (st st' : St)
    (r : Result) :
  execute learning_history now input config st = (r, st') ->
  success r = true \/ exists errs, r = failure errs.
Proof.
  intros Hrun. destruct (success r) eqn:Hok; [now left|right].
  revert Hrun. unfold execute, execute_body.
  destruct (validate_input input) as [|m ms].
  2: intros H; injection H as <- _; eauto.
  destruct (_validate_config config) as [[|c cs]|e].
  2,3: intros H; injection H as <- _; eauto.
  destruct (data_get "dataframe" input) as [[df|v]|].
  2,3: intros H; injection H as <- _; eauto.
  destruct (profile_table _ _ _ _ _) as [[r0|e] s0] eqn:Htable.
  2: intros H; injection H as <- _; eauto.
  intros H. injection H as <- <-.
  apply profile_table_success in Htable
    as [df' [sampled [profile [patterns [q [st0 [_ [_ [_ ->]]]]]]]]].
  discriminate.
Qed.

(** X13. With a [LearningHistoryManager] as the collaborator and learning
    enabled, as it is by default, no run succeeds on a table whose
    profiled rows keep a column: the manager has none of the methods the
    profiler calls for a column, and the run ends in the failure result. *)
Theorem history_manager_never_succeeds (now : string) (input : pydata)
    (config : pydict) (st st' : St) (r : Result) :
  truthy (dict_get_default "enable_learning" (VBool true) config) = true ->
  (forall df df' sampled,
      data_get "dataframe" input = Some (ODataFrame df) ->
      profiled_frame df config = Ok (df', sampled) ->
      df_columns df' <> []) ->
  execute (Some history_manager) now input config st = (r, st') ->
  success r = false /\ data r = None.
Proof.
  intros Hlearn Hcols Hrun.
  destruct (execute_outcome _ _ _ _ _ _ _ Hrun) as [Hok|[errs ->]];
    [exfalso|split; reflexivity].
  destruct (execute_success _ _ _ _ _ _ _ Hrun Hok)
    as [df [Hdf [_ [_ Htable]]]].
  destruct (profile_table_success _ _ _ _ _ _ _ Htable)
    as [df' [sampled [profile [patterns [q [st0 [Hframe [Hloop _]]]]]]]].
  specialize (Hcols df df' sampled Hdf Hframe).
  rewrite Hlearn in Hloop.
  destruct (df_columns df') as [|[column col] rest]; [now apply Hcols|].
  cbn [profile_columns] in Hloop.
  destruct (_profile_column _ _ _); [|discriminate].
  destruct (_detect_patterns _ _ _); discriminate.
Qed.

End HistoryManager.

Lemma history_manager_never_succeeds_witness :
  truthy (dict_get_default "enable_learning" (VBool true) []) = true
  /\ success
       (fst (execute (P := Reference.pandas) (St := unit)
               (Some history_manager) "2024-03-01T09:00:00"
               correlations_data [] tt)) = false
  /\ data
       (fst (execute (P := Reference.pandas) (St := unit)
               (Some history_manager) "2024-03-01T09:00:00"
               correlations_data [] tt)) = None.
Proof.
  split; [reflexivity|].
  apply (history_manager_never_succeeds (P := Reference.pandas) (St := unit)
           "2024-03-01T09:00:00" correlations_data [] tt tt).
  - reflexivity.
  - intros df df' sampled Hdf Hframe.
    injection Hdf as <-. injection Hframe as <- _. discriminate.
  - reflexivity.
Defined.

(** ** Configuration: the schema and the validation *)

Section Configuration.

Context {P : Pandas} {St : Type}.

(** [execute] reads its configuration through three options only. *)
Lemma execute_reads_three_options (learning_history : option (Learning St))
    (now : string) (input : pydata) (c1 c2 : pydict) (st : St) :
  dict_get_default "enable_learning" (VBool true) c1
  = dict_get_default "enable_learning" (VBool true) c2 ->
  dict_get_default "sample_size" default_sample_size c1
  = dict_get_default "sample_size" default_sample_size c2 ->
  dict_get_default "pattern_threshold" default_pattern_threshold c1
  = dict_get_default "pattern_threshold" default_pattern_threshold c2 ->
  execute learning_history now input c1 st
  = execute learning_history now input c2 st.
Proof.
  intros He Hs Ht.
  unfold execute, execute_body, _validate_config, profile_table.
  cbv zeta. now rewrite He, Hs, Ht.
Qed.

Lemma fill_default_same (k : string) (d : pyval) (config : pydict) :
  dict_get_default k d
    (if dict_mem k config then config else dict_set k d config)
  = dict_get_default k d config.
Proof.
  unfold dict_get_default, dict_mem.
  destruct (dict_get k config) eqn:E; [now rewrite E|].
  now rewrite dict_get_set_same.
Qed.

Lemma fill_default_other (k k' : string) (d d' : pyval) (config : pydict) :
  k <> k' ->
  dict_get_default k d
    (if dict_mem k' config then config else dict_set k' d' config)
  = dict_get_default k d config.
Proof.
  intros Hk. unfold dict_get_default.
  destruct (dict_mem k' config); [reflexivity|].
  now rewrite dict_get_set_other.
Qed.

(** X14. The defaults that the schema documents are the defaults in effect:
    completing a configuration with the schema's default for every option
    it lacks changes nothing in what [execute] returns, nor in what it
    leaves of the collaborator's state. *)
Theorem schema_defaults_in_effect (learning_history : option (Learning St))
    (now : string) (input : pydata) (config : pydict) (st : St) :
  execute learning_history now input (with_schema_defaults config) st
  = execute learning_history now input config st.
Proof.
  apply execute_reads_three_options;
    unfold with_schema_defaults, schema_properties, fill_default;
    cbn [get_config_schema dict_get py_eqb String.eqb Ascii.eqb Bool.eqb
         fold_left fst snd].
  - rewrite !fill_default_other by discriminate. apply fill_default_same.
  - rewrite fill_default_other by discriminate. rewrite fill_default_same.
    apply fill_default_other. discriminate.
  - rewrite fill_default_same. rewrite !fill_default_other by discriminate.
    reflexivity.
Qed.

End Configuration.

(** X15. The validation accepts a configuration exactly when its sample size
    is not negative and its pattern threshold lies between 0 and 1, both
    bounds included: a sample size of zero passes, and so does one under
    the minimum of the schema. *)
Theorem config_accepted_iff (config : pydict) (n q : Q) :
  to_float (dict_get_default "sample_size" default_sample_size config)
  = Ok (Fin n) ->
  to_float (dict_get_default "pattern_threshold" default_pattern_threshold
              config) = Ok (Fin q) ->
  _validate_config config = Ok [] <-> 0 <= n /\ 0 <= q /\ q <= 1.
Proof.
  intros Hn Hq. unfold _validate_config, py_lt, py_le. cbv zeta.
  rewrite Hn, Hq. cbn [to_float num_of bind].
  unfold F.ltb, F.leb, F.of_Z.
  destruct (Qlt_bool_spec n (inject_Z 0)) as [[-> En]|[-> En]];
    destruct (Qle_bool_spec (inject_Z 0) q) as [[-> Eq0]|[-> Eq0]];
    cbn [bind];
    try destruct (Qle_bool_spec q (inject_Z 1)) as [[-> Eq1]|[-> Eq1]];
    cbn [bind negb app];
    change (inject_Z 0) with 0 in *; change (inject_Z 1) with 1 in *;
    (split; [intros H; try discriminate H|intros [H1 [H2 H3]]]);
    try (exfalso; lra); try reflexivity; repeat split; assumption.
Qed.

Lemma config_accepted_iff_witness :
  to_float (dict_get_default "sample_size" default_sample_size sample_two)
  = Ok (Fin 2)
  /\ (_validate_config sample_two = Ok [] <-> 0 <= 2 /\ 0 <= 8 # 10 /\ 8 # 10 <= 1).
Proof.
  split; [reflexivity|].
  apply (config_accepted_iff sample_two 2 (8 # 10)); reflexivity.
Defined.

(** ** Orchestrator: what the collaborator is told *)

Section Recorder.

Context {P : Pandas}.




End Recorder.


(** ** Quality score: when it is a number *)

Section ScoreNumber.

Context {P : Pandas} {St : Type}.
Variable learning_history : option (Learning St).

Lemma completeness_value (df : DataFrame) (column : string)
    (col : storage * list cell) (t : pyval) (p : pydict) (k : cell)
    (f : pyfloat) :
  stored_profile df column col t p ->
  completeness_score (k, PDict p) = Ok f ->
  (f = NaN <-> s_len (series_of df col) = 0%nat).
Proof.
  intros Hs. destruct (stored_profile_get _ _ _ _ _ Hs) as [p0 [Hp0 Hget]].
  destruct (profile_column_entries _ _ _ _ Hp0) as [dtype [_ [_ [Hpct _]]]].
  unfold completeness_score, dict_get_default. cbn [snd as_dict bind].
  rewrite Hget, Hpct, to_float_VFloat by discriminate. cbn [bind].
  intros H. apply Ok_inj in H. subst f.
  destruct (s_len (series_of df col)) as [|n].
  - split; reflexivity.
  - rewrite np_div_ratio by discriminate. split; discriminate.
Qed.

Lemma pattern_number (df : DataFrame) (col : storage * list cell) (k : cell)
    (f : pyfloat) :
  df_len df <> 0%nat ->
  pattern_score (k, PDict (missing_record df col)) = Ok f -> f <> NaN.
Proof.
  intros Hlen. unfold pattern_score, missing_record. cbv zeta. cbn [snd].
  destruct (null_count (series_of df col) =? 0)%nat.
  { intros H. apply Ok_inj in H. subst f. discriminate. }
  destruct (null_count (series_of df col) =? df_len df)%nat.
  { intros H. apply Ok_inj in H. subst f. discriminate. }
  unfold subscript. cbn [dict_get].
  rewrite !py_eqb_str. cbn [String.eqb Ascii.eqb Bool.eqb bind].
  rewrite to_float_VFloat. cbn [bind].
  rewrite np_div_ratio by assumption.
  destruct (eq_str _ "random"); [|destruct (eq_str _ "systematic")];
    intros H; apply Ok_inj in H; subst f; discriminate.
Qed.

Lemma sum_nan (scores : list pyfloat) : fold_left F.add scores NaN = NaN.
Proof. induction scores as [|x scores IH]; cbn [fold_left F.add]; auto. Qed.

Lemma sum_number (scores : list pyfloat) :
  Forall (fun f => f <> NaN) scores ->
  forall a, fold_left F.add scores (Fin a) <> NaN.
Proof.
  induction 1 as [|x scores Hx _ IH]; intros a; cbn [fold_left].
  - discriminate.
  - destruct x as [y|]; [apply IH|congruence].
Qed.

Lemma mapM_length {A B} (f : A -> res B) (l : list A) :
  forall ys, mapM f l = Ok ys -> List.length ys = List.length l.
Proof.
  induction l as [|x l IH]; intros ys; cbn [mapM].
  - intros H. apply Ok_inj in H. now subst ys.
  - destruct (f x) as [y|e]; cbn [bind]; [|discriminate].
    destruct (mapM f l) as [ys'|e]; cbn [bind]; [|discriminate].
    intros H. apply Ok_inj in H. subst ys. cbn [List.length].
    now rewrite (IH ys').
Qed.

Lemma profile_columns_nonempty (df : DataFrame) (learn : bool) (t : pyval)
    (columns : list (string * (storage * list cell))) :
  forall (profile patterns : pydict) (st st' : St) (res : pydict * pydict),
    profile_columns learning_history df learn t columns profile patterns st
    = (Ok res, st') ->
    columns <> [] \/ profile <> [] -> fst res <> [].
Proof.
  induction columns as [|[column col] rest IH];
    intros profile patterns st st' res Hrun Hne.
  - cbn [profile_columns] in Hrun. injection Hrun as <- _.
    destruct Hne as [Hne|Hne]; [now elim Hne|exact Hne].
  - apply profile_columns_step in Hrun as [p [pats [st1 [_ [_ Hrest]]]]].
    apply IH in Hrest; [exact Hrest|]. right.
    destruct profile as [|[k v] profile]; cbn [dict_set]; [discriminate|].
    destruct (py_eqb column k); discriminate.
Qed.

(** X17. Whenever [execute] succeeds on a profiled table that has a column
    and whose columns are as long as its index, the quality score is NaN
    exactly when that table has no row, which a sample of size zero
    brings about; with a row or more the score is a number. *)
Theorem quality_score_nan_iff (now : string) (input : pydata)
    (config : pydict) (st st' : St) (r : Result) :
  execute learning_history now input config st = (r, st') ->
  success r = true ->
  exists df df' sampled q,
    data_get "dataframe" input = Some (ODataFrame df)
    /\ profiled_frame df config = Ok (df', sampled)
    /\ data_entry r "quality_score" = Some (VFloat q)
    /\ (df_columns df' <> [] ->
        Forall (fun c => List.length (snd (snd c)) = df_len df')
               (df_columns df') ->
        (q = NaN <-> df_len df' = 0%nat)).
Proof.
  intros Hrun Hok.
  destruct (execute_success _ _ _ _ _ _ _ Hrun Hok)
    as [df [Hdf [_ [_ Htable]]]].
  destruct (profile_table_success _ _ _ _ _ _ _ Htable)
    as [df' [sampled [profile [patterns [q [st0 [Hframe [Hcols [Hq ->]]]]]]]]].
  exists df, df', sampled, q.
  split; [exact Hdf|]. split; [exact Hframe|]. split; [reflexivity|].
  intros Hne Hwf.
  pose proof (profile_columns_nonempty _ _ _ _ _ _ _ _ _ Hcols (or_introl Hne))
    as Hprofile.
  apply (profile_columns_values _ df' _ _ (df_columns df')) in Hcols;
    [|apply incl_refl|constructor].
  cbn [fst] in Hcols, Hprofile.
  assert (Hrows : Forall
            (fun kv => exists column col p,
                 snd kv = PDict p
                 /\ s_len (series_of df' col) = df_len df'
                 /\ stored_profile df' column col
                      (dict_get_default "pattern_threshold"
                         default_pattern_threshold config) p)
            profile).
  { revert Hcols. apply Forall_impl.
    intros kv [column [col [p [Hv [Hin Hs]]]]].
    exists column, col, p. split; [exact Hv|]. split; [|exact Hs].
    apply series_of_len.
    exact (proj1 (Forall_forall _ _) Hwf (column, col) Hin). }
  pose proof (missing_patterns_values df') as Hmiss.
  unfold _calculate_quality_score in Hq.
  destruct (mapM completeness_score profile) as [completeness|e] eqn:Hc;
    cbn [bind] in Hq; [|discriminate].
  destruct (mapM outlier_score profile) as [outlier|e] eqn:Ho;
    cbn [bind] in Hq; [|discriminate].
  destruct (mapM pattern_score (_analyze_missing_patterns df'))
    as [pattern|e] eqn:Hp; cbn [bind] in Hq; [|discriminate].
  cbv zeta in Hq.
  assert (Hcomp : Forall (fun f => f = NaN <-> df_len df' = 0%nat)
                    completeness).
  { eapply mapM_Forall; [|exact Hrows|exact Hc].
    intros [k v] y [column [col [p [Hv [Hlen Hs]]]]] Hy. cbn [snd] in Hv.
    subst v. rewrite <- Hlen.
    exact (completeness_value _ _ _ _ _ _ _ Hs Hy). }
  assert (Hout : Forall (fun f => f <> NaN) (somes outlier)).
  { apply somes_Forall. eapply mapM_Forall; [|exact Hcols|exact Ho].
    intros [k v] [y|] [column [col [p [Hv [_ Hs]]]]] Hy; [|exact I].
    cbn [snd] in Hv. subst v.
    exact (proj2 (outlier_bound _ _ _ _ _ _ _ Hs Hy)). }
  apply mapM_length in Hc as Hclen.
  destruct completeness as [|c completeness];
    [destruct profile; [now elim Hprofile|discriminate Hclen]|].
  cbn [app] in Hq.
  split.
  - intros ->. destruct (Nat.eq_dec (df_len df') 0) as [Hz|Hz]; [exact Hz|].
    exfalso.
    assert (Hall : Forall (fun f => f <> NaN)
                     (c :: completeness ++ somes outlier ++ pattern)).
    { change (c :: completeness ++ somes outlier ++ pattern)
        with ((c :: completeness) ++ somes outlier ++ pattern).
      apply Forall_app. split; [|apply Forall_app; split].
      - revert Hcomp. apply Forall_impl. intros f Hf Hnan.
        apply Hz. now apply Hf.
      - exact Hout.
      - eapply mapM_Forall; [|exact Hmiss|exact Hp].
        intros [k v] y [col Hv] Hy. cbn [snd] in Hv. subst v.
        exact (pattern_number _ _ _ _ Hz Hy). }
    pose proof (sum_number _ Hall 0) as Hsum. unfold sum_scores in Hq.
    destruct (fold_left F.add _ (Fin 0)) as [s|]; [|now elim Hsum].
    unfold F.py_div, F.of_nat in Hq.
    destruct (Qeq_bool _ 0); discriminate.
  - intros Hz. inversion Hcomp as [|? ? Hhead _]; subst.
    assert (c = NaN) by now apply Hhead. subst c.
    unfold sum_scores in Hq. cbn [fold_left F.add] in Hq.
    rewrite sum_nan in Hq. cbn [F.py_div] in Hq.
    apply Ok_inj in Hq. now subst q.
Qed.

End ScoreNumber.

(** ** Orchestrator: the entry of each column *)

Section ColumnEntries.

Context {P : Pandas} {St : Type}.
Variable learning_history : option (Learning St).

Lemma profile_columns_other (df : DataFrame) (learn : bool) (t : pyval)
    (columns : list (string * (storage * list cell))) (name : string) :
  forall (profile patterns : pydict) (st st' : St) (res : pydict * pydict),
    profile_columns learning_history df learn t columns profile patterns st
    = (Ok res, st') ->
    ~ In name (map fst columns) ->
    dict_get (CStr name) (fst res) = dict_get (CStr name) profile
    /\ dict_get (CStr name) (snd res) = dict_get (CStr name) patterns.
Proof.
  induction columns as [|[column col] rest IH];
    intros profile patterns st st' res Hrun Hnot.
  - cbn [profile_columns] in Hrun. injection Hrun as <- _. auto.
  - apply profile_columns_step in Hrun as [p [pats [st1 [_ [_ Hrest]]]]].
    cbn [map fst In] in Hnot.
    apply IH in Hrest; [|tauto].
    rewrite !dict_get_set_other in Hrest by (intros ->; tauto).
    exact Hrest.
Qed.

Lemma profile_columns_entries (df : DataFrame) (learn : bool) (t : pyval)
    (columns : list (string * (storage * list cell))) :
  forall (profile patterns : pydict) (st st' : St) (res : pydict * pydict),
    profile_columns learning_history df learn t columns profile patterns st
    = (Ok res, st') ->
    NoDup (map fst columns) ->
    forall name col,
      In (name, col) columns ->
      exists p pats,
        dict_get (CStr name) (fst res) = Some (PDict p)
        /\ stored_profile df name col t p
        /\ dict_get (CStr name) (snd res) = Some (PDict pats)
        /\ _detect_patterns (series_of df col) name t = Ok pats.
Proof.
  induction columns as [|[column col0] rest IH];
    intros profile patterns st st' res Hrun Hnd name col Hin; [easy|].
  apply profile_columns_step in Hrun as [p [pats [st1 [Hp [Hd Hrest]]]]].
  cbn [map fst] in Hnd. inversion Hnd as [|? ? Hnot Hnd']; subst.
  destruct Hin as [Heq|Hin].
  - injection Heq as -> ->.
    destruct (profile_columns_other _ _ _ _ name _ _ _ _ _ Hrest Hnot)
      as [H1 H2].
    rewrite dict_get_set_same in H1, H2.
    exists p, pats. auto.
  - exact (IH _ _ _ _ _ Hrest Hnd' name col Hin).
Qed.

(** X18. Whenever [execute] succeeds on a profiled table whose columns have
    distinct names, the result is put together from the parts: under the
    name of each column, the profile holds what [_profile_column] returns
    for it, with the collaborator's suggestion if any, the patterns hold
    what [_detect_patterns] returns for it, and the missing patterns hold
    its record; the correlations are those of the profiled table. *)
Theorem result_of_each_column (now : string) (input : pydata)
    (config : pydict) (st st' : St) (r : Result) :
  execute learning_history now input config st = (r, st') ->
  success r = true ->
  exists df df' sampled profile patterns missing_patterns,
    data_get "dataframe" input = Some (ODataFrame df)
    /\ profiled_frame df config = Ok (df', sampled)
    /\ data_entry r "profile" = Some (PDict profile)
    /\ data_entry r "patterns" = Some (PDict patterns)
    /\ data_entry r "missing_patterns" = Some (PDict missing_patterns)
    /\ data_entry r "correlations"
       = Some (PDict (_calculate_correlations df'))
    /\ (NoDup (df_names df') ->
        forall name col,
          In (name, col) (df_columns df') ->
          exists p pats,
            dict_get (CStr name) profile = Some (PDict p)
            /\ stored_profile df' name col
                 (dict_get_default "pattern_threshold"
                    default_pattern_threshold config) p
            /\ dict_get (CStr name) patterns = Some (PDict pats)
            /\ _detect_patterns (series_of df' col) name
                 (dict_get_default "pattern_threshold"
                    default_pattern_threshold config) = Ok pats
            /\ dict_get (CStr name) missing_patterns
               = Some (PDict (missing_record df' col))).
Proof.
  intros Hrun Hok.
  destruct (execute_success _ _ _ _ _ _ _ Hrun Hok)
    as [df [Hdf [_ [_ Htable]]]].
  destruct (profile_table_success _ _ _ _ _ _ _ Htable)
    as [df' [sampled [profile [patterns [q [st0 [Hframe [Hcols [_ ->]]]]]]]]].
  exists df, df', sampled, profile, patterns, (_analyze_missing_patterns df').
  split; [exact Hdf|]. split; [exact Hframe|].
  split; [reflexivity|]. split; [reflexivity|]. split; [reflexivity|].
  split; [reflexivity|].
  intros Hnd name col Hin.
  destruct (profile_columns_entries _ _ _ _ _ _ _ _ _ Hcols Hnd name col Hin)
    as [p [pats [H1 [H2 [H3 H4]]]]].
  exists p, pats. cbn [fst snd] in H1, H3.
  split; [exact H1|]. split; [exact H2|]. split; [exact H3|].
  split; [exact H4|].
  unfold _analyze_missing_patterns.
  rewrite (dict_get_fold_set fst
             (fun column : string * (storage * list cell) =>
                PDict (missing_record df' (snd column)))) by exact Hnd.
  change name with (fst (name, col)).
  now rewrite (find_NoDup_In fst (df_columns df') (name, col) Hnd Hin).
Qed.

End ColumnEntries.

Lemma result_of_each_column_witness :
  success (fst sampled_run) = true
  /\ exists df df' sampled profile patterns missing_patterns,
       data_get "dataframe" correlations_data = Some (ODataFrame df)
       /\ profiled_frame (H := Reference.pandas) df sample_two
          = Ok (df', sampled)
       /\ data_entry (fst sampled_run) "profile" = Some (PDict profile)
       /\ data_entry (fst sampled_run) "patterns" = Some (PDict patterns)
       /\ data_entry (fst sampled_run) "missing_patterns"
          = Some (PDict missing_patterns)
       /\ data_entry (fst sampled_run) "correlations"
          = Some (PDict (_calculate_correlations (P := Reference.pandas) df'))
       /\ (NoDup (df_names df') ->
           forall name col,
             In (name, col) (df_columns df') ->
             exists p pats,
               dict_get (CStr name) profile = Some (PDict p)
               /\ stored_profile (H := Reference.pandas) df' name col
                    (dict_get_default "pattern_threshold"
                       default_pattern_threshold sample_two) p
               /\ dict_get (CStr name) patterns = Some (PDict pats)
               /\ _detect_patterns (P := Reference.pandas)
                    (series_of df' col) name
                    (dict_get_default "pattern_threshold"
                       default_pattern_threshold sample_two) = Ok pats
               /\ dict_get (CStr name) missing_patterns
                  = Some (PDict (missing_record df' col))).
Proof.
  split; [reflexivity|].
  apply (result_of_each_column (P := Reference.pandas) (St := unit) None
           "2024-03-01T09:00:00" correlations_data sample_two tt tt);
    reflexivity.
Defined.

Lemma quality_score_nan_iff_witness :
  success (fst sampled_run) = true
  /\ exists df df' sampled q,
       data_get "dataframe" correlations_data = Some (ODataFrame df)
       /\ profiled_frame (H := Reference.pandas) df sample_two
          = Ok (df', sampled)
       /\ data_entry (fst sampled_run) "quality_score" = Some (VFloat q)
       /\ (df_columns df' <> [] ->
           Forall (fun c => List.length (snd (snd c)) = df_len df')
                  (df_columns df') ->
           (q = NaN <-> df_len df' = 0%nat)).
Proof.
  split; [reflexivity|].
  apply (quality_score_nan_iff (P := Reference.pandas) (St := unit) None
           "2024-03-01T09:00:00" correlations_data sample_two tt tt);
    reflexivity.
Defined.

(** ** Pattern detector: the categorical flag *)

Section Categorical.

Context {P : Pandas}.

(** Under one in twenty, in integers. *)
Lemma under_one_twentieth (u len : nat) :
  (0 < len)%nat ->
  Qlt_bool (ratio u len) (1 # 20) = (20 * u <? len)%nat.
Proof.
  intros Hlen. unfold Qlt_bool.
  destruct (20 * u <? len)%nat eqn:E.
  - apply Nat.ltb_lt in E. apply negb_true_iff.
    destruct (Qle_bool (1 # 20) (ratio u len)) eqn:Q; auto.
    apply Qle_bool_iff in Q. exfalso.
    unfold ratio, Qle, Qdiv, Qmult, Qinv, inject_Z in Q. simpl in Q.
    destruct (Z.of_nat len) eqn:Z; try lia. simpl in Q. nia.
  - apply Nat.ltb_ge in E. apply negb_false_iff. apply Qle_bool_iff.
    unfold ratio, Qle, Qdiv, Qmult, Qinv, inject_Z. simpl.
    destruct (Z.of_nat len) eqn:Z; try lia. simpl. nia.
Qed.

Lemma distinct_count_le (l : list cell) :
  (distinct_count l <= List.length l)%nat.
Proof.
  unfold distinct_count.
  pose proof (filter_length_le notnull (dedupe [] l)).
  pose proof (dedupe_length_le [] l). lia.
Qed.

Lemma categorical_step (series : Series) (patterns : pydict) :
  (0 < s_len series)%nat ->
  exists c,
    pytry_class TypeError
      (do unique_count <- pd_nunique (s_values series);
       let unique_ratio := ratio unique_count (s_len series) in
       Ok (dict_set "is_categorical"
             (VBool ((unique_count <=? 10)%nat
                     || (Qlt_bool unique_ratio (1 # 20)
                         && (unique_count <? 50)%nat)))
             patterns))
      (Ok (dict_set "is_categorical" (VBool false) patterns))
    = Ok (dict_set "is_categorical" (VBool c) patterns)
    /\ (c = true <->
        existsb unhashable (s_values series) = false
        /\ let u := distinct_count (s_values series) in
           (u <= 10 \/ (20 * u < s_len series /\ u < 50))%nat).
Proof.
  intros Hlen.
  destruct (pd_nunique_cases (s_values series)) as [[Hu ->]|[Hu ->]];
    cbn [pytry_class bind exc_cls exc_class_eqb].
  - exists false. split; [reflexivity|]. rewrite Hu.
    split; [discriminate|intros [H _]; discriminate].
  - eexists. split; [reflexivity|].
    fold (distinct_count (s_values series)). cbv zeta.
    rewrite under_one_twentieth by assumption.
    rewrite orb_true_iff, andb_true_iff, Nat.leb_le, !Nat.ltb_lt.
    tauto.
Qed.

(** X19. For a column with a value that is not missing, the flag
    is_categorical is true exactly when the values can be hashed and the
    distinct values, missing cells apart, number at most ten, or fewer
    than fifty and fewer than a twentieth of the rows. So every column of
    at most ten rows is categorical, a column of distinct identifiers
    included. *)
Theorem is_categorical_flag (series : Series) (column_name : string)
    (threshold : pyval) (t : pyfloat) :
  to_float threshold = Ok t ->
  s_len (dropna series) <> 0%nat ->
  exists patterns c,
    _detect_patterns series column_name threshold = Ok patterns
    /\ dict_get (CStr "is_categorical") patterns = Some (VBool c)
    /\ (c = true <->
        existsb unhashable (s_values series) = false
        /\ let u := distinct_count (s_values series) in
           (u <= 10 \/ (20 * u < s_len series /\ u < 50))%nat)
    /\ (existsb unhashable (s_values series) = false ->
        (s_len series <= 10)%nat -> c = true).
Proof.
  intros Ht Hne.
  assert (Hlen : (0 < s_len series)%nat).
  { pose proof (null_and_not_null series). lia. }
  assert (Hshort : forall c,
             (c = true <->
              existsb unhashable (s_values series) = false
              /\ let u := distinct_count (s_values series) in
                 (u <= 10 \/ (20 * u < s_len series /\ u < 50))%nat) ->
             existsb unhashable (s_values series) = false ->
             (s_len series <= 10)%nat -> c = true).
  { intros c Hc Hu Hten. apply Hc. split; [exact Hu|]. cbv zeta. left.
    pose proof (distinct_count_le (s_values series)) as Hd.
    unfold s_len, s_values in *. rewrite length_map in Hd. lia. }
  unfold _detect_patterns.
  apply Nat.eqb_neq in Hne. rewrite Hne.
  destruct (forallb is_str (head 100 (dropna series))).
  - unfold string_patterns.
    rewrite !(ge_threshold_ok _ t) by assumption. cbn [bind].
    destruct (determine_dtype_total series) as [dtype ->]. cbn [bind].
    destruct (String.eqb dtype "datetime"); cbn [bind];
      match goal with
      | |- context [dict_set (CStr "is_id") (VBool true) ?p] =>
          destruct (is_id_step series p) as [b [-> Hb]]; cbn [bind];
          destruct (categorical_step series (dict_set "is_id" (VBool b) p)
                      Hlen) as [c [Hc Hiff]];
          cbv zeta in Hc |- *; rewrite Hc; cbn [bind];
          destruct (is_continuous_step series
                      (dict_set "is_categorical" (VBool c)
                         (dict_set "is_id" (VBool b) p))) as [k Hk];
          cbv zeta in Hk |- *; rewrite Hk;
          eexists; exists c; split; [reflexivity|];
          split; [lookup; reflexivity|]; split; [exact Hiff|];
          apply Hshort; exact Hiff
      end.
  - cbn [bind].
    destruct (categorical_step series [] Hlen) as [c [Hc Hiff]];
      cbv zeta in Hc |- *; rewrite Hc; cbn [bind].
    destruct (is_continuous_step series
                (dict_set "is_categorical" (VBool c) [])) as [k Hk];
      cbv zeta in Hk |- *; rewrite Hk.
    eexists. exists c. split; [reflexivity|].
    split; [lookup; reflexivity|]. split; [exact Hiff|].
    apply Hshort. exact Hiff.
Qed.

End Categorical.

Lemma is_categorical_flag_witness :
  s_len (dropna gap_id_example) <> 0%nat
  /\ exists patterns c,
       _detect_patterns (P := Reference.pandas) gap_id_example "ref"
         default_pattern_threshold = Ok patterns
       /\ dict_get (CStr "is_categorical") patterns = Some (VBool c)
       /\ (c = true <->
           existsb unhashable (s_values gap_id_example) = false
           /\ let u := distinct_count (s_values gap_id_example) in
              (u <= 10 \/ (20 * u < s_len gap_id_example /\ u < 50))%nat)
       /\ (existsb unhashable (s_values gap_id_example) = false ->
           (s_len gap_id_example <= 10)%nat -> c = true).
Proof.
  split; [discriminate|].
  apply (is_categorical_flag (P := Reference.pandas) gap_id_example "ref"
           default_pattern_threshold (Fin (8 # 10)));
    [reflexivity|discriminate].
Defined.

(** ** The two identifier flags of a text column *)

Section IdentifierFlags.

Context {P : Pandas}.

Lemma dropna_notnull (series : Series) :
  forallb notnull (s_values (dropna series)) = true.
Proof.
  unfold s_values, dropna. cbn [s_rows].
  induction (s_rows series) as [|r rows IH]; cbn [filter map forallb]; auto.
  destruct (notnull (snd r)) eqn:E; cbn [map forallb snd]; auto.
  now rewrite E.
Qed.

Lemma dropna_nothing (series : Series) :
  forallb notnull (s_values series) = true ->
  s_values (dropna series) = s_values series.
Proof.
  unfold s_values, dropna. cbn [s_rows].
  induction (s_rows series) as [|r rows IH]; cbn [filter map forallb]; auto.
  intros H. apply andb_prop in H as [Hr Hrows]. rewrite Hr. cbn [map].
  f_equal. auto.
Qed.

Lemma no_null_iff (series : Series) :
  null_count series = 0%nat <-> forallb notnull (s_values series) = true.
Proof.
  unfold null_count.
  induction (s_values series) as [|c l IH]; cbn [filter forallb]; [easy|].
  unfold notnull at 1. destruct (isnull c); cbn [negb andb List.length].
  - split; discriminate.
  - exact IH.
Qed.

Local Ltac other_label :=
  let H := fresh "H" in
  let Hd := fresh "Hd" in
  intros H Hd; apply Ok_inj in H; subst; exfalso; revert Hd;
  match goal with
  | |- context [dict_get ?k ?x] =>
      let v := eval cbn in (dict_get k x) in
      change (dict_get k x) with v
  end;
  discriminate.

(** The is_potential_id of a profile of dtype 'string'. *)
Lemma profile_column_potential_id (series : Series) (column_name : string)
    (threshold : pyval) (counts : list (cell * Z)) (p : pydict) :
  s_len (dropna series) <> 0%nat ->
  existsb unhashable (s_values (dropna series)) = false ->
  pd_value_counts (s_values (dropna series)) = Ok counts ->
  _profile_column series column_name threshold = Ok p ->
  dict_get (CStr "dtype") p = Some (VStr "string") ->
  dict_get (CStr "is_potential_id") p
  = Some (VBool (negb (distinct_count (s_values (dropna series)) =? 0)%nat
                 && (distinct_count (s_values (dropna series))
                     =? s_len (dropna series))%nat)).
Proof.
  intros Hne Hhash Hcounts. unfold _profile_column.
  apply Nat.eqb_neq in Hne. rewrite Hne.
  destruct (classifier_label (dropna series)) as [label [-> Hin]].
  rewrite Hne in Hin. cbn [bind].
  unfold dtype_labels in Hin. cbn [In] in Hin.
  destruct Hin as [<-|[<-|[<-|[<-|[<-|[<-|[]]]]]]];
    cbn [String.eqb Ascii.eqb Bool.eqb].
  - unfold _profile_datetime.
    destruct (pd_to_datetime _ _) as [parsed|e]; cbn [bind]; [|discriminate].
    destruct (somes parsed); cbn [bind];
      [|destruct (_detect_date_frequency _) as [frequency|e]; cbn [bind];
        [|discriminate]];
      other_label.
  - unfold _profile_boolean. rewrite Hcounts. cbn [bind]. other_label.
  - unfold _profile_numeric.
    destruct (to_numeric _) as [nums|e]; cbn [bind]; [|discriminate].
    other_label.
  - unfold _profile_mixed, nunique_or_None.
    destruct (pd_nunique_cases (s_values (dropna series)))
      as [[_ ->]|[_ ->]]; cbn [bind pytry_class exc_cls exc_class_eqb];
      other_label.
  - unfold _profile_string.
    destruct (pd_nunique_cases (s_values (dropna series)))
      as [[Hu _]|[_ ->]]; [congruence|].
    rewrite Hcounts. cbn [bind pytry_class exc_cls exc_class_eqb].
    intros H _. apply Ok_inj in H. subst p. reflexivity.
  - unfold _profile_object, nunique_or_None.
    destruct (pd_nunique_cases (s_values (dropna series)))
      as [[_ ->]|[_ ->]]; cbn [bind pytry_class exc_cls exc_class_eqb];
      other_label.
Qed.

(** X20. For a text column profiled as 'string', the profile's
    is_potential_id is true exactly when the values that are not missing
    are pairwise distinct, while the pattern detector's is_id is true
    exactly when, besides, no cell is missing: the two flags of the same
    column differ as soon as a column of distinct texts has a missing
    cell. *)
Theorem potential_id_and_is_id (series : Series) (column_name : string)
    (threshold : pyval) (t : pyfloat) (counts : list (cell * Z))
    (p : pydict) :
  to_float threshold = Ok t ->
  s_len (dropna series) <> 0%nat ->
  forallb is_str (s_values (dropna series)) = true ->
  pd_value_counts (s_values (dropna series)) = Ok counts ->
  _profile_column series column_name threshold = Ok p ->
  dict_get (CStr "dtype") p = Some (VStr "string") ->
  exists patterns b i,
    _detect_patterns series column_name threshold = Ok patterns
    /\ dict_get (CStr "is_potential_id") p = Some (VBool b)
    /\ dict_get (CStr "is_id") patterns = Some (VBool i)
    /\ (b = true <-> distinct (s_values (dropna series)))
    /\ (i = true <-> b = true /\ null_count series = 0%nat).
Proof.
  intros Ht Hne Hstr Hcounts Hp Hd.
  pose proof (text_is_hashable _ Hstr) as Hhash.
  destruct (is_id_flag series column_name threshold t Ht Hne
              (forallb_firstn is_str 100 _ Hstr))
    as [patterns [i [Hrun [Hi Hiff]]]].
  exists patterns. eexists. exists i.
  split; [exact Hrun|].
  split; [exact (profile_column_potential_id _ _ _ _ _ Hne Hhash Hcounts Hp Hd)|].
  split; [exact Hi|].
  assert (Hlen : s_len (dropna series)
                 = List.length (s_values (dropna series))).
  { unfold s_len, s_values. now rewrite length_map. }
  assert (Hb : negb (distinct_count (s_values (dropna series)) =? 0)%nat
               && (distinct_count (s_values (dropna series))
                   =? s_len (dropna series))%nat = true
               <-> distinct (s_values (dropna series))).
  { rewrite andb_true_iff, negb_true_iff, Nat.eqb_neq, Nat.eqb_eq, Hlen.
    unfold distinct_count. rewrite nunique_full.
    pose proof (dropna_notnull series) as Hnn.
    split.
    - intros [_ [_ H]]. exact H.
    - intros H. split; [|split; [exact Hnn|exact H]].
      assert (Hfull : List.length (filter notnull
                                     (dedupe [] (s_values (dropna series))))
                      = List.length (s_values (dropna series)))
        by (apply nunique_full; auto).
      rewrite Hfull, <- Hlen. exact Hne. }
  split; [exact Hb|].
  rewrite Hiff, Hb, no_null_iff. split.
  - intros [_ [Hnn Hdist]].
    rewrite (dropna_nothing _ Hnn). auto.
  - intros [Hdist Hnn]. rewrite (dropna_nothing _ Hnn) in Hdist, Hhash. auto.
Qed.

End IdentifierFlags.

Lemma potential_id_and_is_id_witness :
  _profile_column (P := Reference.pandas) gap_id_example "ref"
    default_pattern_threshold = Ok gap_id_profile
  /\ dict_get (CStr "dtype") gap_id_profile = Some (VStr "string")
  /\ exists patterns b i,
       _detect_patterns (P := Reference.pandas) gap_id_example "ref"
         default_pattern_threshold = Ok patterns
       /\ dict_get (CStr "is_potential_id") gap_id_profile = Some (VBool b)
       /\ dict_get (CStr "is_id") patterns = Some (VBool i)
       /\ (b = true <-> distinct (s_values (dropna gap_id_example)))
       /\ (i = true <-> b = true /\ null_count gap_id_example = 0%nat).
Proof.
  split; [reflexivity|]. split; [reflexivity|].
  eapply (potential_id_and_is_id (P := Reference.pandas) gap_id_example "ref"
            default_pattern_threshold (Fin (8 # 10)) _ gap_id_profile);
    first [reflexivity | discriminate].
Defined.

(** ** Mixed columns: the distribution of types *)

Section TypeDistribution.

Context {P : Pandas}.

Lemma type_counts_fold (l : list cell) :
  forall (d : pydict) (seen : list cell),
    (forall name,
        dict_get (CStr name) d
        = if (count_of_type name seen =? 0)%nat then None
          else Some (VNat (count_of_type name seen))) ->
    forall name,
      dict_get (CStr name)
        (fold_left
           (fun d value =>
              let type_name := CStr (type_name (type_of value)) in
              match dict_get_default type_name (VInt 0) d with
              | Atom (CInt n) => dict_set type_name (VInt (n + 1)) d
              | _ => d
              end)
           l d)
      = if (count_of_type name (seen ++ l) =? 0)%nat then None
        else Some (VNat (count_of_type name (seen ++ l))).
Proof.
  induction l as [|v l IH]; intros d seen Hd name; cbn [fold_left].
  - rewrite app_nil_r. apply Hd.
  - change (seen ++ v :: l) with (seen ++ [v] ++ l). rewrite app_assoc.
    apply IH. clear IH name. intros name. cbv zeta.
    assert (Hcur : dict_get_default (CStr (type_name (type_of v))) (VInt 0) d
                   = VNat (count_of_type (type_name (type_of v)) seen)).
    { unfold dict_get_default. rewrite Hd.
      destruct (count_of_type _ seen =? 0)%nat eqn:E; [|reflexivity].
      apply Nat.eqb_eq in E. now rewrite E. }
    rewrite Hcur. unfold VNat at 1.
    unfold count_of_type. rewrite filter_app, length_app.
    cbn [filter].
    destruct (String.eqb (type_name (type_of v)) name) eqn:E.
    + apply String.eqb_eq in E. subst name. rewrite dict_get_set_same.
      cbn [List.length]. rewrite Nat.add_1_r. cbn [Nat.eqb].
      unfold VNat, VInt. now rewrite Nat2Z.inj_succ.
    + apply String.eqb_neq in E.
      rewrite dict_get_set_other by congruence.
      cbn [List.length]. rewrite Nat.add_0_r. apply Hd.
Qed.

(** X21. The profile of a mixed column never raises, and its
    type_distribution counts every value once: under the name of each
    Python type it holds the number of values of that type, and a type
    with no value has no entry. *)
Theorem type_distribution_counts (series : Series) :
  exists d dist,
    _profile_mixed series = Ok d
    /\ dict_get (CStr "type_distribution") d = Some (PDict dist)
    /\ forall name,
         dict_get (CStr name) dist
         = if (count_of_type name (s_values series) =? 0)%nat then None
           else Some (VNat (count_of_type name (s_values series))).
Proof.
  unfold _profile_mixed, nunique_or_None.
  destruct (pd_nunique_cases (s_values series)) as [[_ ->]|[_ ->]];
    cbn [bind pytry_class exc_cls exc_class_eqb];
    eexists; eexists; (split; [reflexivity|]); (split; [reflexivity|]);
    intros name;
    apply (type_counts_fold (s_values series) [] [] (fun _ => eq_refl)).
Qed.

End TypeDistribution.

(** ** Orchestrator: two runs *)

Section TwoRuns.

Context {P : Pandas}.





Section OneCollaborator.

Context {St : Type}.
Variable learning_history : option (Learning St).




End OneCollaborator.

Section TwoCollaborators.

Context {St1 St2 : Type}.
Variable lh1 : option (Learning St1).
Variable lh2 : option (Learning St2).


End TwoCollaborators.

End TwoRuns.


